(** * ssacl: the ACL text codec of [ssacl.py]

    A shallow embedding of the parser ([mmacls.get_acl]), the in-memory
    mutators of class [mmacls], the serializer ([write_acl_file]), the
    update-or-append helpers ([gac_update_acl], [gac_update_default_acl])
    and the command runner ([execute_command]), with the properties of the
    specification stated and settled against them; then the rest of the
    class (its constructor, flags, setters and dumps) and of the module
    ([set_acl], [set_default_acl], [run_cmd]), with what the code shows
    of them.

    Python values are modelled as follows:
    - [str] is [string]; the byte-string operations the code uses
      ([in], [startswith], [split(':')], slicing, [splitlines]) are the
      functions of module [PyStr];
    - the ACL dictionary is the record [acl]; a key that may be missing is an
      [option] field, the two nested dictionaries are [gmap string entry];
    - an exception is a value of [exn], a computation that may raise returns
      a [result]. *)

From stdpp Require Import gmap strings list fin_maps pretty.
From Stdlib Require Import Ascii ZArith.
From Stdlib Require String.

#[local] Open Scope Z_scope.

(** ** Python byte strings *)

Module PyStr.

(** The characters at which [str.splitlines] of a byte string breaks. *)
Definition LF : ascii := "010"%char.
Definition CR : ascii := "013"%char.
Definition nl : string := String LF EmptyString.

(** [s.startswith(p)] *)
Definition startswith (p s : string) : bool := String.prefix p s.

(** [p in s] *)
Fixpoint contains (p s : string) : bool :=
  String.prefix p s ||
  match s with
  | EmptyString => false
  | String _ s' => contains p s'
  end.

(** [s.split(c)] for a one-character separator: never empty. *)
Fixpoint split (c : ascii) (s : string) : list string :=
  match s with
  | EmptyString => [EmptyString]
  | String a s' =>
      if decide (a = c) then EmptyString :: split c s'
      else match split c s' with
           | f :: fs => String a f :: fs
           | [] => [String a EmptyString]
           end
  end.

(** [s[i:j]] for literal bounds [0 <= i <= j]: saturates at the end of [s]. *)
Definition slice (i j : nat) (s : string) : string :=
  String.substring i (j - i) s.

(** [s.splitlines()] of a byte string: breaks at LF, CR and CR LF, and the
    last line needs no terminator. *)
Fixpoint splitlines (s : string) : list string :=
  match s with
  | EmptyString => []
  | String a s' =>
      if decide (a = LF) then EmptyString :: splitlines s'
      else if decide (a = CR) then
        match s' with
        | String b s'' =>
            if decide (b = LF) then EmptyString :: splitlines s''
            else EmptyString :: splitlines s'
        | EmptyString => [EmptyString]
        end
      else match splitlines s' with
           | l :: ls => String a l :: ls
           | [] => [String a EmptyString]
           end
  end.

(** Membership of a character, and the strings a line can carry. *)
Fixpoint has_char (c : ascii) (s : string) : bool :=
  match s with
  | EmptyString => false
  | String a s' => bool_decide (a = c) || has_char c s'
  end.

Definition one_line (s : string) : bool :=
  negb (has_char LF s) && negb (has_char CR s).

(** [s.endswith(p)] *)
Fixpoint endswith (p s : string) : bool :=
  bool_decide (s = p) ||
  match s with
  | EmptyString => false
  | String _ s' => endswith p s'
  end.

(** The concatenation of the chunks handed to successive [write] calls. *)
Fixpoint cat (chunks : list string) : string :=
  match chunks with
  | [] => EmptyString
  | c :: cs => c +:+ cat cs
  end.

End PyStr.

(** ** Exceptions and results *)

Inductive exn : Type :=
  | KeyError (key : string)
  | IndexError
  | AttributeError (name : string)
  | NameError (name : string)
  | TypeError
  | IOError (path : string).

Inductive result (A : Type) : Type :=
  | Ok (a : A)
  | Raise (e : exn).
Arguments Ok {A} a.
Arguments Raise {A} e.

#[global] Instance result_ret : MRet result := @Ok.
#[global] Instance result_bind : MBind result := λ A B f r,
  match r with
  | Ok a => f a
  | Raise e => Raise e
  end.

(** [l[i]] on a list: [IndexError] out of range. *)
Definition item {A : Type} (l : list A) (i : nat) : result A :=
  match l !! i with
  | Some x => Ok x
  | None => Raise IndexError
  end.

(** ** The ACL dictionary

    The dictionary documented at the top of [ssacl.py]. Every key may be
    missing, so every field is an [option]; [USERS] and [GROUPS] map a name to
    an entry. An entry always carries [PERMS] (both [get_acl] and
    [add_user_acl] store it); [EFFECTIVE] is stored by the parser only. *)

Record entry : Type := Entry {
  PERMS : string;
  EFFECTIVE : option string
}.

Record acl : Type := Acl {
  FQPN : option string;
  DIRNAME : option string;
  OWNER : option string;
  GROUP : option string;
  USERP : option string;
  GROUPP : option string;
  OTHERP : option string;
  MASK : option string;
  USERS : option (gmap string entry);
  GROUPS : option (gmap string entry)
}.

#[global] Instance entry_eq_dec : EqDecision entry.
Proof. solve_decision. Defined.
#[global] Instance acl_eq_dec : EqDecision acl.
Proof. solve_decision. Defined.

(** [{}] *)
Definition empty_dict : acl :=
  Acl None None None None None None None None None None.

(** [d[key] = v], one function per key. *)
Definition set_FQPN (v : option string) (d : acl) : acl :=
  Acl v (DIRNAME d) (OWNER d) (GROUP d) (USERP d) (GROUPP d) (OTHERP d) (MASK d) (USERS d) (GROUPS d).
Definition set_DIRNAME (v : option string) (d : acl) : acl :=
  Acl (FQPN d) v (OWNER d) (GROUP d) (USERP d) (GROUPP d) (OTHERP d) (MASK d) (USERS d) (GROUPS d).
Definition set_OWNER (v : option string) (d : acl) : acl :=
  Acl (FQPN d) (DIRNAME d) v (GROUP d) (USERP d) (GROUPP d) (OTHERP d) (MASK d) (USERS d) (GROUPS d).
Definition set_GROUP (v : option string) (d : acl) : acl :=
  Acl (FQPN d) (DIRNAME d) (OWNER d) v (USERP d) (GROUPP d) (OTHERP d) (MASK d) (USERS d) (GROUPS d).
Definition set_USERP (v : option string) (d : acl) : acl :=
  Acl (FQPN d) (DIRNAME d) (OWNER d) (GROUP d) v (GROUPP d) (OTHERP d) (MASK d) (USERS d) (GROUPS d).
Definition set_GROUPP (v : option string) (d : acl) : acl :=
  Acl (FQPN d) (DIRNAME d) (OWNER d) (GROUP d) (USERP d) v (OTHERP d) (MASK d) (USERS d) (GROUPS d).
Definition set_OTHERP (v : option string) (d : acl) : acl :=
  Acl (FQPN d) (DIRNAME d) (OWNER d) (GROUP d) (USERP d) (GROUPP d) v (MASK d) (USERS d) (GROUPS d).
Definition set_MASK (v : option string) (d : acl) : acl :=
  Acl (FQPN d) (DIRNAME d) (OWNER d) (GROUP d) (USERP d) (GROUPP d) (OTHERP d) v (USERS d) (GROUPS d).
Definition set_USERS (v : option (gmap string entry)) (d : acl) : acl :=
  Acl (FQPN d) (DIRNAME d) (OWNER d) (GROUP d) (USERP d) (GROUPP d) (OTHERP d) (MASK d) v (GROUPS d).
Definition set_GROUPS (v : option (gmap string entry)) (d : acl) : acl :=
  Acl (FQPN d) (DIRNAME d) (OWNER d) (GROUP d) (USERP d) (GROUPP d) (OTHERP d) (MASK d) (USERS d) v.

(** [d[key]]: [KeyError] when the key is missing. *)
Definition getitem {A : Type} (key : string) (v : option A) : result A :=
  match v with
  | Some x => Ok x
  | None => Raise (KeyError key)
  end.

(** [not d] for a dictionary: true for the empty one only. *)
Definition dict_is_empty (d : acl) : bool := bool_decide (d = empty_dict).

(** ** The parser: the loop of [mmacls.get_acl]

    [get_acl_line] is the body of [for line in output.splitlines()], one
    [elif] arm per branch; [get_default_acl] has the same body. *)

Definition get_acl_line (mydict : acl) (line : string) : result acl :=
  let fields := PyStr.split ":" line in
  if PyStr.contains "#owner:" line then
    v ← item fields 1; mret (set_OWNER (Some v) mydict)
  else if PyStr.contains "#group:" line then
    v ← item fields 1; mret (set_GROUP (Some v) mydict)
  else if PyStr.startswith "user:" line then
    f1 ← item fields 1;
    if decide (f1 = EmptyString) then
      v ← item fields 2; mret (set_USERP (Some v) mydict)
    else
      let user_name := f1 in
      users ← getitem "USERS" (USERS mydict);
      f2 ← item fields 2;
      let perms := PyStr.slice 0 4 f2 in
      if PyStr.contains "effective" line then
        f3 ← item fields 3;
        mret (set_USERS (Some (<[user_name := Entry perms (Some (PyStr.slice 1 5 f3))]> users)) mydict)
      else
        mret (set_USERS (Some (<[user_name := Entry perms (Some "????")]> users)) mydict)
  else if PyStr.startswith "group:" line then
    f1 ← item fields 1;
    if decide (f1 = EmptyString) then
      v ← item fields 2; mret (set_GROUPP (Some v) mydict)
    else
      let group_name := f1 in
      groups ← getitem "GROUPS" (GROUPS mydict);
      f2 ← item fields 2;
      let perms := PyStr.slice 0 4 f2 in
      if PyStr.contains "effective" line then
        f3 ← item fields 3;
        mret (set_GROUPS (Some (<[group_name := Entry perms (Some (PyStr.slice 1 5 f3))]> groups)) mydict)
      else
        mret (set_GROUPS (Some (<[group_name := Entry perms (Some "????")]> groups)) mydict)
  else if PyStr.contains "other::" line then
    v ← item fields 2; mret (set_OTHERP (Some v) mydict)
  else if PyStr.contains "mask::" line then
    v ← item fields 2; mret (set_MASK (Some v) mydict)
  else mret mydict.

Fixpoint get_acl_lines (mydict : acl) (lines : list string) : result acl :=
  match lines with
  | [] => mret mydict
  | line :: rest => d ← get_acl_line mydict line; get_acl_lines d rest
  end.

(** The dictionary [get_acl] starts from, and the loop over the command's
    output. *)
Definition get_acl_init (filename dirname : string) : acl :=
  set_DIRNAME (Some dirname) (set_FQPN (Some filename)
    (set_USERS (Some ∅) (set_GROUPS (Some ∅) empty_dict))).

Definition get_acl_loop (mydict : acl) (output : string) : result acl :=
  get_acl_lines mydict (PyStr.splitlines output).

(** ** Effects: printed output, files and external commands

    A computation threads a [world]: the lines printed so far (oldest
    first) and the text files it can see. It ends in a value or in an
    exception; what was printed or written before the exception stays. *)

Record world : Type := World {
  files : gmap string string;
  printed : list string
}.

Definition M (A : Type) : Type := world → result A * world.

#[global] Instance M_ret : MRet M := λ A a w, (Ok a, w).
#[global] Instance M_bind : MBind M := λ A B f m w,
  match m w with
  | (Ok a, w') => f a w'
  | (Raise e, w') => (Raise e, w')
  end.

Definition raise {A : Type} (e : exn) : M A := λ w, (Raise e, w).

Definition lift {A : Type} (r : result A) : M A := λ w, (r, w).

(** [print(s)] *)
Definition print (s : string) : M unit :=
  λ w, (Ok tt, World (files w) (printed w ++ [s])).

(** [open(path).read()]: the whole text, [IOError] when there is no file. *)
Definition read_file (path : string) : M string := λ w,
  match files w !! path with
  | Some text => (Ok text, w)
  | None => (Raise (IOError path), w)
  end.

(** [open(path, "w")] where the file can be opened: it is created or
    truncated. *)
Definition open_w (path : string) : M unit :=
  λ w, (Ok tt, World (<[path := EmptyString]> (files w)) (printed w)).

(** [fd.write(s)] on a file opened with ["w"] or ["a"]: [s] goes to the end;
    ["a"] creates a missing file. *)
Definition fd_write (path s : string) : M unit :=
  λ w, (Ok tt, World (<[path := default EmptyString (files w !! path) +:+ s]> (files w)) (printed w)).

(** [str(x)] where [x] is a string or [None]. *)
Definition str_or_None (x : option string) : string := default "None" x.

Definition dquote : string := String "034"%char EmptyString.

Definition DRYRUN : Z := 0.
Definition MMGETACL : string := "/usr/lpp/mmfs/bin/mmgetacl".
Definition MMPUTACL : string := "/usr/lpp/mmfs/bin/mmputacl".

Section Commands.

(** The two collaborators outside the program. [spawn cmd fs] stands for
    [Popen(shlex.split(cmd), ...).communicate()]: the exit code, standard
    output and standard error of the command, and the files as it leaves
    them. It is the run of a process that could be started: where
    [shlex.split] or [Popen] raises (a blank command, an unbalanced quote,
    a missing program) there is none, and the statements about commands
    are about what [spawn] gives. [mktemp fs] is the name
    [tempfile.NamedTemporaryFile().name] hands out. *)
Variable spawn : string → gmap string string → (Z * string * string) * gmap string string.
Variable mktemp : gmap string string → string.

(** [execute_command(commandString, Debug)]: [not commandString] holds for
    [None] and for the empty string. *)
Definition execute_command (commandString : option string) (Debug : bool)
    : M (Z * option string * option string) :=
  match commandString with
  | None => mret (99999999, None, None)
  | Some cmd =>
      if decide (cmd = EmptyString) then mret (99999999, None, None)
      else λ w,
        let '((returncode, outdata, errdata), fs) := spawn cmd (files w) in
        (( if Debug then
             print ("DEBUG: Command: " +:+ cmd);;
             print ("DEBUG: Return Code: " +:+ pretty returncode);;
             print ("DEBUG: STDOUT: " +:+ outdata);;
             print ("DEBUG: STDERR: " +:+ errdata)
           else mret tt);;
         mret (returncode, Some outdata, Some errdata)) (World fs (printed w))
  end.

(** The two lines every caller prints when a command fails. *)
Definition print_failure (cmd : string) (rc : Z) (out err : option string) : M unit :=
  print ("Command: " +:+ cmd +:+ " ERROR: " +:+ pretty rc);;
  print ("STDOUT: " +:+ str_or_None out +:+ PyStr.nl +:+ "STDERR: " +:+ str_or_None err).

(** [get_temp_filename()] *)
Definition get_temp_filename : M string := λ w, (Ok (mktemp (files w)), w).

End Commands.

(** ** Class [mmacls]

    An attribute that holds a dictionary can be unset ([AttributeError] on
    use), hold [None], or hold the dictionary. [filename] is always set by
    [__init__], to a path or to [None]; [dirname] is set only when the path
    could be stat'ed. *)

Inductive attr (A : Type) : Type :=
  | Unset
  | PyNone
  | Val (a : A).
Arguments Unset {A}.
Arguments PyNone {A}.
Arguments Val {A} a.

Record mmacls : Type := Mmacls {
  debug : bool;
  dryrun : bool;
  verbose : bool;
  is_file : bool;
  fname : option string;
  filename : option string;
  dirname : option string;
  acls : attr acl;
  default_acls : attr acl
}.

Definition set_acls (v : attr acl) (self : mmacls) : mmacls :=
  Mmacls (debug self) (dryrun self) (verbose self) (is_file self) (fname self)
         (filename self) (dirname self) v (default_acls self).
Definition set_default_acls (v : attr acl) (self : mmacls) : mmacls :=
  Mmacls (debug self) (dryrun self) (verbose self) (is_file self) (fname self)
         (filename self) (dirname self) (acls self) v.

(** [self.name[...]]: the attribute must be set and must not be [None]. *)
Definition the_dict (name : string) (a : attr acl) : result acl :=
  match a with
  | Unset => Raise (AttributeError name)
  | PyNone => Raise TypeError
  | Val d => Ok d
  end.

Section Methods.

Variable spawn : string → gmap string string → (Z * string * string) * gmap string string.

(** [mmacls.get_acl]. When the command fails, the second [print] names
    [stdout], which this function never binds: [NameError]. *)
Definition get_acl (self : mmacls) : M mmacls :=
  dn ← lift (match dirname self with Some d => Ok d | None => Raise (AttributeError "dirname") end);
  fn ← lift (match filename self with Some f => Ok f | None => Raise TypeError end);
  let mydict := get_acl_init fn dn in
  let cmd := MMGETACL +:+ " " +:+ dquote +:+ fn +:+ dquote in
  '(rc, output, stderr) ← execute_command spawn (Some cmd) false;
  if decide (rc ≠ 0) then
    print ("Command: " +:+ cmd +:+ " ERROR: " +:+ pretty rc);;
    raise (NameError "stdout")
  else
    out ← lift (match output with Some o => Ok o | None => Raise (AttributeError "splitlines") end);
    d ← lift (get_acl_loop mydict out);
    mret (set_acls (Val d) self).

(** [mmacls.get_default_acl]: the same loop over [mmgetacl -d]. *)
Definition get_default_acl (self : mmacls) : M mmacls :=
  dn ← lift (match dirname self with Some d => Ok d | None => Raise (AttributeError "dirname") end);
  fn ← lift (match filename self with Some f => Ok f | None => Raise TypeError end);
  let mydict := set_FQPN (Some dn) (set_USERS (Some ∅) (set_GROUPS (Some ∅) empty_dict)) in
  let cmd := MMGETACL +:+ " -d " +:+ dquote +:+ fn +:+ dquote in
  '(rc, output, stderr) ← execute_command spawn (Some cmd) false;
  if decide (rc ≠ 0) then
    print ("Command: " +:+ cmd +:+ " ERROR: " +:+ pretty rc);;
    raise (NameError "stdout")
  else
    out ← lift (match output with Some o => Ok o | None => Raise (AttributeError "splitlines") end);
    d ← lift (get_acl_loop mydict out);
    mret (set_default_acls (Val d) self).

End Methods.

(** [mmacls.clear_acls] *)
Definition clear_acls (self : mmacls) : result mmacls :=
  d ← the_dict "acls" (acls self);
  mret (set_acls (Val (set_GROUPS None (set_USERS None (set_MASK None d)))) self).

(** [mmacls.add_user_acl] and [mmacls.add_group_acl]: the new entry holds
    [PERMS] only. *)
Definition add_user_acl (self : mmacls) (username mask : string) : result mmacls :=
  d ← the_dict "acls" (acls self);
  users ← getitem "USERS" (USERS d);
  mret (set_acls (Val (set_USERS (Some (<[username := Entry mask None]> users)) d)) self).

Definition add_group_acl (self : mmacls) (groupname mask : string) : result mmacls :=
  d ← the_dict "acls" (acls self);
  groups ← getitem "GROUPS" (GROUPS d);
  mret (set_acls (Val (set_GROUPS (Some (<[groupname := Entry mask None]> groups)) d)) self).

(** [del d[key]] on one of the nested dictionaries. *)
Definition delitem (key : string) (m : gmap string entry) : result (gmap string entry) :=
  match m !! key with
  | Some _ => Ok (delete key m)
  | None => Raise (KeyError key)
  end.

(** [mmacls.del_user_acl]: the test reads [self.acls], the [del] statement
    names [self.default_acls]. *)
Definition del_user_acl (self : mmacls) (username : string) : M mmacls :=
  d ← lift (the_dict "acls" (acls self));
  users ← lift (getitem "USERS" (USERS d));
  if decide (is_Some (users !! username)) then
    dd ← lift (the_dict "default_acls" (default_acls self));
    dusers ← lift (getitem "USERS" (USERS dd));
    dusers' ← lift (delitem username dusers);
    mret (set_default_acls (Val (set_USERS (Some dusers') dd)) self)
  else
    print (username +:+ " does not have a user ACL on " +:+ str_or_None (filename self));;
    mret self.

(** [mmacls.del_group_acl] *)
Definition del_group_acl (self : mmacls) (groupname : string) : M mmacls :=
  d ← lift (the_dict "acls" (acls self));
  groups ← lift (getitem "GROUPS" (GROUPS d));
  if decide (is_Some (groups !! groupname)) then
    groups' ← lift (delitem groupname groups);
    mret (set_acls (Val (set_GROUPS (Some groups') d)) self)
  else
    print (groupname +:+ " does not have a group ACL on " +:+ str_or_None (filename self));;
    mret self.

(** [mmacls.del_default_user_acl] *)
Definition del_default_user_acl (self : mmacls) (username : string) : M mmacls :=
  d ← lift (the_dict "default_acls" (default_acls self));
  users ← lift (getitem "USERS" (USERS d));
  if decide (is_Some (users !! username)) then
    users' ← lift (delitem username users);
    mret (set_default_acls (Val (set_USERS (Some users') d)) self)
  else
    print (username +:+ " does not have a user ACL on " +:+ str_or_None (filename self));;
    mret self.

(** [mmacls.del_default_group_acl] *)
Definition del_default_group_acl (self : mmacls) (groupname : string) : M mmacls :=
  d ← lift (the_dict "default_acls" (default_acls self));
  groups ← lift (getitem "GROUPS" (GROUPS d));
  if decide (is_Some (groups !! groupname)) then
    groups' ← lift (delitem groupname groups);
    mret (set_default_acls (Val (set_GROUPS (Some groups') d)) self)
  else
    print (groupname +:+ " does not have a group ACL on " +:+ str_or_None (filename self));;
    mret self.

(** [mmacls.get_group_acl]: [group] defaults to [None], which is no key of
    the dictionary. *)
Definition get_group_acl (self : mmacls) (group : option string) : result string :=
  match acls self with
  | Unset => Raise (AttributeError "acls")
  | PyNone => Ok "????"
  | Val d =>
      groups ← getitem "GROUPS" (GROUPS d);
      match group ≫= (groups !!.) with
      | Some e => Ok (PERMS e)
      | None => Ok "----"
      end
  end.

(** ** The serializer: [write_acl_file] *)

Section Serializer.

(** [d.keys()] of a nested dictionary: every key once, in an order the
    language does not fix. *)
Variable keys : gmap string entry → list string.

(** One [fd.write] per named entry; [m[name]['PERMS']] cannot fail for a
    name taken from [m.keys()]. *)
Definition write_entries (aclfile kind : string) (m : gmap string entry) : M unit :=
  foldr (λ name rest,
           e ← lift (getitem name (m !! name));
           fd_write aclfile (kind +:+ name +:+ ":" +:+ PERMS e +:+ PyStr.nl);;
           rest)
        (mret tt) (keys m).

Definition write_acl_file (aclfile : option string) (myacls def_acl : option acl) : M unit :=
  match aclfile with
  | None => print "Error: write_acl_file: 3"
  | Some path =>
  if decide (path = EmptyString) then print "Error: write_acl_file: 3" else
  match myacls with
  | None => print "Error: write_acl_file: 1"
  | Some my =>
  if dict_is_empty my then print "Error: write_acl_file: 1" else
  match def_acl with
  | None => print "Error: write_acl_file: 2";; print "None"
  | Some def =>
  if dict_is_empty def then print "Error: write_acl_file: 2";; print "{}" else
    open_w path;;
    (match USERP my with
     | Some p => fd_write path ("user::" +:+ p +:+ PyStr.nl)
     | None => p ← lift (getitem "USERP" (USERP def)); fd_write path ("user::" +:+ p +:+ PyStr.nl)
     end);;
    (match GROUPP my with
     | Some p => fd_write path ("group::" +:+ p +:+ PyStr.nl)
     | None => p ← lift (getitem "GROUPP" (GROUPP def)); fd_write path ("group::" +:+ p +:+ PyStr.nl)
     end);;
    (match OTHERP my with
     | Some p => fd_write path ("other::" +:+ p +:+ PyStr.nl)
     | None => p ← lift (getitem "OTHERP" (OTHERP def)); fd_write path ("other::" +:+ p +:+ PyStr.nl)
     end);;
    (match MASK my with
     | Some p => fd_write path ("mask::" +:+ p +:+ PyStr.nl)
     | None =>
         if bool_decide (is_Some (USERS my)) then
           if bool_decide (is_Some (GROUPS my)) then
             fd_write path ("mask::rwxc" +:+ PyStr.nl)
           else mret tt
         else mret tt
     end);;
    (match USERS my with
     | Some users => write_entries path "user:" users
     | None => mret tt
     end);;
    (match GROUPS my with
     | Some groups => write_entries path "group:" groups
     | None => mret tt
     end)
  end end end.

End Serializer.

(** ** Update or append: [gac_update_acl] and [gac_update_default_acl] *)

Section Upsert.

Variable spawn : string → gmap string string → (Z * string * string) * gmap string string.
Variable mktemp : gmap string string → string.

(** [gac_update_default_acl]. The first half yields [false] where the
    source returns early. *)
Definition gac_update_default_acl (filename aclGroup aclPerms : string)
    (dryrun verbose : bool) : M unit :=
  aclFile ← get_temp_filename mktemp;
  let cmd := MMGETACL +:+ " -d -o " +:+ aclFile +:+ " " +:+ dquote +:+ filename +:+ dquote in
  go_on ← (if dryrun then print cmd;; mret true
           else
             (if verbose then print cmd else mret tt);;
             '(rc, stdout, stderr) ← execute_command spawn (Some cmd) false;
             if decide (rc ≠ 0) then print_failure cmd rc stdout stderr;; mret false
             else mret true);
  if negb go_on then mret tt else
  inputLine ← read_file aclFile;
  let found := PyStr.contains aclGroup inputLine in
  let foundUser := PyStr.contains "user::" inputLine in
  let foundGroup := PyStr.contains "group::" inputLine in
  let foundOther := PyStr.contains "other::" inputLine in
  let foundMask := PyStr.contains "mask::" inputLine in
  foundMask ← (if negb foundUser then
                 fd_write aclFile ("user::rwxc" +:+ PyStr.nl);;
                 fd_write aclFile ("group::r-x-" +:+ PyStr.nl);;
                 fd_write aclFile ("other::----" +:+ PyStr.nl);;
                 fd_write aclFile ("mask::r-x-" +:+ PyStr.nl);;
                 mret true
               else mret foundMask);
  if negb found then
    (if negb foundMask then fd_write aclFile ("mask::r-x-" +:+ PyStr.nl) else mret tt);;
    fd_write aclFile ("group:" +:+ aclGroup +:+ ":" +:+ aclPerms +:+ PyStr.nl);;
    let cmd := MMPUTACL +:+ " -d -i " +:+ aclFile +:+ " " +:+ dquote +:+ filename +:+ dquote in
    if dryrun then print cmd
    else
      (if verbose then print cmd else mret tt);;
      '(rc, stdout, stderr) ← execute_command spawn (Some cmd) false;
      if decide (rc ≠ 0) then print_failure cmd rc stdout stderr else mret tt
  else mret tt.

(** [gac_update_acl]: as above without [-d], and with a second [f.read()],
    which is at the end of the file and returns the empty string. *)
Definition gac_update_acl (filename aclGroup aclPerms : string)
    (dryrun verbose : bool) : M unit :=
  aclFile ← get_temp_filename mktemp;
  let cmd := MMGETACL +:+ " -o " +:+ aclFile +:+ " " +:+ dquote +:+ filename +:+ dquote in
  go_on ← (if dryrun then print cmd;; mret true
           else
             (if verbose then print cmd else mret tt);;
             '(rc, stdout, stderr) ← execute_command spawn (Some cmd) false;
             if decide (rc ≠ 0) then print_failure cmd rc stdout stderr;; mret false
             else mret true);
  if negb go_on then mret tt else
  inputLine ← read_file aclFile;
  let found := PyStr.contains aclGroup inputLine in
  let foundUser := PyStr.contains "user::" inputLine in
  let foundGroup := PyStr.contains "group::" inputLine in
  let foundOther := PyStr.contains "other::" inputLine in
  let foundMask := PyStr.contains "mask::" inputLine in
  let found := found || PyStr.contains aclGroup EmptyString in
  foundMask ← (if negb foundUser then
                 fd_write aclFile ("user::rwxc" +:+ PyStr.nl);;
                 fd_write aclFile ("group::r-x-" +:+ PyStr.nl);;
                 fd_write aclFile ("other::----" +:+ PyStr.nl);;
                 fd_write aclFile ("mask::r-x-" +:+ PyStr.nl);;
                 mret true
               else mret foundMask);
  if negb found then
    (if negb foundMask then fd_write aclFile ("mask::r-x-" +:+ PyStr.nl) else mret tt);;
    fd_write aclFile ("group:" +:+ aclGroup +:+ ":" +:+ aclPerms +:+ PyStr.nl);;
    let cmd := MMPUTACL +:+ " -i " +:+ aclFile +:+ " " +:+ dquote +:+ filename +:+ dquote in
    if dryrun then print cmd
    else
      (if verbose then print cmd else mret tt);;
      '(rc, stdout, stderr) ← execute_command spawn (Some cmd) false;
      if decide (rc ≠ 0) then print_failure cmd rc stdout stderr else mret tt
  else mret tt.

End Upsert.


(** ** The rest of class [mmacls] *)

(** [mmacls.clear_default_acls] *)
Definition clear_default_acls (self : mmacls) : result mmacls :=
  d ← the_dict "default_acls" (default_acls self);
  mret (set_default_acls (Val (set_GROUPS None (set_USERS None (set_MASK None d)))) self).

(** [mmacls.add_default_user_acl] and [mmacls.add_default_group_acl] *)
Definition add_default_user_acl (self : mmacls) (username mask : string) : result mmacls :=
  d ← the_dict "default_acls" (default_acls self);
  users ← getitem "USERS" (USERS d);
  mret (set_default_acls (Val (set_USERS (Some (<[username := Entry mask None]> users)) d)) self).

Definition add_default_group_acl (self : mmacls) (groupname mask : string) : result mmacls :=
  d ← the_dict "default_acls" (default_acls self);
  groups ← getitem "GROUPS" (GROUPS d);
  mret (set_default_acls (Val (set_GROUPS (Some (<[groupname := Entry mask None]> groups)) d)) self).

(** [mmacls.update_user_perms] and its five siblings: one key of one
    dictionary is assigned. *)
Definition update_user_perms (self : mmacls) (mask : string) : result mmacls :=
  d ← the_dict "acls" (acls self);
  mret (set_acls (Val (set_USERP (Some mask) d)) self).

Definition update_group_perms (self : mmacls) (mask : string) : result mmacls :=
  d ← the_dict "acls" (acls self);
  mret (set_acls (Val (set_GROUPP (Some mask) d)) self).

Definition update_other_perms (self : mmacls) (mask : string) : result mmacls :=
  d ← the_dict "acls" (acls self);
  mret (set_acls (Val (set_OTHERP (Some mask) d)) self).

Definition update_default_user_perms (self : mmacls) (mask : string) : result mmacls :=
  d ← the_dict "default_acls" (default_acls self);
  mret (set_default_acls (Val (set_USERP (Some mask) d)) self).

Definition update_default_group_perms (self : mmacls) (mask : string) : result mmacls :=
  d ← the_dict "default_acls" (default_acls self);
  mret (set_default_acls (Val (set_GROUPP (Some mask) d)) self).

Definition update_default_other_perms (self : mmacls) (mask : string) : result mmacls :=
  d ← the_dict "default_acls" (default_acls self);
  mret (set_default_acls (Val (set_OTHERP (Some mask) d)) self).

(** The three flags and their switches. *)
Definition set_debug (v : bool) (self : mmacls) : mmacls :=
  Mmacls v (dryrun self) (verbose self) (is_file self) (fname self)
         (filename self) (dirname self) (acls self) (default_acls self).
Definition set_dryrun (v : bool) (self : mmacls) : mmacls :=
  Mmacls (debug self) v (verbose self) (is_file self) (fname self)
         (filename self) (dirname self) (acls self) (default_acls self).
Definition set_verbose (v : bool) (self : mmacls) : mmacls :=
  Mmacls (debug self) (dryrun self) v (is_file self) (fname self)
         (filename self) (dirname self) (acls self) (default_acls self).

Definition debug_on (self : mmacls) : mmacls := set_debug true self.
Definition debug_off (self : mmacls) : mmacls := set_debug false self.
Definition toggle_debug (self : mmacls) : mmacls :=
  if bool_decide (debug self = true) then set_debug false self else set_debug true self.

Definition dryrun_on (self : mmacls) : mmacls := set_dryrun true self.
Definition dryrun_off (self : mmacls) : mmacls := set_dryrun false self.
Definition toggle_dryrun (self : mmacls) : mmacls :=
  if bool_decide (dryrun self = false) then set_dryrun true self else set_dryrun false self.

Definition verbose_on (self : mmacls) : mmacls := set_verbose true self.
Definition verbose_off (self : mmacls) : mmacls := set_verbose false self.
Definition toggle_verbose (self : mmacls) : mmacls :=
  if bool_decide (verbose self = false) then set_verbose true self else set_verbose false self.

(** [print(line)] for every line. *)
Definition print_lines (ls : list string) : M unit :=
  foldr (λ line rest, print line;; rest) (mret tt) ls.

(** [s1 + x] where [x] may be [None]. *)
Definition str_arg (x : option string) : result string :=
  match x with
  | Some s => Ok s
  | None => Raise TypeError
  end.

Section MoreMethods.

Variable spawn : string → gmap string string → (Z * string * string) * gmap string string.

(** [mmacls.dump_raw_acl]: the loop of the successful case names [output],
    which the function never binds. *)
Definition dump_raw_acl (self : mmacls) : M unit :=
  fn ← lift (str_arg (filename self));
  let cmd := MMGETACL +:+ " " +:+ dquote +:+ fn +:+ dquote in
  '(rc, stdout, stderr) ← execute_command spawn (Some cmd) false;
  if decide (rc = 0) then raise (NameError "output")
  else print_failure cmd rc stdout stderr.

(** [mmacls.dump_raw_default_acl] *)
Definition dump_raw_default_acl (self : mmacls) : M unit :=
  fn ← lift (str_arg (filename self));
  let cmd := MMGETACL +:+ " -d " +:+ fn in
  '(rc, stdout, stderr) ← execute_command spawn (Some cmd) false;
  if decide (rc = 0) then
    out ← lift (match stdout with Some o => Ok o | None => Raise (AttributeError "splitlines") end);
    print_lines (PyStr.splitlines out);;
    print EmptyString
  else print_failure cmd rc stdout stderr.

(** The methods [mmacls.set_default_acl] and [mmacls.set_acl]. The first
    joins [MMPUTACL] and ['-d -i '] with no space between them. *)
Definition mmacls_set_default_acl (self : mmacls) (aclfile : option string) : M unit :=
  af ← lift (str_arg aclfile);
  fn ← lift (str_arg (filename self));
  let cmd := MMPUTACL +:+ "-d -i " +:+ af +:+ " " +:+ dquote +:+ fn +:+ dquote in
  if dryrun self then print cmd
  else
    (if verbose self then print cmd else mret tt);;
    '(rc, stdout, stderr) ← execute_command spawn (Some cmd) false;
    if decide (rc ≠ 0) then print_failure cmd rc stdout stderr else mret tt.

Definition mmacls_set_acl (self : mmacls) (aclfile : option string) : M unit :=
  af ← lift (str_arg aclfile);
  fn ← lift (str_arg (filename self));
  let cmd := MMPUTACL +:+ " -i " +:+ af +:+ " " +:+ dquote +:+ fn +:+ dquote in
  if dryrun self then print cmd
  else
    (if verbose self then print cmd else mret tt);;
    '(rc, stdout, stderr) ← execute_command spawn (Some cmd) false;
    if decide (rc ≠ 0) then print_failure cmd rc stdout stderr else mret tt.

(** The functions [set_default_acl] and [set_acl] of the module. *)
Definition set_default_acl (filename aclfile : option string) (dryrun verbose : bool) : M unit :=
  af ← lift (str_arg aclfile);
  fn ← lift (str_arg filename);
  let cmd := MMPUTACL +:+ " -d -i " +:+ af +:+ " " +:+ dquote +:+ fn +:+ dquote in
  if dryrun then print cmd
  else
    (if verbose then print cmd else mret tt);;
    '(rc, stdout, stderr) ← execute_command spawn (Some cmd) false;
    if decide (rc ≠ 0) then print_failure cmd rc stdout stderr else mret tt.

Definition set_acl (filename aclfile : option string) (dryrun verbose : bool) : M unit :=
  af ← lift (str_arg aclfile);
  fn ← lift (str_arg filename);
  let cmd := MMPUTACL +:+ " -i " +:+ af +:+ " " +:+ dquote +:+ fn +:+ dquote in
  if dryrun then print cmd
  else
    (if verbose then print cmd else mret tt);;
    '(rc, stdout, stderr) ← execute_command spawn (Some cmd) false;
    if decide (rc ≠ 0) then print_failure cmd rc stdout stderr else mret tt.

(** [run_cmd(cmdstr)]: it returns, [None] or the output of the command, or
    it raises [UserWarning] with a message. It prints nothing. *)
Inductive run_cmd_result : Type :=
  | Returned (outdata : option string)
  | UserWarning (msg : string).

Definition run_cmd (cmdstr : option string) (fs : gmap string string)
    : run_cmd_result * gmap string string :=
  match cmdstr with
  | None => (Returned None, fs)
  | Some cmd =>
      if decide (cmd = EmptyString) then (Returned None, fs)
      else
        let '((returncode, outdata, errdata), fs') := spawn cmd fs in
        if decide (returncode ≠ 0) then
          (UserWarning ("Error" +:+ PyStr.nl +:+ " Command: " +:+ cmd +:+ PyStr.nl
                        +:+ " Message: " +:+ errdata), fs')
        else (Returned (Some outdata), fs')
  end.

(** [mmacls.__init__]. [abspath] and [os_dirname] stand for the functions
    of [os.path]; [stat p] is [None] when [os.stat(p)] raises and else
    tells whether [p] is a directory. With no name, [abspath] raises and
    the [except] arm is taken. *)
Variable abspath : string → string.
Variable os_dirname : string → string.
Variable stat : string → option bool.

Definition init (fname : option string) : M mmacls :=
  let self := Mmacls false false false true fname None None Unset Unset in
  match fname with
  | None => mret self
  | Some f =>
      match stat (abspath f) with
      | None => mret self
      | Some true =>
          get_acl spawn (Mmacls false false false false fname
                                (Some (abspath f)) (Some (abspath f)) Unset Unset)
      | Some false =>
          get_acl spawn (Mmacls false false false true fname
                                (Some (abspath f)) (Some (os_dirname (abspath f))) Unset Unset)
      end
  end.

End MoreMethods.

(** ** Vocabulary of the statements *)

(** The value the serializer writes for a triad: the record's own, else the
    fallback's. *)
Definition pick (a b : option string) : option string :=
  match a with
  | Some x => Some x
  | None => b
  end.

(** The lines of a successful [write_acl_file], in the order written: the
    triads, the mask if any, the named users, the named groups. Each is
    written with its line terminator. *)
Definition entry_line (kind : string) (m : gmap string entry) (name : string) : string :=
  kind +:+ name +:+ ":" +:+ default EmptyString (PERMS <$> m !! name).

Definition both_maps (my : acl) : bool :=
  bool_decide (is_Some (USERS my)) && bool_decide (is_Some (GROUPS my)).

Definition mask_lines (my : acl) : list string :=
  match MASK my with
  | Some p => ["mask::" +:+ p]
  | None => if both_maps my then ["mask::rwxc"] else []
  end.

Definition acl_lines (keys : gmap string entry → list string)
    (my : acl) (up gp op : string) : list string :=
  ["user::" +:+ up; "group::" +:+ gp; "other::" +:+ op]
  ++ mask_lines my
  ++ (entry_line "user:" (default ∅ (USERS my)) <$> keys (default ∅ (USERS my)))
  ++ (entry_line "group:" (default ∅ (GROUPS my)) <$> keys (default ∅ (GROUPS my))).

Fixpoint unlines (ls : list string) : string :=
  match ls with
  | [] => EmptyString
  | l :: ls' => l +:+ PyStr.nl +:+ unlines ls'
  end.

(** Strings that survive a line of the text format: no colon, no line break;
    a name is moreover not empty, does not end with [#owner] or [#group]
    and, like a permission string, does not contain [effective]. *)
Definition plain (s : string) : bool :=
  negb (PyStr.has_char ":" s) && PyStr.one_line s.

Definition name_ok (n : string) : bool :=
  negb (bool_decide (n = EmptyString)) && plain n
  && negb (PyStr.contains "effective" n)
  && negb (PyStr.endswith "#owner" n) && negb (PyStr.endswith "#group" n).

Definition perms_ok (p : string) : bool :=
  plain p && negb (PyStr.contains "effective" p).

Definition entries_ok (m : gmap string entry) : bool :=
  forallb (λ ne, name_ok ne.1 && perms_ok (PERMS ne.2)) (map_to_list m).

(** What the parser stores for an entry the serializer wrote. *)
Definition reparsed (e : entry) : entry :=
  Entry (PyStr.slice 0 4 (PERMS e)) (Some "????").

(** The mask of the text: the record's, else the synthesized one. *)
Definition written_mask (my : acl) : option string :=
  match MASK my with
  | Some p => Some p
  | None => if both_maps my then Some "rwxc" else None
  end.

(** What the loop stores for the entry line of [n]. *)
Definition stored_entry (m : gmap string entry) (n : string) : entry :=
  Entry (PyStr.slice 0 4 (default EmptyString (PERMS <$> m !! n))) (Some "????").

(** What every line of the loop keeps: the two maps are there and the two
    names are the same. *)
Definition kept (d d' : acl) : Prop :=
  is_Some (USERS d') ∧ is_Some (GROUPS d') ∧ FQPN d' = FQPN d ∧ DIRNAME d' = DIRNAME d.

(** The record a round trip through the text gives back. *)
Definition reread (filename dirname : string) (my : acl) (up gp op : string) : acl :=
  Acl (Some filename) (Some dirname) None None (Some up) (Some gp) (Some op)
      (written_mask my)
      (Some (reparsed <$> default ∅ (USERS my)))
      (Some (reparsed <$> default ∅ (GROUPS my))).

(** What the strings of a record must be for the text to be read back. *)
Definition acl_ok (my : acl) (up gp op : string) : bool :=
  plain up && plain gp && plain op
  && from_option plain true (MASK my)
  && entries_ok (default ∅ (USERS my)) && entries_ok (default ∅ (GROUPS my)).

(** A record none of whose strings has a line break: every write is then
    one line of the text. *)
Definition entries_one_line (m : gmap string entry) : bool :=
  forallb (λ ne, PyStr.one_line ne.1 && PyStr.one_line (PERMS ne.2)) (map_to_list m).

Definition no_line_break (my : acl) (up gp op : string) : bool :=
  PyStr.one_line up && PyStr.one_line gp && PyStr.one_line op
  && from_option PyStr.one_line true (MASK my)
  && entries_one_line (default ∅ (USERS my)) && entries_one_line (default ∅ (GROUPS my)).

(** The commands of [gac_update_acl] and [gac_update_default_acl], the exit
    code of a spawned command, and the four lines added to a buffer that
    has no owner triad. *)
Definition getacl_cmd (opts aclFile filename : string) : string :=
  MMGETACL +:+ opts +:+ aclFile +:+ " " +:+ dquote +:+ filename +:+ dquote.

Definition putacl_cmd (opts aclFile filename : string) : string :=
  MMPUTACL +:+ opts +:+ aclFile +:+ " " +:+ dquote +:+ filename +:+ dquote.

Definition exit_code (r : (Z * string * string) * gmap string string) : Z := r.1.1.1.

Definition default_lines : string :=
  "user::rwxc" +:+ PyStr.nl +:+ "group::r-x-" +:+ PyStr.nl
  +:+ "other::----" +:+ PyStr.nl +:+ "mask::r-x-" +:+ PyStr.nl.

(** The two lines printed for a command that failed, from what the spawner
    gave. *)
Definition failure_lines (cmd : string) (r : (Z * string * string) * gmap string string)
    : list string :=
  ["Command: " +:+ cmd +:+ " ERROR: " +:+ pretty r.1.1.1;
   "STDOUT: " +:+ r.1.1.2 +:+ PyStr.nl +:+ "STDERR: " +:+ r.1.2].

(** The files a function sees after its first command: in a dry run the
    command is only printed. *)
Definition after_cmd (spawn : string → gmap string string → (Z * string * string) * gmap string string)
    (dryrun : bool) (cmd : string) (fs : gmap string string) : gmap string string :=
  if dryrun then fs else (spawn cmd fs).2.

(** ** Sample collaborators and buffers

    A temporary name, and a spawner under which [mmgetacl] writes a given
    buffer to that name and every other command changes nothing; both
    commands leave 0. *)
Definition sample_mktemp : gmap string string → string := λ _, "/tmp/tmpacl".

Definition sample_spawn (buf cmd : string) (fs : gmap string string)
    : (Z * string * string) * gmap string string :=
  if PyStr.startswith MMGETACL cmd
  then ((0, EmptyString, EmptyString), <["/tmp/tmpacl" := buf]> fs)
  else ((0, EmptyString, EmptyString), fs).

Definition triads_buffer : string :=
  unlines ["#owner:alice"; "#group:staff"; "user::rwxc"; "group::r-x-"; "other::----"].

Definition header_buffer : string :=
  unlines ["#owner:alice"; "#group:devteam"].

Definition empty_buffer : string := EmptyString.

(** A key order, and two records: one as [get_acl] leaves it for a file with
    the three triads only, one with a named user and a named group. *)
Definition sample_keys (m : gmap string entry) : list string := (map_to_list m).*1.

Definition triads_acl : acl :=
  set_OTHERP (Some "----") (set_GROUPP (Some "r-x-") (set_USERP (Some "rwxc")
    (get_acl_init "/data/acl/a" "/data/acl"))).

Definition named_acl : acl :=
  set_GROUPS (Some {["devteam" := Entry "r-x-" None]})
    (set_USERS (Some {["bob" := Entry "rwx-" (Some "rwx-")]}) triads_acl).

(** A spawner whose command prints a given text and leaves 0, one whose
    command leaves 1, and stand-ins for [os.path] and [os.stat]: every path
    is absolute and lies in [/data/acl]; it is a directory, or it is not
    there. *)
Definition printing_spawn (out cmd : string) (fs : gmap string string)
    : (Z * string * string) * gmap string string :=
  ((0, out, EmptyString), fs).

Definition failing_spawn (cmd : string) (fs : gmap string string)
    : (Z * string * string) * gmap string string :=
  ((1, EmptyString, "No such file or directory"), fs).

Definition sample_abspath (f : string) : string := f.
Definition sample_os_dirname (f : string) : string := "/data/acl".
Definition stat_directory (f : string) : option bool := Some true.
Definition stat_missing (f : string) : option bool := None.

Definition sample_object : mmacls :=
  Mmacls false false false true (Some "/data/acl/a") (Some "/data/acl/a") (Some "/data/acl")
         (Val triads_acl) Unset.

(** * Properties *)

(** ** Facts about the string operations *)

Module PyStrFacts.
Import PyStr.

Lemma app_nil (t : string) : EmptyString +:+ t = t.
Proof. reflexivity. Qed.

Lemma app_cons (a : ascii) (s t : string) : String a s +:+ t = String a (s +:+ t).
Proof. reflexivity. Qed.

Lemma app_nil_r (s : string) : s +:+ EmptyString = s.
Proof. induction s as [|a s IH]; [done|]. by rewrite app_cons, IH. Qed.

Lemma app_assoc (s t u : string) : (s +:+ t) +:+ u = s +:+ t +:+ u.
Proof. induction s as [|a s IH]; [done|]. by rewrite !app_cons, IH. Qed.

Lemma has_char_app (c : ascii) (s t : string) :
  has_char c (s +:+ t) = has_char c s || has_char c t.
Proof.
  induction s as [|a s IH]; [done|].
  rewrite app_cons. simpl. rewrite IH. by rewrite orb_assoc.
Qed.

Lemma has_char_cons_false (c a : ascii) (s : string) :
  has_char c (String a s) = false → a ≠ c ∧ has_char c s = false.
Proof.
  simpl. intros [Ha Hs]%orb_false_iff. split; [|done].
  by apply bool_decide_eq_false in Ha.
Qed.

Lemma prefix_nil (s : string) : String.prefix EmptyString s = true.
Proof. by destruct s. Qed.

Lemma prefix_cons (a b : ascii) (p s : string) :
  String.prefix (String a p) (String b s) = bool_decide (a = b) && String.prefix p s.
Proof. simpl. destruct (ascii_dec a b); by case_bool_decide. Qed.

Lemma prefix_cons_nil (a : ascii) (p : string) :
  String.prefix (String a p) EmptyString = false.
Proof. reflexivity. Qed.

Lemma prefix_app (p s : string) : String.prefix p (p +:+ s) = true.
Proof.
  induction p as [|a p IH]; [apply prefix_nil|].
  rewrite app_cons, prefix_cons, IH. by rewrite bool_decide_eq_true_2.
Qed.

(** A pattern free of [c] cannot reach across an occurrence of [c]. *)
Lemma prefix_app_sep (c : ascii) (p a b : string) :
  has_char c p = false →
  String.prefix p (a +:+ String c b) = String.prefix p a.
Proof.
  revert a. induction p as [|x p IH]; intros a Hp.
  - by rewrite !prefix_nil.
  - apply has_char_cons_false in Hp as [Hx Hp].
    destruct a as [|y a].
    + rewrite app_nil, prefix_cons, prefix_cons_nil.
      by rewrite bool_decide_eq_false_2.
    + rewrite app_cons, !prefix_cons, IH; done.
Qed.

(** A pattern [p c] whose [p] is free of [c] starts [a c b], with [a] free
    of [c], exactly when [p] is [a]. *)
Lemma prefix_sep_eq (c : ascii) (p a b : string) :
  has_char c p = false → has_char c a = false →
  String.prefix (p +:+ String c EmptyString) (a +:+ String c b) = bool_decide (a = p).
Proof.
  revert a. induction p as [|x p IH]; intros a Hp Ha.
  - rewrite app_nil. destruct a as [|y a].
    + rewrite app_nil, prefix_cons, prefix_nil. by rewrite !bool_decide_eq_true_2.
    + apply has_char_cons_false in Ha as [Hy _].
      rewrite app_cons, prefix_cons.
      rewrite (bool_decide_eq_false_2 (c = y)) by congruence.
      by rewrite bool_decide_eq_false_2.
  - apply has_char_cons_false in Hp as [Hx Hp].
    destruct a as [|y a].
    + rewrite app_nil, app_cons, prefix_cons.
      rewrite (bool_decide_eq_false_2 (x = c)) by done.
      by rewrite bool_decide_eq_false_2.
    + apply has_char_cons_false in Ha as [_ Ha].
      rewrite !app_cons, prefix_cons, IH by done.
      destruct (decide (x = y)) as [->|Hxy].
      * rewrite (bool_decide_eq_true_2 (y = y)) by done. simpl.
        apply bool_decide_ext. split; [by intros ->|by intros [=]].
      * rewrite (bool_decide_eq_false_2 (x = y)) by done. simpl.
        symmetry. apply bool_decide_eq_false_2. intros [=]. congruence.
Qed.

Lemma contains_prefix (p s : string) :
  String.prefix p s = true → contains p s = true.
Proof. intros H. destruct s as [|a s]; cbn [contains]; by rewrite H. Qed.

Lemma contains_nil (p : string) : contains p EmptyString = bool_decide (p = EmptyString).
Proof. destruct p; simpl; by rewrite ?orb_false_r. Qed.

Lemma contains_cons (p : string) (a : ascii) (s : string) :
  contains p (String a s) = String.prefix p (String a s) || contains p s.
Proof. reflexivity. Qed.

(** [p in a c b] for a pattern free of [c]: it is in [a] or in [b]. *)
Lemma contains_app_sep (c : ascii) (p a b : string) :
  has_char c p = false →
  contains p (a +:+ String c b) = contains p a || contains p b.
Proof.
  intros Hp. induction a as [|y a IH].
  - rewrite app_nil, contains_cons, contains_nil.
    destruct p as [|x p]; [done|].
    apply has_char_cons_false in Hp as [Hx _].
    rewrite prefix_cons, (bool_decide_eq_false_2 (x = c)) by done.
    by rewrite bool_decide_eq_false_2.
  - rewrite app_cons, !contains_cons, IH, <- app_cons, prefix_app_sep by done.
    by rewrite orb_assoc.
Qed.

Lemma endswith_nil (p : string) : endswith p EmptyString = bool_decide (EmptyString = p).
Proof. simpl. by rewrite orb_false_r. Qed.

Lemma endswith_cons (p : string) (a : ascii) (s : string) :
  endswith p (String a s) = bool_decide (String a s = p) || endswith p s.
Proof. reflexivity. Qed.

(** [p c in a c b] with [p] and [a] free of [c]: [a] ends with [p], or the
    pattern is in [b]. *)
Lemma contains_sep (c : ascii) (p a b : string) :
  has_char c p = false → has_char c a = false →
  contains (p +:+ String c EmptyString) (a +:+ String c b)
  = endswith p a || contains (p +:+ String c EmptyString) b.
Proof.
  intros Hp. induction a as [|y a IH]; intros Ha.
  - rewrite app_nil, contains_cons, <- (app_nil (String c b)), prefix_sep_eq by done.
    by rewrite endswith_nil.
  - rewrite app_cons, contains_cons, <- app_cons, prefix_sep_eq by done.
    apply has_char_cons_false in Ha as [_ Ha].
    rewrite IH, endswith_cons by done. by rewrite orb_assoc.
Qed.

(** A pattern that has [c] is in no string free of [c]. *)
Lemma prefix_has_char (c : ascii) (p s : string) :
  String.prefix p s = true → has_char c p = true → has_char c s = true.
Proof.
  revert s. induction p as [|x p IH]; intros s Hpre Hc; [done|].
  destruct s as [|y s]; [done|].
  rewrite prefix_cons in Hpre. apply andb_true_iff in Hpre as [Hxy Hpre].
  apply bool_decide_eq_true in Hxy as ->.
  simpl in *. apply orb_true_iff in Hc as [->|Hc]; [done|].
  rewrite (IH s) by done. by rewrite orb_true_r.
Qed.

Lemma contains_has_char (c : ascii) (p s : string) :
  has_char c p = true → has_char c s = false → contains p s = false.
Proof.
  intros Hp. induction s as [|y s IH]; intros Hs.
  - rewrite contains_nil. apply bool_decide_eq_false_2. by intros ->.
  - rewrite contains_cons. simpl in Hs. apply orb_false_iff in Hs as [Hy Hs].
    rewrite IH, orb_false_r by done. apply not_true_is_false. intros Hpre.
    pose proof (prefix_has_char c _ _ Hpre Hp) as H. simpl in H.
    by rewrite Hy, Hs in H.
Qed.

Lemma prefix_app_l (p q s : string) :
  String.prefix (p +:+ q) s = true → String.prefix p s = true.
Proof.
  revert s. induction p as [|x p IH]; intros s H; [apply prefix_nil|].
  destruct s as [|y s]; [done|].
  rewrite app_cons, prefix_cons in H. apply andb_true_iff in H as [Hxy H].
  rewrite prefix_cons, Hxy. simpl. by apply IH.
Qed.

(** If a pattern is in [s], so is each of its prefixes. *)
Lemma contains_app_l (p q s : string) :
  contains p s = false → contains (p +:+ q) s = false.
Proof.
  induction s as [|y s IH].
  - rewrite !contains_nil. intros Hp%bool_decide_eq_false.
    apply bool_decide_eq_false_2. destruct p; [done|]. by rewrite app_cons.
  - rewrite !contains_cons. intros [Hpre Hs]%orb_false_iff.
    rewrite IH, orb_false_r by done.
    apply not_true_is_false. intros H%prefix_app_l. congruence.
Qed.

Lemma split_cons (c a : ascii) (s : string) :
  split c (String a s) =
    if decide (a = c) then EmptyString :: split c s
    else match split c s with
         | f :: fs => String a f :: fs
         | [] => [String a EmptyString]
         end.
Proof. reflexivity. Qed.

Lemma split_no_sep (c : ascii) (s : string) :
  has_char c s = false → split c s = [s].
Proof.
  induction s as [|a s IH]; intros Hs; [done|].
  apply has_char_cons_false in Hs as [Ha Hs].
  rewrite split_cons, decide_False, IH by done. done.
Qed.

Lemma split_app_sep (c : ascii) (a b : string) :
  has_char c a = false → split c (a +:+ String c b) = a :: split c b.
Proof.
  induction a as [|x a IH]; intros Ha.
  - rewrite app_nil, split_cons, decide_True by done. done.
  - apply has_char_cons_false in Ha as [Hx Ha].
    rewrite app_cons, split_cons, decide_False, IH by done. done.
Qed.

Lemma one_line_cons (a : ascii) (s : string) :
  one_line (String a s) = true → a ≠ LF ∧ a ≠ CR ∧ one_line s = true.
Proof.
  unfold one_line. simpl. rewrite !negb_orb.
  intros [[H1 H2]%andb_true_iff [H3 H4]%andb_true_iff]%andb_true_iff.
  apply negb_true_iff, bool_decide_eq_false in H1, H3.
  rewrite H2, H4. done.
Qed.

Lemma one_line_app (s t : string) :
  one_line (s +:+ t) = one_line s && one_line t.
Proof.
  unfold one_line. rewrite !has_char_app, !negb_orb.
  destruct (has_char LF s), (has_char CR s), (has_char LF t); done.
Qed.

(** A line and its terminator, read back by [splitlines]. *)
Lemma splitlines_app_nl (l rest : string) :
  one_line l = true →
  splitlines (l +:+ nl +:+ rest) = l :: splitlines rest.
Proof.
  induction l as [|a l IH]; intros Hl.
  - done.
  - apply one_line_cons in Hl as (Ha1 & Ha2 & Hl).
    rewrite app_cons. simpl.
    rewrite !decide_False by done.
    fold (splitlines (l +:+ nl +:+ rest)). by rewrite IH.
Qed.

End PyStrFacts.

(** ** The parser on one line of each shape *)

Module ParserFacts.
Import PyStr PyStrFacts.

Lemma plain_inv (s : string) :
  plain s = true → has_char ":" s = false ∧ one_line s = true.
Proof.
  unfold plain. intros [H1 H2]%andb_true_iff.
  by apply negb_true_iff in H1.
Qed.

(** [m: in a:b:c] when neither [m] nor a field has a colon. *)
Lemma marker_in_fields (m a b c : string) :
  has_char ":" m = false → has_char ":" a = false →
  has_char ":" b = false → has_char ":" c = false →
  contains (m +:+ ":") (a +:+ ":" +:+ b +:+ ":" +:+ c) = endswith m a || endswith m b.
Proof.
  intros Hm Ha Hb Hc.
  change (a +:+ ":" +:+ b +:+ ":" +:+ c) with (a +:+ String ":" (b +:+ String ":" c)).
  change (m +:+ ":") with (m +:+ String ":" EmptyString).
  rewrite !contains_sep by done.
  rewrite (contains_has_char ":") by (by rewrite ?has_char_app, ?orb_true_r).
  by rewrite orb_false_r.
Qed.

Lemma word_in_fields (p a b c : string) :
  has_char ":" p = false →
  contains p (a +:+ ":" +:+ b +:+ ":" +:+ c) = contains p a || contains p b || contains p c.
Proof.
  intros Hp.
  change (a +:+ ":" +:+ b +:+ ":" +:+ c) with (a +:+ String ":" (b +:+ String ":" c)).
  rewrite !contains_app_sep by done. by rewrite orb_assoc.
Qed.

Lemma split_fields (a b c : string) :
  has_char ":" a = false → has_char ":" b = false → has_char ":" c = false →
  split ":" (a +:+ ":" +:+ b +:+ ":" +:+ c) = [a; b; c].
Proof.
  intros Ha Hb Hc.
  change (a +:+ ":" +:+ b +:+ ":" +:+ c) with (a +:+ String ":" (b +:+ String ":" c)).
  by rewrite !split_app_sep, split_no_sep.
Qed.

(** Neither [#owner:] nor [#group:] is in a line [a:b:c] unless a field
    ends with the marker. *)
Lemma no_header_marker (a b c : string) :
  has_char ":" a = false → has_char ":" b = false → has_char ":" c = false →
  endswith "#owner" a = false → endswith "#owner" b = false →
  endswith "#group" a = false → endswith "#group" b = false →
  contains "#owner:" (a +:+ ":" +:+ b +:+ ":" +:+ c) = false
  ∧ contains "#group:" (a +:+ ":" +:+ b +:+ ":" +:+ c) = false.
Proof.
  intros Ha Hb Hc Ho1 Ho2 Hg1 Hg2. split.
  - change "#owner:" with ("#owner" +:+ ":").
    rewrite marker_in_fields by done. by rewrite Ho1, Ho2.
  - change "#group:" with ("#group" +:+ ":").
    rewrite marker_in_fields by done. by rewrite Hg1, Hg2.
Qed.

(** [user::p], [group::p], [other::p] and [mask::p]: the whole of [p] is
    stored. *)
Lemma get_acl_line_user_triad (d : acl) (p : string) :
  has_char ":" p = false →
  get_acl_line d ("user::" +:+ p) = Ok (set_USERP (Some p) d).
Proof.
  intros Hp. unfold get_acl_line.
  change ("user::" +:+ p) with ("user" +:+ ":" +:+ EmptyString +:+ ":" +:+ p).
  destruct (no_header_marker "user" EmptyString p) as [-> ->]; [done..|].
  rewrite split_fields by done. done.
Qed.

Lemma get_acl_line_group_triad (d : acl) (p : string) :
  has_char ":" p = false →
  get_acl_line d ("group::" +:+ p) = Ok (set_GROUPP (Some p) d).
Proof.
  intros Hp. unfold get_acl_line.
  change ("group::" +:+ p) with ("group" +:+ ":" +:+ EmptyString +:+ ":" +:+ p).
  destruct (no_header_marker "group" EmptyString p) as [-> ->]; [done..|].
  rewrite split_fields by done. done.
Qed.

Lemma get_acl_line_other (d : acl) (p : string) :
  has_char ":" p = false →
  get_acl_line d ("other::" +:+ p) = Ok (set_OTHERP (Some p) d).
Proof.
  intros Hp. unfold get_acl_line.
  change ("other::" +:+ p) with ("other" +:+ ":" +:+ EmptyString +:+ ":" +:+ p).
  destruct (no_header_marker "other" EmptyString p) as [-> ->]; [done..|].
  assert (contains "other::" ("other" +:+ ":" +:+ EmptyString +:+ ":" +:+ p) = true) as ->
    by apply contains_prefix, (prefix_app "other::" p).
  rewrite split_fields by done. done.
Qed.

Lemma get_acl_line_mask (d : acl) (p : string) :
  has_char ":" p = false →
  get_acl_line d ("mask::" +:+ p) = Ok (set_MASK (Some p) d).
Proof.
  intros Hp. unfold get_acl_line.
  assert (contains "other::" ("mask::" +:+ p) = false) as Hother.
  { change "other::" with (("other" +:+ ":") +:+ ":").
    apply contains_app_l.
    change ("mask::" +:+ p) with ("mask" +:+ ":" +:+ EmptyString +:+ ":" +:+ p).
    by rewrite marker_in_fields. }
  rewrite Hother.
  change ("mask::" +:+ p) with ("mask" +:+ ":" +:+ EmptyString +:+ ":" +:+ p).
  destruct (no_header_marker "mask" EmptyString p) as [-> ->]; [done..|].
  assert (contains "mask::" ("mask" +:+ ":" +:+ EmptyString +:+ ":" +:+ p) = true) as ->
    by apply contains_prefix, (prefix_app "mask::" p).
  rewrite split_fields by done. done.
Qed.

(** A named entry without an effective annotation: the first four
    characters of the third field, and the sentinel. *)
Lemma get_acl_line_user_entry (d : acl) (users : gmap string entry) (n p : string) :
  USERS d = Some users →
  n ≠ EmptyString → has_char ":" n = false → has_char ":" p = false →
  endswith "#owner" n = false → endswith "#group" n = false →
  contains "effective" n = false → contains "effective" p = false →
  get_acl_line d ("user:" +:+ n +:+ ":" +:+ p)
  = Ok (set_USERS (Some (<[n := Entry (slice 0 4 p) (Some "????")]> users)) d).
Proof.
  intros Hu Hn Hcn Hcp Ho Hg Hen Hep. unfold get_acl_line.
  change ("user:" +:+ n +:+ ":" +:+ p) with ("user" +:+ ":" +:+ n +:+ ":" +:+ p).
  destruct (no_header_marker "user" n p) as [-> ->]; [done..|].
  rewrite word_in_fields, Hen, Hep by done.
  rewrite split_fields by done.
  change (startswith "user:" ("user" +:+ ":" +:+ n +:+ ":" +:+ p))
    with (String.prefix EmptyString (n +:+ ":" +:+ p)).
  rewrite prefix_nil. cbn.
  rewrite decide_False by done. by rewrite Hu.
Qed.

Lemma get_acl_line_group_entry (d : acl) (groups : gmap string entry) (n p : string) :
  GROUPS d = Some groups →
  n ≠ EmptyString → has_char ":" n = false → has_char ":" p = false →
  endswith "#owner" n = false → endswith "#group" n = false →
  contains "effective" n = false → contains "effective" p = false →
  get_acl_line d ("group:" +:+ n +:+ ":" +:+ p)
  = Ok (set_GROUPS (Some (<[n := Entry (slice 0 4 p) (Some "????")]> groups)) d).
Proof.
  intros Hu Hn Hcn Hcp Ho Hg Hen Hep. unfold get_acl_line.
  change ("group:" +:+ n +:+ ":" +:+ p) with ("group" +:+ ":" +:+ n +:+ ":" +:+ p).
  destruct (no_header_marker "group" n p) as [-> ->]; [done..|].
  rewrite word_in_fields, Hen, Hep by done.
  rewrite split_fields by done.
  change (startswith "user:" ("group" +:+ ":" +:+ n +:+ ":" +:+ p)) with false.
  change (startswith "group:" ("group" +:+ ":" +:+ n +:+ ":" +:+ p))
    with (String.prefix EmptyString (n +:+ ":" +:+ p)).
  rewrite prefix_nil. cbn.
  rewrite decide_False by done. by rewrite Hu.
Qed.

(** The body of the loop on a given line: its tests and its fields are
    computed, the dictionary stays symbolic. *)
Ltac run_line line :=
  unfold get_acl_line;
  let step t := (let v := eval vm_compute in t in change t with v) in
  step (contains "#owner:" line); step (contains "#group:" line);
  step (startswith "user:" line); step (startswith "group:" line);
  step (contains "other::" line); step (contains "mask::" line);
  step (contains "effective" line); step (split ":" line);
  cbn [item lookup list_lookup mbind result_bind mret result_ret].

(** The line of the specification's example: the fourth field is the word
    [effective], and characters 1 to 4 of it are stored. *)
Lemma get_acl_line_bob (d : acl) (users : gmap string entry) :
  USERS d = Some users →
  get_acl_line d "user:bob:rwx-:effective:r---"
  = Ok (set_USERS (Some (<["bob" := Entry "rwx-" (Some "ffec")]> users)) d).
Proof.
  intros Hu. unfold get_acl_line.
  replace (contains "#owner:" "user:bob:rwx-:effective:r---") with false by (vm_compute; reflexivity).
  replace (contains "#group:" "user:bob:rwx-:effective:r---") with false by (vm_compute; reflexivity).
  replace (startswith "user:" "user:bob:rwx-:effective:r---") with true by (vm_compute; reflexivity).
  replace (contains "effective" "user:bob:rwx-:effective:r---") with true by (vm_compute; reflexivity).
  replace (split ":" "user:bob:rwx-:effective:r---") with ["user"; "bob"; "rwx-"; "effective"; "r---"]
    by (vm_compute; reflexivity).
  cbn [item lookup list_lookup mbind result_bind mret result_ret].
  rewrite decide_False by done. by rewrite Hu.
Qed.

End ParserFacts.

(** ** The parser: stored permissions and the effective field *)

Section ParserClaims.
Import PyStr PyStrFacts ParserFacts.

Lemma name_ok_inv (n : string) :
  name_ok n = true →
  n ≠ EmptyString ∧ has_char ":" n = false ∧ one_line n = true
  ∧ contains "effective" n = false
  ∧ endswith "#owner" n = false ∧ endswith "#group" n = false.
Proof.
  unfold name_ok. rewrite !andb_true_iff, !negb_true_iff.
  intros [[[[Hn Hp] He] Ho] Hg]. apply plain_inv in Hp as [Hc Hl].
  apply bool_decide_eq_false in Hn. done.
Qed.

Lemma perms_ok_inv (p : string) :
  perms_ok p = true →
  has_char ":" p = false ∧ one_line p = true ∧ contains "effective" p = false.
Proof.
  unfold perms_ok. rewrite !andb_true_iff, !negb_true_iff.
  intros [Hp He]. apply plain_inv in Hp as [Hc Hl]. done.
Qed.

(** The loop over a text of one terminated line is the body on that line. *)
Lemma get_acl_loop_one_line (d : acl) (line : string) :
  one_line line = true →
  get_acl_loop d (line +:+ nl) = get_acl_line d line.
Proof.
  intros Hl. unfold get_acl_loop.
  rewrite <- (app_nil_r (line +:+ nl)), app_assoc, splitlines_app_nl by done.
  simpl. by destruct (get_acl_line d line).
Qed.

(** C3, where the code goes wrong. The effective value the loop stores is
    [line.split(':')[3][1:5]]. On the line [user:bob:rwx-:effective:r---]
    the fourth field is the word [effective] and bob gets [ffec], not
    [r---]; on a line with the annotation [#effective:r-x-] after the
    permissions the first character of the effective permissions is cut
    off and bob gets [-x-]. The permissions themselves are [rwx-] in both.
    The line [user:carol:r---], with no [effective] in it, gives carol the
    sentinel [????]. *)
Theorem get_acl_named_user_effective (d : acl) (users : gmap string entry) :
  USERS d = Some users →
  get_acl_loop d ("user:bob:rwx-:effective:r---" +:+ nl)
    = Ok (set_USERS (Some (<["bob" := Entry "rwx-" (Some "ffec")]> users)) d)
  ∧ get_acl_loop d ("user:bob:rwx- #effective:r-x-" +:+ nl)
    = Ok (set_USERS (Some (<["bob" := Entry "rwx-" (Some "-x-")]> users)) d)
  ∧ get_acl_loop d ("user:carol:r---" +:+ nl)
    = Ok (set_USERS (Some (<["carol" := Entry "r---" (Some "????")]> users)) d).
Proof.
  intros Hu. rewrite !get_acl_loop_one_line by done.
  split; [|split].
  - by apply get_acl_line_bob.
  - run_line "user:bob:rwx- #effective:r-x-".
    rewrite decide_False by done. by rewrite Hu.
  - run_line "user:carol:r---".
    rewrite decide_False by done. by rewrite Hu.
Qed.

Lemma get_acl_named_user_effective_witness :
  let d := get_acl_init "/data/acl/a" "/data/acl" in
  get_acl_loop d ("user:bob:rwx-:effective:r---" +:+ nl)
    = Ok (set_USERS (Some (<["bob" := Entry "rwx-" (Some "ffec")]> ∅)) d)
  ∧ get_acl_loop d ("user:bob:rwx- #effective:r-x-" +:+ nl)
    = Ok (set_USERS (Some (<["bob" := Entry "rwx-" (Some "-x-")]> ∅)) d)
  ∧ get_acl_loop d ("user:carol:r---" +:+ nl)
    = Ok (set_USERS (Some (<["carol" := Entry "r---" (Some "????")]> ∅)) d).
Proof.
  intros d. by apply (get_acl_named_user_effective d ∅).
Defined.

(** C5, where the code goes wrong. The named entries store the first four
    characters of the third field, [line.split(':')[2][0:4]]; the branches
    of the triads [user::], [group::], [other::] and of [mask::] leave the
    slice out and store the whole field. On lines that carry the
    annotation [#effective:r-x-] after the permissions [rwx-], each of
    the four stores [rwx- #effective], and the named group stores
    [rwx-]. *)
Theorem get_acl_line_stored_perms (d : acl) (groups : gmap string entry) :
  GROUPS d = Some groups →
  get_acl_line d "user::rwx- #effective:r-x-" = Ok (set_USERP (Some "rwx- #effective") d)
  ∧ get_acl_line d "group::rwx- #effective:r-x-" = Ok (set_GROUPP (Some "rwx- #effective") d)
  ∧ get_acl_line d "other::rwx- #effective:r-x-" = Ok (set_OTHERP (Some "rwx- #effective") d)
  ∧ get_acl_line d "mask::rwx- #effective:r-x-" = Ok (set_MASK (Some "rwx- #effective") d)
  ∧ get_acl_line d "group:devteam:rwx- #effective:r-x-"
    = Ok (set_GROUPS (Some (<["devteam" := Entry "rwx-" (Some "-x-")]> groups)) d).
Proof.
  intros Hg. split; [|split; [|split; [|split]]].
  - run_line "user::rwx- #effective:r-x-". by rewrite decide_True.
  - run_line "group::rwx- #effective:r-x-". by rewrite decide_True.
  - by run_line "other::rwx- #effective:r-x-".
  - by run_line "mask::rwx- #effective:r-x-".
  - run_line "group:devteam:rwx- #effective:r-x-".
    rewrite decide_False by done. by rewrite Hg.
Qed.

Lemma get_acl_line_stored_perms_witness :
  let d := get_acl_init "/data/acl/a" "/data/acl" in
  get_acl_line d "user::rwx- #effective:r-x-" = Ok (set_USERP (Some "rwx- #effective") d)
  ∧ get_acl_line d "group::rwx- #effective:r-x-" = Ok (set_GROUPP (Some "rwx- #effective") d)
  ∧ get_acl_line d "other::rwx- #effective:r-x-" = Ok (set_OTHERP (Some "rwx- #effective") d)
  ∧ get_acl_line d "mask::rwx- #effective:r-x-" = Ok (set_MASK (Some "rwx- #effective") d)
  ∧ get_acl_line d "group:devteam:rwx- #effective:r-x-"
    = Ok (set_GROUPS (Some (<["devteam" := Entry "rwx-" (Some "-x-")]> ∅)) d).
Proof.
  intros d. by apply (get_acl_line_stored_perms d ∅).
Defined.

End ParserClaims.

(** ** Running a computation step by step *)

Module RunFacts.

Lemma bind_eq {A B : Type} (m : M A) (f : A → M B) (w : world) :
  (m ≫= f) w = match m w with
                | (Ok a, w') => f a w'
                | (Raise e, w') => (Raise e, w')
                end.
Proof. reflexivity. Qed.

Lemma bind_ok {A B : Type} (m : M A) (f : A → M B) (w w' : world) (a : A) :
  m w = (Ok a, w') → (m ≫= f) w = f a w'.
Proof. intros H. by rewrite bind_eq, H. Qed.

Lemma bind_raise {A B : Type} (m : M A) (f : A → M B) (w w' : world) (e : exn) :
  m w = (Raise e, w') → (m ≫= f) w = (Raise e, w').
Proof. intros H. by rewrite bind_eq, H. Qed.

Lemma bind_ret {A B : Type} (a : A) (f : A → M B) (w : world) :
  (mret a ≫= f) w = f a w.
Proof. reflexivity. Qed.

Lemma bind_lift {A B : Type} (r : result A) (f : A → M B) (w : world) :
  (lift r ≫= f) w = match r with
                     | Ok a => f a w
                     | Raise e => (Raise e, w)
                     end.
Proof. by destruct r. Qed.

Lemma bind_print {B : Type} (s : string) (f : unit → M B) (w : world) :
  (print s ≫= f) w = f tt (World (files w) (printed w ++ [s])).
Proof. reflexivity. Qed.

Lemma bind_fd_write {B : Type} (path s : string) (f : unit → M B) (w : world) :
  (fd_write path s ≫= f) w
  = f tt (World (<[path := default EmptyString (files w !! path) +:+ s]> (files w)) (printed w)).
Proof. reflexivity. Qed.

Lemma bind_open_w {B : Type} (path : string) (f : unit → M B) (w : world) :
  (open_w path ≫= f) w = f tt (World (<[path := EmptyString]> (files w)) (printed w)).
Proof. reflexivity. Qed.

Lemma bind_assoc {A B C : Type} (m : M A) (f : A → M B) (g : B → M C) (w : world) :
  ((m ≫= f) ≫= g) w = (m ≫= λ a, f a ≫= g) w.
Proof. rewrite (bind_eq (m ≫= f)), !(bind_eq m). by destruct (m w) as [[a|e] w']. Qed.

Lemma fd_write_run (path s t : string) (fs : gmap string string) (pr : list string) :
  fs !! path = Some t →
  fd_write path s (World fs pr) = (Ok tt, World (<[path := t +:+ s]> fs) pr).
Proof. intros H. unfold fd_write. cbn [files printed]. by rewrite H. Qed.

Lemma fd_write_again (path s t : string) (fs : gmap string string) (pr : list string) :
  fd_write path s (World (<[path := t]> fs) pr) = (Ok tt, World (<[path := t +:+ s]> fs) pr).
Proof.
  rewrite (fd_write_run path s t) by apply lookup_insert_eq.
  by rewrite insert_insert_eq.
Qed.

Lemma read_file_run (path t : string) (fs : gmap string string) (pr : list string) :
  fs !! path = Some t → read_file path (World fs pr) = (Ok t, World fs pr).
Proof. intros H. unfold read_file. cbn [files]. by rewrite H. Qed.

End RunFacts.

(** ** The command runner and the mutators of [mmacls] *)

Section ClassClaims.
Import RunFacts.

(** C10. With no command, [None] or the empty string, [execute_command]
    returns [(99999999, None, None)]; whatever the process spawner would do,
    nothing is spawned and nothing is printed: the world is the one it was
    called in. *)
Theorem execute_command_no_command
    (spawn : string → gmap string string → (Z * string * string) * gmap string string)
    (Debug : bool) (w : world) :
  execute_command spawn None Debug w = (Ok (99999999, None, None), w)
  ∧ execute_command spawn (Some EmptyString) Debug w = (Ok (99999999, None, None), w).
Proof. split; reflexivity. Qed.

(** C9, where the code goes wrong. [get_group_acl] tests [self.acls ==
    None], and no method assigns [None]: the constructor leaves the
    attribute unset for a file that is not there, and for such an object
    the method raises [AttributeError]; it does not return [????]. A
    dictionary that has lost its [GROUPS] map, as after [clear_acls],
    makes it raise [KeyError]. Only when a caller has put [None] in
    [self.acls] is [????] returned. On a dictionary with its [GROUPS] map
    the stored permissions of the group are returned, and [----] for a
    group with no entry. *)
Theorem get_group_acl_result (self : mmacls) (d : acl) (groups : gmap string entry) (g : string) :
  (∀ spawn abspath os_dirname stat f w,
     stat (abspath f) = None →
     ∃ missing, init spawn abspath os_dirname stat (Some f) w = (Ok missing, w)
                ∧ get_group_acl missing (Some g) = Raise (AttributeError "acls"))
  ∧ (acls self = Unset → get_group_acl self (Some g) = Raise (AttributeError "acls"))
  ∧ (acls self = PyNone → get_group_acl self (Some g) = Ok "????")
  ∧ (acls self = Val d → GROUPS d = None →
     get_group_acl self (Some g) = Raise (KeyError "GROUPS"))
  ∧ (acls self = Val d → GROUPS d = Some groups →
     (∀ e, groups !! g = Some e → get_group_acl self (Some g) = Ok (PERMS e))
     ∧ (groups !! g = None → get_group_acl self (Some g) = Ok "----")).
Proof.
  split; [|unfold get_group_acl; split; [|split; [|split]]].
  - intros spawn abspath os_dirname stat f w Hstat. unfold init. rewrite Hstat.
    eexists. by split.
  - by intros ->.
  - by intros ->.
  - intros -> Hg. by rewrite Hg.
  - intros -> Hg. rewrite Hg. cbn [getitem mbind result_bind option_bind].
    split; [intros e He|intros He]; by rewrite He.
Qed.

Lemma get_group_acl_result_witness :
  let d := set_GROUPS (Some {["devteam" := Entry "rwx-" None]}) (get_acl_init "/data/acl/a" "/data/acl") in
  let self := Mmacls false false false true (Some "/data/acl/a") (Some "/data/acl/a")
                     (Some "/data/acl") (Val d) Unset in
  (∃ missing, init failing_spawn sample_abspath sample_os_dirname stat_missing
                (Some "/no/such/file") (World ∅ []) = (Ok missing, World ∅ [])
              ∧ get_group_acl missing (Some "devteam") = Raise (AttributeError "acls"))
  ∧ get_group_acl (set_acls Unset self) (Some "devteam") = Raise (AttributeError "acls")
  ∧ get_group_acl (set_acls PyNone self) (Some "devteam") = Ok "????"
  ∧ get_group_acl (set_acls (Val (set_GROUPS None d)) self) (Some "devteam")
    = Raise (KeyError "GROUPS")
  ∧ get_group_acl self (Some "devteam") = Ok "rwx-"
  ∧ get_group_acl self (Some "staff") = Ok "----".
Proof.
  intros d self.
  destruct (get_group_acl_result (set_acls Unset self) d ∅ "devteam") as (Hinit & Hunset & _).
  destruct (get_group_acl_result (set_acls PyNone self) d ∅ "devteam") as (_ & _ & Hnone & _).
  destruct (get_group_acl_result (set_acls (Val (set_GROUPS None d)) self)
              (set_GROUPS None d) ∅ "devteam") as (_ & _ & _ & Hkey & _).
  destruct (get_group_acl_result self d {["devteam" := Entry "rwx-" None]} "devteam")
    as (_ & _ & _ & _ & Hdev).
  destruct (get_group_acl_result self d {["devteam" := Entry "rwx-" None]} "staff")
    as (_ & _ & _ & _ & Hstaff).
  destruct (Hdev eq_refl eq_refl) as [Hdev' _].
  destruct (Hstaff eq_refl eq_refl) as [_ Hstaff'].
  split; [|split; [|split; [|split; [|split]]]].
  - by apply (Hinit failing_spawn sample_abspath sample_os_dirname stat_missing).
  - by apply Hunset.
  - by apply Hnone.
  - by apply Hkey.
  - by apply (Hdev' (Entry "rwx-" None)), lookup_singleton_eq.
  - by apply Hstaff', lookup_singleton_ne.
Defined.

(** C2, the half that the code has wrong. [del_user_acl] looks the name up
    in [self.acls] and deletes it from [self.default_acls]: on an object
    that has no default ACL yet it raises [AttributeError]; on one that
    has, the entry of the default ACL goes and [self.acls] keeps the
    name. *)
Theorem del_user_acl_deletes_from_default_acls
    (self : mmacls) (d dd : acl) (users dusers : gmap string entry) (username : string) (w : world) :
  acls self = Val d → USERS d = Some users → is_Some (users !! username) →
  (default_acls self = Unset →
   del_user_acl self username w = (Raise (AttributeError "default_acls"), w))
  ∧ (default_acls self = Val dd → USERS dd = Some dusers → is_Some (dusers !! username) →
     del_user_acl self username w
     = (Ok (set_default_acls (Val (set_USERS (Some (delete username dusers)) dd)) self), w)
     ∧ acls (set_default_acls (Val (set_USERS (Some (delete username dusers)) dd)) self) = Val d).
Proof.
  intros Ha Hu Hin. unfold del_user_acl.
  rewrite Ha, bind_lift. cbn [the_dict]. rewrite Hu, bind_lift. cbn [getitem].
  rewrite decide_True by done. split.
  - intros ->. by rewrite bind_lift.
  - intros -> Hdu [e He]. rewrite bind_lift. cbn [the_dict].
    rewrite Hdu, bind_lift. cbn [getitem]. unfold delitem.
    rewrite He, bind_lift. by split.
Qed.

Lemma del_user_acl_deletes_from_default_acls_witness :
  let d := set_USERS (Some {["bob" := Entry "rwx-" (Some "????")]}) (get_acl_init "/data/acl/a" "/data/acl") in
  let self := Mmacls false false false true (Some "/data/acl/a") (Some "/data/acl/a")
                     (Some "/data/acl") (Val d) Unset in
  del_user_acl self "bob" (World ∅ []) = (Raise (AttributeError "default_acls"), World ∅ [])
  ∧ del_user_acl (set_default_acls (Val d) self) "bob" (World ∅ [])
    = (Ok (set_default_acls (Val (set_USERS (Some (delete "bob" {["bob" := Entry "rwx-" (Some "????")]})) d))
                            (set_default_acls (Val d) self)), World ∅ []).
Proof.
  intros d self.
  assert (is_Some (({["bob" := Entry "rwx-" (Some "????")]} : gmap string entry) !! "bob")) as Hbob
    by (rewrite lookup_singleton_eq; by eexists).
  destruct (del_user_acl_deletes_from_default_acls self d d
              {["bob" := Entry "rwx-" (Some "????")]} ∅ "bob" (World ∅ []) eq_refl eq_refl Hbob)
    as [Hunset _].
  destruct (del_user_acl_deletes_from_default_acls (set_default_acls (Val d) self) d d
              {["bob" := Entry "rwx-" (Some "????")]} {["bob" := Entry "rwx-" (Some "????")]}
              "bob" (World ∅ []) eq_refl eq_refl Hbob)
    as [_ Hval].
  split.
  - by apply Hunset.
  - by apply (Hval eq_refl eq_refl Hbob).
Defined.

End ClassClaims.

(** ** Update or append: the buffer of [gac_update_acl] *)

Section UpsertClaims.
Import PyStr PyStrFacts RunFacts.
Variable spawn : string → gmap string string → (Z * string * string) * gmap string string.
Variable mktemp : gmap string string → string.

Lemma execute_command_run (cmd : string) (w : world) :
  cmd ≠ EmptyString →
  execute_command spawn (Some cmd) false w
  = (Ok ((spawn cmd (files w)).1.1.1, Some (spawn cmd (files w)).1.1.2, Some (spawn cmd (files w)).1.2),
     World (spawn cmd (files w)).2 (printed w)).
Proof.
  intros Hcmd. unfold execute_command. rewrite decide_False by done.
  by destruct (spawn cmd (files w)) as [[[rc out] err] fs].
Qed.

Lemma getacl_cmd_nonempty (opts aclFile filename : string) :
  getacl_cmd opts aclFile filename ≠ EmptyString.
Proof. done. Qed.

Lemma putacl_cmd_nonempty (opts aclFile filename : string) :
  putacl_cmd opts aclFile filename ≠ EmptyString.
Proof. done. Qed.

Lemma contains_empty (s : string) : contains EmptyString s = true.
Proof. apply contains_prefix, prefix_nil. Qed.

Lemma found_again (g buf : string) :
  contains g buf || contains g EmptyString = contains g buf.
Proof.
  rewrite contains_nil. case_bool_decide as Hg; [|by rewrite orb_false_r].
  subst g. by rewrite contains_empty.
Qed.

(** The first command of the update helpers: printed only in a dry run,
    else run; the helper goes on when the command was not run or left 0. *)
Lemma fetch_stage (cmd : string) (dryrun verbose : bool) (w : world) :
  cmd ≠ EmptyString →
  (dryrun = false → exit_code (spawn cmd (files w)) = 0) →
  ∃ pr,
    (if dryrun then print cmd;; mret true
     else
       (if verbose then print cmd else mret tt);;
       '(rc, stdout, stderr) ← execute_command spawn (Some cmd) false;
       if decide (rc ≠ 0) then print_failure cmd rc stdout stderr;; mret false
       else mret true) w
    = (Ok true, World (after_cmd spawn dryrun cmd (files w)) pr).
Proof.
  intros Hcmd Hrc. destruct dryrun.
  - rewrite bind_print. by eexists.
  - specialize (Hrc eq_refl). unfold exit_code in Hrc.
    destruct verbose; [rewrite bind_print|rewrite bind_ret];
      rewrite (bind_ok _ _ _ _ _ (execute_command_run cmd _ Hcmd));
      cbv beta iota; cbn [files printed]; rewrite Hrc;
      rewrite decide_False by (intros H; by apply H); by eexists.
Qed.

(** The four default lines go to the end of a buffer with no [user::]. *)
Lemma backfill_stage (aclFile buf : string) (fs : gmap string string) (pr : list string) :
  fs !! aclFile = Some buf →
  (if negb (contains "user::" buf) then
     fd_write aclFile ("user::rwxc" +:+ nl);;
     fd_write aclFile ("group::r-x-" +:+ nl);;
     fd_write aclFile ("other::----" +:+ nl);;
     fd_write aclFile ("mask::r-x-" +:+ nl);;
     mret true
   else mret (contains "mask::" buf)) (World fs pr)
  = (Ok (negb (contains "user::" buf) || contains "mask::" buf),
     World (<[aclFile := buf +:+ (if contains "user::" buf then EmptyString else default_lines)]> fs) pr).
Proof.
  intros Hbuf. destruct (contains "user::" buf); cbn [negb orb].
  - by rewrite app_nil_r, insert_id.
  - rewrite (bind_ok _ _ _ _ _ (fd_write_run _ _ _ _ _ Hbuf)).
    rewrite !(bind_ok _ _ _ _ _ (fd_write_again _ _ _ _ _)).
    unfold default_lines. by rewrite !app_assoc.
Qed.

(** The group line, after a mask line if none was found, goes to the end of
    the buffer, and the buffer to the second command. *)
Lemma store_stage (aclFile cmd g p t : string) (foundMask dryrun verbose : bool)
    (fs : gmap string string) (pr : list string) :
  cmd ≠ EmptyString →
  ∃ pr',
    ((if negb foundMask then fd_write aclFile ("mask::r-x-" +:+ nl) else mret tt);;
     fd_write aclFile ("group:" +:+ g +:+ ":" +:+ p +:+ nl);;
     if dryrun then print cmd
     else
       (if verbose then print cmd else mret tt);;
       '(rc, stdout, stderr) ← execute_command spawn (Some cmd) false;
       if decide (rc ≠ 0) then print_failure cmd rc stdout stderr else mret tt)
      (World (<[aclFile := t]> fs) pr)
    = (Ok tt,
       World (after_cmd spawn dryrun cmd
                (<[aclFile := t +:+ (if foundMask then EmptyString else "mask::r-x-" +:+ nl)
                              +:+ "group:" +:+ g +:+ ":" +:+ p +:+ nl]> fs)) pr').
Proof.
  intros Hcmd.
  assert (∀ w, ∃ pr',
    (if dryrun then print cmd
     else
       (if verbose then print cmd else mret tt);;
       '(rc, stdout, stderr) ← execute_command spawn (Some cmd) false;
       if decide (rc ≠ 0) then print_failure cmd rc stdout stderr else mret tt) w
    = (Ok tt, World (after_cmd spawn dryrun cmd (files w)) pr')) as Hput.
  { intros w. destruct dryrun; [by eexists|].
    destruct verbose; [rewrite bind_print|rewrite bind_ret];
      rewrite (bind_ok _ _ _ _ _ (execute_command_run cmd _ Hcmd));
      cbv beta iota; cbn [files printed];
      (destruct (decide (_ ≠ 0)); [unfold print_failure; rewrite !bind_print|]);
      by eexists. }
  destruct foundMask; cbn [negb].
  - rewrite bind_ret, (bind_ok _ _ _ _ _ (fd_write_again _ _ _ _ _)).
    rewrite app_nil. apply Hput.
  - rewrite !(bind_ok _ _ _ _ _ (fd_write_again _ _ _ _ _)).
    rewrite !app_assoc. apply Hput.
Qed.


(** The files [gac_update_acl] leaves, by whether the group name is in the
    buffer. *)
Lemma gac_update_acl_files (filename g p : string) (dryrun verbose : bool) (w : world) (buf : string) :
  let aclFile := mktemp (files w) in
  let fetched := after_cmd spawn dryrun (getacl_cmd " -o " aclFile filename) (files w) in
  let filled := buf +:+ (if contains "user::" buf then EmptyString else default_lines) in
  (dryrun = false → exit_code (spawn (getacl_cmd " -o " aclFile filename) (files w)) = 0) →
  fetched !! aclFile = Some buf →
  ∃ w', gac_update_acl spawn mktemp filename g p dryrun verbose w = (Ok tt, w')
        ∧ (contains g buf = true → files w' = <[aclFile := filled]> fetched)
        ∧ (contains g buf = false →
           files w' = after_cmd spawn dryrun (putacl_cmd " -i " aclFile filename)
                        (<[aclFile := filled
                             +:+ (if negb (contains "user::" buf) || contains "mask::" buf
                                  then EmptyString else "mask::r-x-" +:+ nl)
                             +:+ "group:" +:+ g +:+ ":" +:+ p +:+ nl]> fetched)).
Proof.
  intros aclFile fetched filled Hrc Hbuf.
  unfold gac_update_acl.
  rewrite (bind_ok _ _ w w aclFile) by reflexivity.
  destruct (fetch_stage _ dryrun verbose w (getacl_cmd_nonempty " -o " aclFile filename) Hrc)
    as [pr Hfetch].
  rewrite (bind_ok _ _ _ _ _ Hfetch). cbn [negb].
  rewrite (bind_ok _ _ _ _ _ (read_file_run _ _ _ _ Hbuf)).
  rewrite (bind_ok _ _ _ _ _ (backfill_stage _ _ _ _ Hbuf)).
  rewrite found_again.
  destruct (contains g buf); cbn [negb].
  - eexists. split; [reflexivity|]. by split.
  - destruct (store_stage aclFile (putacl_cmd " -i " aclFile filename) g p filled
                (negb (contains "user::" buf) || contains "mask::" buf) dryrun verbose
                fetched pr (putacl_cmd_nonempty " -i " aclFile filename)) as [pr' Hstore].
    eexists. split; [exact Hstore|]. by split.
Qed.

Lemma gac_update_default_acl_files (filename g p : string) (dryrun verbose : bool) (w : world) (buf : string) :
  let aclFile := mktemp (files w) in
  let fetched := after_cmd spawn dryrun (getacl_cmd " -d -o " aclFile filename) (files w) in
  let filled := buf +:+ (if contains "user::" buf then EmptyString else default_lines) in
  (dryrun = false → exit_code (spawn (getacl_cmd " -d -o " aclFile filename) (files w)) = 0) →
  fetched !! aclFile = Some buf →
  ∃ w', gac_update_default_acl spawn mktemp filename g p dryrun verbose w = (Ok tt, w')
        ∧ (contains g buf = true → files w' = <[aclFile := filled]> fetched)
        ∧ (contains g buf = false →
           files w' = after_cmd spawn dryrun (putacl_cmd " -d -i " aclFile filename)
                        (<[aclFile := filled
                             +:+ (if negb (contains "user::" buf) || contains "mask::" buf
                                  then EmptyString else "mask::r-x-" +:+ nl)
                             +:+ "group:" +:+ g +:+ ":" +:+ p +:+ nl]> fetched)).
Proof.
  intros aclFile fetched filled Hrc Hbuf.
  unfold gac_update_default_acl.
  rewrite (bind_ok _ _ w w aclFile) by reflexivity.
  destruct (fetch_stage _ dryrun verbose w (getacl_cmd_nonempty " -d -o " aclFile filename) Hrc)
    as [pr Hfetch].
  rewrite (bind_ok _ _ _ _ _ Hfetch). cbn [negb].
  rewrite (bind_ok _ _ _ _ _ (read_file_run _ _ _ _ Hbuf)).
  rewrite (bind_ok _ _ _ _ _ (backfill_stage _ _ _ _ Hbuf)).
  destruct (contains g buf); cbn [negb].
  - eexists. split; [reflexivity|]. by split.
  - destruct (store_stage aclFile (putacl_cmd " -d -i " aclFile filename) g p filled
                (negb (contains "user::" buf) || contains "mask::" buf) dryrun verbose
                fetched pr (putacl_cmd_nonempty " -d -i " aclFile filename)) as [pr' Hstore].
    eexists. split; [exact Hstore|]. by split.
Qed.

(** C7. When the buffer has the owner triad and not the group name,
    [gac_update_acl] hands the second command the buffer followed by a
    [mask::r-x-] line, written only when the buffer has no [mask::], and
    then by the line [group:<name>:<perms>]. *)
Theorem gac_update_acl_appends_mask_and_group
    (filename g p : string) (dryrun verbose : bool) (w : world) (buf : string) :
  let aclFile := mktemp (files w) in
  let fetched := after_cmd spawn dryrun (getacl_cmd " -o " aclFile filename) (files w) in
  (dryrun = false → exit_code (spawn (getacl_cmd " -o " aclFile filename) (files w)) = 0) →
  fetched !! aclFile = Some buf →
  contains "user::" buf = true → contains g buf = false →
  ∃ w', gac_update_acl spawn mktemp filename g p dryrun verbose w = (Ok tt, w')
        ∧ files w' = after_cmd spawn dryrun (putacl_cmd " -i " aclFile filename)
                       (<[aclFile := buf
                            +:+ (if contains "mask::" buf then EmptyString else "mask::r-x-" +:+ nl)
                            +:+ "group:" +:+ g +:+ ":" +:+ p +:+ nl]> fetched).
Proof.
  intros aclFile fetched Hrc Hbuf Huser Hg.
  destruct (gac_update_acl_files filename g p dryrun verbose w buf Hrc Hbuf)
    as (w' & Hrun & _ & Hfiles).
  exists w'. split; [done|]. rewrite (Hfiles Hg), Huser. cbn [negb orb].
  by rewrite app_nil_r.
Qed.

(** C8, as the code has it. When the buffer has no [user::], both helpers
    add the four lines [user::rwxc], [group::r-x-], [other::----],
    [mask::r-x-] to its end, in that order. The line of a group whose name
    is not in the buffer goes after them, with no further mask line, and
    the buffer to the second command; for a group whose name is in the
    buffer no line is added and no second command is run. *)
Theorem gac_update_backfills_default_lines
    (filename g p : string) (dryrun verbose : bool) (w : world) (buf : string) :
  let aclFile := mktemp (files w) in
  contains "user::" buf = false →
  ((dryrun = false → exit_code (spawn (getacl_cmd " -o " aclFile filename) (files w)) = 0) →
   after_cmd spawn dryrun (getacl_cmd " -o " aclFile filename) (files w) !! aclFile = Some buf →
   ∃ w', gac_update_acl spawn mktemp filename g p dryrun verbose w = (Ok tt, w')
         ∧ (contains g buf = false →
            files w' = after_cmd spawn dryrun (putacl_cmd " -i " aclFile filename)
                         (<[aclFile := buf +:+ default_lines +:+ "group:" +:+ g +:+ ":" +:+ p +:+ nl]>
                            (after_cmd spawn dryrun (getacl_cmd " -o " aclFile filename) (files w))))
         ∧ (contains g buf = true →
            files w' = <[aclFile := buf +:+ default_lines]>
                         (after_cmd spawn dryrun (getacl_cmd " -o " aclFile filename) (files w))))
  ∧ ((dryrun = false → exit_code (spawn (getacl_cmd " -d -o " aclFile filename) (files w)) = 0) →
     after_cmd spawn dryrun (getacl_cmd " -d -o " aclFile filename) (files w) !! aclFile = Some buf →
     ∃ w', gac_update_default_acl spawn mktemp filename g p dryrun verbose w = (Ok tt, w')
           ∧ (contains g buf = false →
              files w' = after_cmd spawn dryrun (putacl_cmd " -d -i " aclFile filename)
                           (<[aclFile := buf +:+ default_lines +:+ "group:" +:+ g +:+ ":" +:+ p +:+ nl]>
                              (after_cmd spawn dryrun (getacl_cmd " -d -o " aclFile filename) (files w))))
           ∧ (contains g buf = true →
              files w' = <[aclFile := buf +:+ default_lines]>
                           (after_cmd spawn dryrun (getacl_cmd " -d -o " aclFile filename) (files w)))).
Proof.
  intros aclFile Huser. split; intros Hrc Hbuf.
  - destruct (gac_update_acl_files filename g p dryrun verbose w buf Hrc Hbuf)
      as (w' & Hrun & Hfound & Hnot).
    exists w'. split; [done|]. rewrite Huser in Hfound, Hnot. cbn [negb orb] in Hnot.
    rewrite app_nil, app_assoc in Hnot. by split.
  - destruct (gac_update_default_acl_files filename g p dryrun verbose w buf Hrc Hbuf)
      as (w' & Hrun & Hfound & Hnot).
    exists w'. split; [done|]. rewrite Huser in Hfound, Hnot. cbn [negb orb] in Hnot.
    rewrite app_nil, app_assoc in Hnot. by split.
Qed.

(** C6, as the code has it. When the group name is in the buffer,
    [gac_update_acl] writes no group line, changes nothing of what the
    buffer holds, and runs no second command. A buffer that has the owner
    triad is left as it is; one that has not gets the four default lines
    at its end. *)
Theorem gac_update_acl_group_found
    (filename g p : string) (dryrun verbose : bool) (w : world) (buf : string) :
  let aclFile := mktemp (files w) in
  let fetched := after_cmd spawn dryrun (getacl_cmd " -o " aclFile filename) (files w) in
  (dryrun = false → exit_code (spawn (getacl_cmd " -o " aclFile filename) (files w)) = 0) →
  fetched !! aclFile = Some buf →
  contains g buf = true →
  ∃ w', gac_update_acl spawn mktemp filename g p dryrun verbose w = (Ok tt, w')
        ∧ (contains "user::" buf = true → files w' = fetched)
        ∧ (contains "user::" buf = false → files w' = <[aclFile := buf +:+ default_lines]> fetched).
Proof.
  intros aclFile fetched Hrc Hbuf Hg.
  destruct (gac_update_acl_files filename g p dryrun verbose w buf Hrc Hbuf)
    as (w' & Hrun & Hfiles & _).
  exists w'. split; [done|]. rewrite (Hfiles Hg).
  split; intros ->; [|done]. by rewrite app_nil_r, insert_id.
Qed.

End UpsertClaims.

(** The sample spawner on the two commands of the helpers. *)
Lemma sample_spawn_getacl (buf opts aclFile filename : string) (fs : gmap string string) :
  sample_spawn buf (getacl_cmd opts aclFile filename) fs
  = ((0, EmptyString, EmptyString), <["/tmp/tmpacl" := buf]> fs).
Proof.
  unfold sample_spawn, PyStr.startswith, getacl_cmd.
  by rewrite PyStrFacts.prefix_app.
Qed.

Lemma sample_spawn_putacl (buf opts aclFile filename : string) (fs : gmap string string) :
  sample_spawn buf (putacl_cmd opts aclFile filename) fs = ((0, EmptyString, EmptyString), fs).
Proof. reflexivity. Qed.

Lemma gac_update_acl_appends_mask_and_group_witness :
  ∃ w', gac_update_acl (sample_spawn triads_buffer) sample_mktemp "/data/acl/a" "devteam" "rwx-"
          false false (World ∅ []) = (Ok tt, w')
        ∧ files w' = <["/tmp/tmpacl" := triads_buffer +:+ ("mask::r-x-" +:+ PyStr.nl)
                                          +:+ "group:" +:+ "devteam" +:+ ":" +:+ "rwx-" +:+ PyStr.nl]>
                       (<["/tmp/tmpacl" := triads_buffer]> ∅).
Proof.
  destruct (gac_update_acl_appends_mask_and_group (sample_spawn triads_buffer) sample_mktemp
              "/data/acl/a" "devteam" "rwx-" false false (World ∅ []) triads_buffer)
    as (w' & Hrun & Hfiles).
  - reflexivity.
  - unfold after_cmd. rewrite sample_spawn_getacl. apply lookup_insert_eq.
  - reflexivity.
  - reflexivity.
  - exists w'. split; [exact Hrun|]. rewrite Hfiles. unfold after_cmd.
    rewrite sample_spawn_putacl, sample_spawn_getacl. reflexivity.
Defined.

Lemma gac_update_backfills_default_lines_witness :
  (∃ w', gac_update_acl (sample_spawn empty_buffer) sample_mktemp "/data/acl/a" "devteam" "rwx-"
           false false (World ∅ []) = (Ok tt, w')
         ∧ files w' = <["/tmp/tmpacl" := empty_buffer +:+ default_lines
                                           +:+ "group:" +:+ "devteam" +:+ ":" +:+ "rwx-" +:+ PyStr.nl]>
                        (<["/tmp/tmpacl" := empty_buffer]> ∅))
  ∧ (∃ w', gac_update_default_acl (sample_spawn empty_buffer) sample_mktemp "/data/acl" "devteam" "rwx-"
             false false (World ∅ []) = (Ok tt, w')
           ∧ files w' = <["/tmp/tmpacl" := empty_buffer +:+ default_lines
                                             +:+ "group:" +:+ "devteam" +:+ ":" +:+ "rwx-" +:+ PyStr.nl]>
                          (<["/tmp/tmpacl" := empty_buffer]> ∅))
  ∧ (∃ w', gac_update_default_acl (sample_spawn header_buffer) sample_mktemp "/data/acl" "devteam" "rwx-"
             false false (World ∅ []) = (Ok tt, w')
           ∧ files w' = <["/tmp/tmpacl" := header_buffer +:+ default_lines]>
                          (<["/tmp/tmpacl" := header_buffer]> ∅)).
Proof.
  destruct (gac_update_backfills_default_lines (sample_spawn empty_buffer) sample_mktemp
              "/data/acl/a" "devteam" "rwx-" false false (World ∅ []) empty_buffer eq_refl)
    as [Hacl _].
  destruct (gac_update_backfills_default_lines (sample_spawn empty_buffer) sample_mktemp
              "/data/acl" "devteam" "rwx-" false false (World ∅ []) empty_buffer eq_refl)
    as [_ Hdef].
  destruct (gac_update_backfills_default_lines (sample_spawn header_buffer) sample_mktemp
              "/data/acl" "devteam" "rwx-" false false (World ∅ []) header_buffer eq_refl)
    as [_ Hfound].
  split; [|split].
  - destruct Hacl as (w' & Hrun & Hfiles & _).
    + reflexivity.
    + unfold after_cmd. rewrite sample_spawn_getacl. apply lookup_insert_eq.
    + exists w'. split; [exact Hrun|]. rewrite (Hfiles eq_refl). unfold after_cmd.
      rewrite sample_spawn_putacl, sample_spawn_getacl. reflexivity.
  - destruct Hdef as (w' & Hrun & Hfiles & _).
    + reflexivity.
    + unfold after_cmd. rewrite sample_spawn_getacl. apply lookup_insert_eq.
    + exists w'. split; [exact Hrun|]. rewrite (Hfiles eq_refl). unfold after_cmd.
      rewrite sample_spawn_putacl, sample_spawn_getacl. reflexivity.
  - destruct Hfound as (w' & Hrun & _ & Hfiles).
    + reflexivity.
    + unfold after_cmd. rewrite sample_spawn_getacl. apply lookup_insert_eq.
    + exists w'. split; [exact Hrun|]. rewrite (Hfiles eq_refl). unfold after_cmd.
      rewrite sample_spawn_getacl. reflexivity.
Defined.

(** C8 as the specification words it fails: the buffer has no [user::] and
    has the group name, in its [#group:] header; the four lines are added
    and no group line after them. *)
Lemma gac_update_acl_backfill_without_group_line :
  ∃ w', gac_update_acl (sample_spawn header_buffer) sample_mktemp "/data/acl/a" "devteam" "rwx-"
          false false (World ∅ []) = (Ok tt, w')
        ∧ PyStr.contains "user::" header_buffer = false
        ∧ files w' !! "/tmp/tmpacl" = Some (header_buffer +:+ default_lines)
        ∧ PyStr.contains "group:devteam:" (header_buffer +:+ default_lines) = false.
Proof.
  destruct (gac_update_acl_files (sample_spawn header_buffer) sample_mktemp
              "/data/acl/a" "devteam" "rwx-" false false (World ∅ []) header_buffer)
    as (w' & Hrun & Hfiles & _).
  - reflexivity.
  - unfold after_cmd. rewrite sample_spawn_getacl. apply lookup_insert_eq.
  - exists w'. split; [exact Hrun|]. split; [reflexivity|].
    rewrite (Hfiles eq_refl), lookup_insert_eq.
    split; [reflexivity|]. vm_compute. reflexivity.
Qed.

Lemma gac_update_acl_group_found_witness :
  ∃ w', gac_update_acl (sample_spawn header_buffer) sample_mktemp "/data/acl/a" "devteam" "rwx-"
          false false (World ∅ []) = (Ok tt, w')
        ∧ files w' = <["/tmp/tmpacl" := header_buffer +:+ default_lines]>
                       (<["/tmp/tmpacl" := header_buffer]> ∅).
Proof.
  destruct (gac_update_acl_group_found (sample_spawn header_buffer) sample_mktemp
              "/data/acl/a" "devteam" "rwx-" false false (World ∅ []) header_buffer)
    as (w' & Hrun & _ & Hfiles).
  - reflexivity.
  - unfold after_cmd. rewrite sample_spawn_getacl. apply lookup_insert_eq.
  - reflexivity.
  - exists w'. split; [exact Hrun|]. rewrite (Hfiles eq_refl). unfold after_cmd.
    rewrite sample_spawn_getacl. reflexivity.
Defined.

(** C6 as the specification words it fails: the group name is in the
    buffer, in its [#group:] header, and the buffer is not left as it
    was. *)
Lemma gac_update_acl_found_buffer_modified :
  ∃ w', gac_update_acl (sample_spawn header_buffer) sample_mktemp "/data/acl/a" "devteam" "rwx-"
          false false (World ∅ []) = (Ok tt, w')
        ∧ PyStr.contains "devteam" header_buffer = true
        ∧ files w' !! "/tmp/tmpacl" = Some (header_buffer +:+ default_lines)
        ∧ files w' !! "/tmp/tmpacl" ≠ Some header_buffer.
Proof.
  destruct (gac_update_acl_files (sample_spawn header_buffer) sample_mktemp
              "/data/acl/a" "devteam" "rwx-" false false (World ∅ []) header_buffer)
    as (w' & Hrun & Hfiles & _).
  - reflexivity.
  - unfold after_cmd. rewrite sample_spawn_getacl. apply lookup_insert_eq.
  - exists w'. split; [exact Hrun|]. split; [reflexivity|].
    rewrite (Hfiles eq_refl), lookup_insert_eq.
    split; [reflexivity|]. vm_compute. discriminate.
Qed.

(** ** The serializer, and the parser on its text *)

Section SerializerClaims.
Import PyStr PyStrFacts ParserFacts RunFacts.
Variable keys : gmap string entry → list string.
Hypothesis keys_perm : ∀ m, keys m ≡ₚ (map_to_list m).*1.

Lemma elem_of_keys (m : gmap string entry) (n : string) :
  n ∈ keys m ↔ is_Some (m !! n).
Proof.
  rewrite keys_perm, list_elem_of_fmap. split.
  - intros ([n' e] & -> & He%elem_of_map_to_list). by exists e.
  - intros [e He]. exists (n, e). split; [done|]. by apply elem_of_map_to_list.
Qed.

Lemma keys_empty : keys ∅ = [].
Proof. apply Permutation_nil_r. by rewrite keys_perm, map_to_list_empty. Qed.

(** The writes of the named entries, one line each, after a text [t]. *)
Lemma write_entries_run (path kind t : string) (m : gmap string entry)
    (l : list string) (fs : gmap string string) (pr : list string) :
  (∀ n, n ∈ l → is_Some (m !! n)) →
  foldr (λ name rest,
           e ← lift (getitem name (m !! name));
           fd_write path (kind +:+ name +:+ ":" +:+ PERMS e +:+ nl);;
           rest)
        (mret tt) l (World (<[path := t]> fs) pr)
  = (Ok tt, World (<[path := t +:+ unlines (entry_line kind m <$> l)]> fs) pr).
Proof.
  revert t. induction l as [|n l IH]; intros t Hl.
  - cbn [foldr fmap list_fmap unlines]. by rewrite app_nil_r.
  - destruct (Hl n) as [e He]; [by left|].
    cbn [foldr]. rewrite bind_lift, He. cbn [getitem].
    rewrite (bind_ok _ _ _ _ _ (fd_write_again _ _ _ _ _)).
    rewrite IH by (intros n' Hn'; apply Hl; by right).
    rewrite fmap_cons. cbn [unlines]. unfold entry_line at 2. rewrite He.
    cbn [fmap option_fmap option_map default]. by rewrite !app_assoc.
Qed.

Lemma unlines_app (l1 l2 : list string) :
  unlines (l1 ++ l2) = unlines l1 +:+ unlines l2.
Proof.
  induction l1 as [|l l1 IH]; [done|].
  cbn [app unlines]. by rewrite IH, !app_assoc.
Qed.

Lemma dict_is_empty_false (d : acl) : dict_is_empty d = false → d ≠ empty_dict.
Proof. unfold dict_is_empty. by intros H%bool_decide_eq_false. Qed.

(** A successful [write_acl_file]: the file holds the lines of the record,
    and nothing is printed. *)
Lemma write_acl_file_run (path : string) (my def : acl) (up gp op : string) (w : world) :
  path ≠ EmptyString → dict_is_empty my = false → dict_is_empty def = false →
  pick (USERP my) (USERP def) = Some up →
  pick (GROUPP my) (GROUPP def) = Some gp →
  pick (OTHERP my) (OTHERP def) = Some op →
  write_acl_file keys (Some path) (Some my) (Some def) w
  = (Ok tt, World (<[path := unlines (acl_lines keys my up gp op)]> (files w)) (printed w)).
Proof.
  intros Hpath Hmy Hdef Hup Hgp Hop. unfold write_acl_file.
  rewrite decide_False, Hmy, Hdef by done.
  rewrite bind_open_w.
  assert (∀ (tag : string) (key : string) (a b : option string) (v t : string) fs pr B (k : unit → M B),
    pick a b = Some v →
    ((match a with
      | Some p => fd_write path (tag +:+ p +:+ nl)
      | None => p ← lift (getitem key b); fd_write path (tag +:+ p +:+ nl)
      end) ≫= k) (World (<[path := t]> fs) pr)
    = k tt (World (<[path := t +:+ tag +:+ v +:+ nl]> fs) pr)) as Htriad.
  { intros tag key a b v t fs pr B k Hv. destruct a as [p|]; cbn [pick] in Hv.
    - injection Hv as ->. by rewrite (bind_ok _ _ _ _ _ (fd_write_again _ _ _ _ _)).
    - subst b. rewrite bind_assoc, bind_lift. cbn [getitem].
      by rewrite (bind_ok _ _ _ _ _ (fd_write_again _ _ _ _ _)). }
  rewrite (Htriad "user::" "USERP" _ _ up) by done.
  rewrite (Htriad "group::" "GROUPP" _ _ gp) by done.
  rewrite (Htriad "other::" "OTHERP" _ _ op) by done.
  assert (∀ t fs pr B (k : unit → M B),
    ((match MASK my with
      | Some p => fd_write path ("mask::" +:+ p +:+ nl)
      | None =>
          if bool_decide (is_Some (USERS my)) then
            if bool_decide (is_Some (GROUPS my)) then fd_write path ("mask::rwxc" +:+ nl)
            else mret tt
          else mret tt
      end) ≫= k) (World (<[path := t]> fs) pr)
    = k tt (World (<[path := t +:+ unlines (mask_lines my)]> fs) pr)) as Hmask.
  { intros t fs pr B k. unfold mask_lines, both_maps. destruct (MASK my) as [p|].
    - rewrite (bind_ok _ _ _ _ _ (fd_write_again _ _ _ _ _)).
      cbn [unlines]. by rewrite !app_assoc, app_nil_r.
    - destruct (bool_decide (is_Some (USERS my))), (bool_decide (is_Some (GROUPS my)));
        cbn [andb unlines]; rewrite ?bind_ret, ?app_nil_r; try done.
      by rewrite (bind_ok _ _ _ _ _ (fd_write_again _ _ _ _ _)). }
  assert (∀ kind (om : option (gmap string entry)) t fs pr,
    (match om with
     | Some m => write_entries keys path kind m
     | None => mret tt
     end) (World (<[path := t]> fs) pr)
    = (Ok tt, World (<[path := t +:+ unlines (entry_line kind (default ∅ om) <$> keys (default ∅ om))]> fs) pr))
    as Hentries.
  { intros kind [m|] t fs pr; cbn [default].
    - unfold write_entries. apply write_entries_run. intros n. by rewrite elem_of_keys.
    - rewrite keys_empty. cbn [fmap list_fmap unlines]. by rewrite app_nil_r. }
  rewrite Hmask, (bind_ok _ _ _ _ _ (Hentries _ _ _ _ _)), Hentries.
  unfold acl_lines. rewrite !unlines_app. cbn [unlines].
  by rewrite ?app_assoc, ?app_nil_r.
Qed.


Lemma splitlines_unlines (ls : list string) :
  Forall (λ l, one_line l = true) ls → splitlines (unlines ls) = ls.
Proof.
  induction 1 as [|l ls Hl _ IH]; [done|].
  cbn [unlines]. by rewrite splitlines_app_nl, IH.
Qed.

Lemma get_acl_lines_app (d : acl) (l1 l2 : list string) :
  get_acl_lines d (l1 ++ l2) = get_acl_lines d l1 ≫= λ d', get_acl_lines d' l2.
Proof.
  revert d. induction l1 as [|l l1 IH]; intros d; [done|].
  cbn [app get_acl_lines]. destruct (get_acl_line d l) as [d'|e]; [|done].
  apply IH.
Qed.

Lemma set_USERS_id (d : acl) (users : gmap string entry) :
  USERS d = Some users → set_USERS (Some users) d = d.
Proof. destruct d. cbn. by intros ->. Qed.

Lemma set_GROUPS_id (d : acl) (groups : gmap string entry) :
  GROUPS d = Some groups → set_GROUPS (Some groups) d = d.
Proof. destruct d. cbn. by intros ->. Qed.

Lemma get_acl_lines_user_entries (d : acl) (users m : gmap string entry) (l : list string) :
  USERS d = Some users →
  (∀ n, n ∈ l → name_ok n = true ∧ perms_ok (default EmptyString (PERMS <$> m !! n)) = true) →
  get_acl_lines d (entry_line "user:" m <$> l)
  = Ok (set_USERS (Some (foldl (λ acc n, <[n := stored_entry m n]> acc) users l)) d).
Proof.
  revert d users. induction l as [|n l IH]; intros d users Hu Hl.
  - cbn. by rewrite set_USERS_id.
  - destruct (Hl n) as [(Hne & Hcn & Hln & Hen & Ho & Hg)%name_ok_inv
                          (Hcp & Hlp & Hep)%perms_ok_inv]; [by left|].
    rewrite fmap_cons. cbn [get_acl_lines foldl].
    change (entry_line "user:" m n)
      with ("user:" +:+ n +:+ ":" +:+ default EmptyString (PERMS <$> m !! n)).
    rewrite (get_acl_line_user_entry d users) by done.
    cbn [mbind result_bind].
    rewrite (IH _ (<[n := stored_entry m n]> users)); [done|done|].
    intros n' Hn'. apply Hl. by right.
Qed.

Lemma get_acl_lines_group_entries (d : acl) (groups m : gmap string entry) (l : list string) :
  GROUPS d = Some groups →
  (∀ n, n ∈ l → name_ok n = true ∧ perms_ok (default EmptyString (PERMS <$> m !! n)) = true) →
  get_acl_lines d (entry_line "group:" m <$> l)
  = Ok (set_GROUPS (Some (foldl (λ acc n, <[n := stored_entry m n]> acc) groups l)) d).
Proof.
  revert d groups. induction l as [|n l IH]; intros d groups Hu Hl.
  - cbn. by rewrite set_GROUPS_id.
  - destruct (Hl n) as [(Hne & Hcn & Hln & Hen & Ho & Hg)%name_ok_inv
                          (Hcp & Hlp & Hep)%perms_ok_inv]; [by left|].
    rewrite fmap_cons. cbn [get_acl_lines foldl].
    change (entry_line "group:" m n)
      with ("group:" +:+ n +:+ ":" +:+ default EmptyString (PERMS <$> m !! n)).
    rewrite (get_acl_line_group_entry d groups) by done.
    cbn [mbind result_bind].
    rewrite (IH _ (<[n := stored_entry m n]> groups)); [done|done|].
    intros n' Hn'. apply Hl. by right.
Qed.

Lemma foldl_insert_lookup (f : string → entry) (acc : gmap string entry) (l : list string) (i : string) :
  foldl (λ acc n, <[n := f n]> acc) acc l !! i
  = if decide (i ∈ l) then Some (f i) else acc !! i.
Proof.
  revert acc. induction l as [|n l IH]; intros acc.
  - cbn [foldl]. rewrite decide_False; [done|apply not_elem_of_nil].
  - cbn [foldl]. rewrite IH.
    destruct (decide (i ∈ l)) as [Hi|Hi].
    + rewrite decide_True; [done|by right].
    + destruct (decide (i = n)) as [->|Hin].
      * rewrite decide_True by left. by rewrite lookup_insert_eq.
      * rewrite decide_False by (by intros [?|?]%elem_of_cons).
        by rewrite lookup_insert_ne.
Qed.

Lemma entries_ok_lookup (m : gmap string entry) (n : string) (e : entry) :
  entries_ok m = true → m !! n = Some e →
  name_ok n = true ∧ perms_ok (PERMS e) = true.
Proof.
  unfold entries_ok. rewrite forallb_forall. intros Hall He.
  apply andb_true_iff, (Hall (n, e)), list_elem_of_In. by apply elem_of_map_to_list.
Qed.

(** The entries read back from the lines of a map. *)
Lemma foldl_stored_entries (m : gmap string entry) :
  foldl (λ acc n, <[n := stored_entry m n]> acc) ∅ (keys m) = reparsed <$> m.
Proof.
  apply map_eq. intros i. rewrite foldl_insert_lookup, lookup_fmap, lookup_empty.
  destruct (decide (i ∈ keys m)) as [Hi|Hi]; rewrite elem_of_keys in Hi.
  - destruct Hi as [e He]. unfold stored_entry. by rewrite He.
  - apply eq_None_not_Some in Hi. by rewrite Hi.
Qed.

Lemma acl_ok_inv (my : acl) (up gp op : string) :
  acl_ok my up gp op = true →
  plain up = true ∧ plain gp = true ∧ plain op = true
  ∧ (∀ p, MASK my = Some p → plain p = true)
  ∧ entries_ok (default ∅ (USERS my)) = true ∧ entries_ok (default ∅ (GROUPS my)) = true.
Proof.
  unfold acl_ok. rewrite !andb_true_iff.
  intros [[[[[Hu Hg] Ho] Hm] Hus] Hgs]. repeat split; try done.
  intros p Hp. by rewrite Hp in Hm.
Qed.

Lemma entries_ok_keys (m : gmap string entry) (n : string) :
  entries_ok m = true → n ∈ keys m →
  name_ok n = true ∧ perms_ok (default EmptyString (PERMS <$> m !! n)) = true.
Proof.
  intros Hm [e He]%elem_of_keys. rewrite He. by apply (entries_ok_lookup m n e).
Qed.

Lemma one_line_entry_line (kind : string) (m : gmap string entry) (n : string) :
  one_line kind = true → entries_ok m = true → n ∈ keys m →
  one_line (entry_line kind m n) = true.
Proof.
  intros Hk Hm Hn.
  destruct (entries_ok_keys m n Hm Hn)
    as [(_ & _ & Hln & _)%name_ok_inv (_ & Hlp & _)%perms_ok_inv].
  unfold entry_line. by rewrite !one_line_app, Hk, Hln, Hlp.
Qed.

Lemma one_line_mask_lines (my : acl) :
  (∀ p, MASK my = Some p → plain p = true) →
  Forall (λ l, one_line l = true) (mask_lines my).
Proof.
  intros Hm. unfold mask_lines. destruct (MASK my) as [p|].
  - destruct (plain_inv p (Hm p eq_refl)) as [_ Hl].
    constructor; [|constructor]. by rewrite one_line_app, Hl.
  - destruct (both_maps my); by repeat constructor.
Qed.

Lemma one_line_acl_lines (my : acl) (up gp op : string) :
  acl_ok my up gp op = true →
  Forall (λ l, one_line l = true) (acl_lines keys my up gp op).
Proof.
  intros (Hup & Hgp & Hop & Hm & Hus & Hgs)%acl_ok_inv.
  apply plain_inv in Hup as [_ Hup], Hgp as [_ Hgp], Hop as [_ Hop].
  unfold acl_lines. rewrite !Forall_app. repeat split.
  - repeat constructor; by rewrite one_line_app, ?Hup, ?Hgp, ?Hop.
  - by apply one_line_mask_lines.
  - apply Forall_fmap, Forall_forall. intros n Hn. by apply one_line_entry_line.
  - apply Forall_fmap, Forall_forall. intros n Hn. by apply one_line_entry_line.
Qed.

(** The loop on the mask line, if one was written. *)
Lemma get_acl_lines_mask_lines (d my : acl) :
  (∀ p, MASK my = Some p → plain p = true) →
  get_acl_lines d (mask_lines my)
  = Ok (match written_mask my with Some p => set_MASK (Some p) d | None => d end).
Proof.
  intros Hm. unfold mask_lines, written_mask. destruct (MASK my) as [p|].
  - destruct (plain_inv p (Hm p eq_refl)) as [Hc _].
    cbn [get_acl_lines]. by rewrite get_acl_line_mask.
  - destruct (both_maps my); [|done].
    cbn [get_acl_lines]. change "mask::rwxc" with ("mask::" +:+ "rwxc").
    by rewrite get_acl_line_mask.
Qed.

(** The loop on the lines of a record gives the record back, with the mask
    that was written, permissions cut to four characters and [????] for
    every effective value. *)
Lemma get_acl_lines_acl_lines (fn dn : string) (my : acl) (up gp op : string) :
  acl_ok my up gp op = true →
  get_acl_lines (get_acl_init fn dn) (acl_lines keys my up gp op)
  = Ok (reread fn dn my up gp op).
Proof.
  intros Hok.
  destruct (acl_ok_inv _ _ _ _ Hok) as (Hup & Hgp & Hop & Hm & Hus & Hgs).
  apply plain_inv in Hup as [Hup _], Hgp as [Hgp _], Hop as [Hop _].
  unfold acl_lines. rewrite get_acl_lines_app.
  cbn [get_acl_lines].
  rewrite get_acl_line_user_triad by done. cbn [mbind result_bind].
  rewrite get_acl_line_group_triad by done. cbn [mbind result_bind].
  rewrite get_acl_line_other by done. cbn [mbind result_bind mret result_ret].
  rewrite get_acl_lines_app, get_acl_lines_mask_lines by done. cbn [mbind result_bind].
  rewrite get_acl_lines_app.
  rewrite (get_acl_lines_user_entries _ ∅);
    [|by destruct (written_mask my)|intros n; by apply entries_ok_keys].
  cbn [mbind result_bind].
  rewrite (get_acl_lines_group_entries _ ∅);
    [|by destruct (written_mask my)|intros n; by apply entries_ok_keys].
  rewrite !foldl_stored_entries. unfold reread.
  by destruct (written_mask my).
Qed.

(** C4, as the code has it. For a record and a fallback that are not
    empty, whose triads are found in one of them, and whose strings have no
    colon and no line break (names moreover not empty and, like the
    permissions, free of the word effective and of a trailing header
    marker), [write_acl_file] succeeds and the loop of [get_acl] on the
    text gives back: the triads written (the record's, else the
    fallback's); the mask written (the record's, else [rwxc] when the
    record has both maps, else none); and for every named entry the first
    four characters of its permissions, with [????] as effective value. *)
Theorem write_acl_file_then_get_acl
    (path fn dn : string) (my def : acl) (up gp op : string) (w : world) :
  path ≠ EmptyString → dict_is_empty my = false → dict_is_empty def = false →
  pick (USERP my) (USERP def) = Some up →
  pick (GROUPP my) (GROUPP def) = Some gp →
  pick (OTHERP my) (OTHERP def) = Some op →
  acl_ok my up gp op = true →
  ∃ text,
    write_acl_file keys (Some path) (Some my) (Some def) w
    = (Ok tt, World (<[path := text]> (files w)) (printed w))
    ∧ get_acl_loop (get_acl_init fn dn) text = Ok (reread fn dn my up gp op).
Proof.
  intros Hpath Hmy Hdef Hup Hgp Hop Hok.
  exists (unlines (acl_lines keys my up gp op)). split.
  - by apply write_acl_file_run.
  - unfold get_acl_loop. rewrite splitlines_unlines by by apply one_line_acl_lines.
    by apply get_acl_lines_acl_lines.
Qed.

Lemma app_head_neq (a b : ascii) (s t u : string) :
  a ≠ b → String a s +:+ t ≠ String b u.
Proof. intros Hab. rewrite app_cons. by intros [=]. Qed.

Lemma mask_rwxc_in_acl_lines (my : acl) (up gp op : string) :
  MASK my = None →
  "mask::rwxc" ∈ acl_lines keys my up gp op ↔ both_maps my = true.
Proof.
  intros Hm. unfold acl_lines, mask_lines. rewrite Hm, !elem_of_app, !elem_of_cons, elem_of_nil.
  rewrite !list_elem_of_fmap. split.
  - intros [[H|[H|[H|[]]]]|[H|[(n & H & _)|(n & H & _)]]].
    + symmetry in H. by apply app_head_neq in H.
    + symmetry in H. by apply app_head_neq in H.
    + symmetry in H. by apply app_head_neq in H.
    + destruct (both_maps my); [done|]. by apply elem_of_nil in H.
    + symmetry in H. by apply app_head_neq in H.
    + symmetry in H. by apply app_head_neq in H.
  - intros ->. right. left. by left.
Qed.

Lemma one_line_acl_lines_no_line_break (my : acl) (up gp op : string) :
  no_line_break my up gp op = true →
  Forall (λ l, one_line l = true) (acl_lines keys my up gp op).
Proof.
  unfold no_line_break. rewrite !andb_true_iff.
  intros [[[[[Hup Hgp] Hop] Hm] Hus] Hgs].
  assert (∀ (kind : string) (m : gmap string entry),
            one_line kind = true → entries_one_line m = true →
            Forall (λ l, one_line l = true) (entry_line kind m <$> keys m)) as Hentries.
  { intros kind m Hk Hall. apply Forall_fmap, Forall_forall. intros n [e He]%elem_of_keys.
    unfold entries_one_line in Hall. rewrite forallb_forall in Hall.
    assert (one_line n && one_line (PERMS e) = true) as [Hn Hp]%andb_true_iff
      by (by apply (Hall (n, e)), list_elem_of_In, elem_of_map_to_list).
    unfold compose, entry_line. rewrite He. cbn [fmap option_fmap option_map default id].
    by rewrite !one_line_app, Hk, Hn, Hp. }
  unfold acl_lines. rewrite !Forall_app. repeat split.
  - repeat constructor; by rewrite one_line_app, ?Hup, ?Hgp, ?Hop.
  - unfold mask_lines. destruct (MASK my) as [p|].
    + cbn [from_option] in Hm. constructor; [|constructor]. by rewrite one_line_app, Hm.
    + destruct (both_maps my); by repeat constructor.
  - by apply Hentries.
  - by apply Hentries.
Qed.

(** C1, as the code has it. For a record with no [MASK], written to a
    named file with a fallback, neither of them empty, with its triads
    found in one of them and no line break in any of its strings: when
    the record has both the [USERS] and the [GROUPS] map, whatever they
    hold, the text has the line [mask::rwxc]; when it has not both and
    has no named entry, the text has no such line. *)
Theorem write_acl_file_default_mask
    (path : string) (my def : acl) (up gp op : string) (w : world) :
  path ≠ EmptyString → dict_is_empty my = false → dict_is_empty def = false →
  pick (USERP my) (USERP def) = Some up →
  pick (GROUPP my) (GROUPP def) = Some gp →
  pick (OTHERP my) (OTHERP def) = Some op →
  no_line_break my up gp op = true →
  MASK my = None →
  ∃ text,
    write_acl_file keys (Some path) (Some my) (Some def) w
    = (Ok tt, World (<[path := text]> (files w)) (printed w))
    ∧ (both_maps my = true → "mask::rwxc" ∈ splitlines text)
    ∧ (both_maps my = false → default ∅ (USERS my) = ∅ → default ∅ (GROUPS my) = ∅ →
       "mask::rwxc" ∉ splitlines text).
Proof.
  intros Hpath Hmy Hdef Hup Hgp Hop Hok Hm.
  exists (unlines (acl_lines keys my up gp op)). split.
  - by apply write_acl_file_run.
  - rewrite splitlines_unlines by by apply one_line_acl_lines_no_line_break.
    rewrite (mask_rwxc_in_acl_lines my up gp op Hm). split; [done|].
    intros Hb _ _. by rewrite Hb.
Qed.

End SerializerClaims.

Lemma sample_keys_perm (m : gmap string entry) : sample_keys m ≡ₚ (map_to_list m).*1.
Proof. done. Qed.

Lemma write_acl_file_then_get_acl_witness :
  ∃ text,
    write_acl_file sample_keys (Some "/tmp/acl") (Some named_acl) (Some triads_acl) (World ∅ [])
    = (Ok tt, World (<["/tmp/acl" := text]> ∅) [])
    ∧ get_acl_loop (get_acl_init "/data/acl/a" "/data/acl") text
      = Ok (reread "/data/acl/a" "/data/acl" named_acl "rwxc" "r-x-" "----").
Proof.
  apply (write_acl_file_then_get_acl sample_keys sample_keys_perm "/tmp/acl"
           "/data/acl/a" "/data/acl" named_acl triads_acl "rwxc" "r-x-" "----" (World ∅ [])).
  - discriminate.
  - vm_compute. reflexivity.
  - vm_compute. reflexivity.
  - reflexivity.
  - reflexivity.
  - reflexivity.
  - vm_compute. reflexivity.
Defined.

Lemma write_acl_file_default_mask_witness :
  (∃ text,
     write_acl_file sample_keys (Some "/tmp/acl") (Some named_acl) (Some triads_acl) (World ∅ [])
     = (Ok tt, World (<["/tmp/acl" := text]> ∅) [])
     ∧ "mask::rwxc" ∈ PyStr.splitlines text)
  ∧ (∃ text,
       write_acl_file sample_keys (Some "/tmp/acl")
         (Some (set_GROUPS None (set_USERS None triads_acl))) (Some triads_acl) (World ∅ [])
       = (Ok tt, World (<["/tmp/acl" := text]> ∅) [])
       ∧ "mask::rwxc" ∉ PyStr.splitlines text).
Proof.
  split.
  - destruct (write_acl_file_default_mask sample_keys sample_keys_perm "/tmp/acl"
                named_acl triads_acl "rwxc" "r-x-" "----" (World ∅ []))
      as (text & Hrun & Hmask & _).
    + discriminate.
    + vm_compute. reflexivity.
    + vm_compute. reflexivity.
    + reflexivity.
    + reflexivity.
    + reflexivity.
    + vm_compute. reflexivity.
    + reflexivity.
    + exists text. split; [exact Hrun|]. by apply Hmask.
  - destruct (write_acl_file_default_mask sample_keys sample_keys_perm "/tmp/acl"
                (set_GROUPS None (set_USERS None triads_acl)) triads_acl
                "rwxc" "r-x-" "----" (World ∅ []))
      as (text & Hrun & _ & Hnomask).
    + discriminate.
    + vm_compute. reflexivity.
    + vm_compute. reflexivity.
    + reflexivity.
    + reflexivity.
    + reflexivity.
    + vm_compute. reflexivity.
    + reflexivity.
    + exists text. split; [exact Hrun|]. by apply Hnomask.
Defined.

(** The lines written for a record with the triads and two empty maps. *)
Lemma acl_lines_triads_acl :
  acl_lines sample_keys triads_acl "rwxc" "r-x-" "----"
  = ["user::rwxc"; "group::r-x-"; "other::----"; "mask::rwxc"].
Proof. vm_compute. reflexivity. Qed.

Lemma write_acl_file_triads_acl :
  write_acl_file sample_keys (Some "/tmp/acl") (Some triads_acl) (Some triads_acl) (World ∅ [])
  = (Ok tt, World (<["/tmp/acl" := unlines ["user::rwxc"; "group::r-x-"; "other::----"; "mask::rwxc"]]> ∅) []).
Proof.
  rewrite (write_acl_file_run sample_keys sample_keys_perm "/tmp/acl" triads_acl triads_acl
             "rwxc" "r-x-" "----"); [|discriminate|by vm_compute..|reflexivity|reflexivity|reflexivity].
  by rewrite acl_lines_triads_acl.
Qed.

Lemma splitlines_triads_acl :
  PyStr.splitlines (unlines ["user::rwxc"; "group::r-x-"; "other::----"; "mask::rwxc"])
  = ["user::rwxc"; "group::r-x-"; "other::----"; "mask::rwxc"].
Proof. vm_compute. reflexivity. Qed.

(** C1 as the specification words it fails: the record has no mask and no
    named entry, and the text has the line [mask::rwxc]. *)
Lemma write_acl_file_mask_without_entries :
  ∃ text,
    write_acl_file sample_keys (Some "/tmp/acl") (Some triads_acl) (Some triads_acl) (World ∅ [])
    = (Ok tt, World (<["/tmp/acl" := text]> ∅) [])
    ∧ MASK triads_acl = None
    ∧ USERS triads_acl = Some ∅ ∧ GROUPS triads_acl = Some ∅
    ∧ "mask::rwxc" ∈ PyStr.splitlines text.
Proof.
  eexists. split; [apply write_acl_file_triads_acl|].
  rewrite splitlines_triads_acl. repeat split.
  rewrite !elem_of_cons. tauto.
Qed.

(** C4 as the specification words it fails: the record has no mask, and the
    record read back from its text has the mask [rwxc]. *)
Lemma write_acl_file_then_get_acl_mask_differs :
  ∃ text d,
    write_acl_file sample_keys (Some "/tmp/acl") (Some triads_acl) (Some triads_acl) (World ∅ [])
    = (Ok tt, World (<["/tmp/acl" := text]> ∅) [])
    ∧ get_acl_loop (get_acl_init "/data/acl/a" "/data/acl") text = Ok d
    ∧ MASK triads_acl = None ∧ MASK d = Some "rwxc".
Proof.
  eexists _, _. split; [apply write_acl_file_triads_acl|].
  split; [|split]; [|reflexivity|].
  - unfold get_acl_loop. rewrite splitlines_triads_acl, <- acl_lines_triads_acl.
    apply (get_acl_lines_acl_lines sample_keys sample_keys_perm).
    vm_compute. reflexivity.
  - reflexivity.
Qed.

(** ** More on the mutators of [mmacls] *)

Section MutatorFacts.
Import RunFacts.

Lemma del_group_acl_present
    (self : mmacls) (d : acl) (groups : gmap string entry) (groupname : string) (w : world) :
  acls self = Val d → GROUPS d = Some groups → is_Some (groups !! groupname) →
  del_group_acl self groupname w
  = (Ok (set_acls (Val (set_GROUPS (Some (delete groupname groups)) d)) self), w).
Proof.
  intros Ha Hg [e He]. unfold del_group_acl.
  rewrite Ha, bind_lift. cbn [the_dict]. rewrite Hg, bind_lift. cbn [getitem].
  rewrite decide_True by by eexists. unfold delitem. by rewrite He, bind_lift.
Qed.

(** [del_group_acl] on a group that has an entry: nothing is printed, the
    group is no longer found, every other group is found as before, and
    the default ACL is not touched. *)
Theorem del_group_acl_deletes
    (self : mmacls) (d : acl) (groups : gmap string entry) (groupname : string) (w : world) :
  acls self = Val d → GROUPS d = Some groups → is_Some (groups !! groupname) →
  ∃ self', del_group_acl self groupname w = (Ok self', w)
           ∧ get_group_acl self' (Some groupname) = Ok "----"
           ∧ (∀ g, g ≠ groupname → get_group_acl self' (Some g) = get_group_acl self (Some g))
           ∧ default_acls self' = default_acls self.
Proof.
  intros Ha Hg Hin. eexists. split; [by apply del_group_acl_present|].
  unfold get_group_acl. rewrite Ha.
  cbn [acls set_acls GROUPS set_GROUPS getitem mbind result_bind option_bind].
  split; [|split]; [| |done].
  - by rewrite lookup_delete_eq.
  - intros g Hne. rewrite Hg. cbn [getitem mbind result_bind option_bind].
    by rewrite lookup_delete_ne.
Qed.

Lemma del_group_acl_deletes_witness :
  let d := set_GROUPS (Some {["devteam" := Entry "rwx-" None]}) (get_acl_init "/data/acl/a" "/data/acl") in
  let self := Mmacls false false false true (Some "/data/acl/a") (Some "/data/acl/a")
                     (Some "/data/acl") (Val d) Unset in
  ∃ self', del_group_acl self "devteam" (World ∅ []) = (Ok self', World ∅ [])
           ∧ get_group_acl self' (Some "devteam") = Ok "----"
           ∧ (∀ g, g ≠ "devteam" → get_group_acl self' (Some g) = get_group_acl self (Some g))
           ∧ default_acls self' = default_acls self.
Proof.
  intros d self.
  apply (del_group_acl_deletes self d {["devteam" := Entry "rwx-" None]} "devteam" (World ∅ []));
    [reflexivity|reflexivity|].
  rewrite lookup_singleton_eq. by eexists.
Defined.

(** A name with no entry: [del_user_acl] and [del_group_acl] print one
    line and leave the object as it is. *)
Theorem del_acl_absent_prints
    (self : mmacls) (d : acl) (users groups : gmap string entry) (name : string) (w : world) :
  acls self = Val d →
  (USERS d = Some users → users !! name = None →
   del_user_acl self name w
   = (Ok self, World (files w)
                     (printed w ++ [name +:+ " does not have a user ACL on "
                                         +:+ str_or_None (filename self)])))
  ∧ (GROUPS d = Some groups → groups !! name = None →
     del_group_acl self name w
     = (Ok self, World (files w)
                       (printed w ++ [name +:+ " does not have a group ACL on "
                                           +:+ str_or_None (filename self)]))).
Proof.
  intros Ha. split; intros Hm Hn.
  - unfold del_user_acl. rewrite Ha, bind_lift. cbn [the_dict].
    rewrite Hm, bind_lift. cbn [getitem].
    rewrite decide_False by (rewrite Hn; by intros [? ?]).
    by rewrite bind_print.
  - unfold del_group_acl. rewrite Ha, bind_lift. cbn [the_dict].
    rewrite Hm, bind_lift. cbn [getitem].
    rewrite decide_False by (rewrite Hn; by intros [? ?]).
    by rewrite bind_print.
Qed.

Lemma del_acl_absent_prints_witness :
  let self := Mmacls false false false true (Some "/data/acl/a") (Some "/data/acl/a")
                     (Some "/data/acl") (Val (get_acl_init "/data/acl/a" "/data/acl")) Unset in
  del_user_acl self "bob" (World ∅ [])
  = (Ok self, World ∅ ["bob does not have a user ACL on /data/acl/a"])
  ∧ del_group_acl self "devteam" (World ∅ [])
    = (Ok self, World ∅ ["devteam does not have a group ACL on /data/acl/a"]).
Proof.
  intros self.
  destruct (del_acl_absent_prints self (get_acl_init "/data/acl/a" "/data/acl") ∅ ∅ "bob"
              (World ∅ []) eq_refl) as [Hu _].
  destruct (del_acl_absent_prints self (get_acl_init "/data/acl/a" "/data/acl") ∅ ∅ "devteam"
              (World ∅ []) eq_refl) as [_ Hg].
  split.
  - by apply Hu.
  - by apply Hg.
Defined.

(** [del_default_user_acl] and [del_default_group_acl] look a name up in
    [self.default_acls] and delete it there; [self.acls] is not read. *)
Theorem del_default_acl_deletes
    (self : mmacls) (d : acl) (users groups : gmap string entry) (name : string) (w : world) :
  default_acls self = Val d →
  (USERS d = Some users → is_Some (users !! name) →
   del_default_user_acl self name w
   = (Ok (set_default_acls (Val (set_USERS (Some (delete name users)) d)) self), w))
  ∧ (GROUPS d = Some groups → is_Some (groups !! name) →
     del_default_group_acl self name w
     = (Ok (set_default_acls (Val (set_GROUPS (Some (delete name groups)) d)) self), w)).
Proof.
  intros Ha. split; intros Hm [e He].
  - unfold del_default_user_acl. rewrite Ha, bind_lift. cbn [the_dict].
    rewrite Hm, bind_lift. cbn [getitem].
    rewrite decide_True by by eexists. unfold delitem. by rewrite He, bind_lift.
  - unfold del_default_group_acl. rewrite Ha, bind_lift. cbn [the_dict].
    rewrite Hm, bind_lift. cbn [getitem].
    rewrite decide_True by by eexists. unfold delitem. by rewrite He, bind_lift.
Qed.

Lemma del_default_acl_deletes_witness :
  let d := set_USERS (Some {["bob" := Entry "rwx-" None]}) (get_acl_init "/data/acl/a" "/data/acl") in
  let self := Mmacls false false false true (Some "/data/acl/a") (Some "/data/acl/a")
                     (Some "/data/acl") Unset (Val d) in
  del_default_user_acl self "bob" (World ∅ [])
  = (Ok (set_default_acls (Val (set_USERS (Some (delete "bob" {["bob" := Entry "rwx-" None]})) d)) self),
     World ∅ []).
Proof.
  intros d self.
  destruct (del_default_acl_deletes self d {["bob" := Entry "rwx-" None]} ∅ "bob" (World ∅ []) eq_refl)
    as [Hu _].
  apply Hu; [reflexivity|]. rewrite lookup_singleton_eq. by eexists.
Defined.

(** After [clear_acls] the dictionary has no [GROUPS] and no [USERS] key:
    looking a group up, or adding a user or a group, raises [KeyError]. *)
Theorem clear_acls_then_lookup_raises
    (self : mmacls) (d : acl) (g : option string) (name mask : string) :
  acls self = Val d →
  ∃ self', clear_acls self = Ok self'
           ∧ get_group_acl self' g = Raise (KeyError "GROUPS")
           ∧ add_group_acl self' name mask = Raise (KeyError "GROUPS")
           ∧ add_user_acl self' name mask = Raise (KeyError "USERS").
Proof.
  intros Ha. unfold clear_acls. rewrite Ha. cbn [the_dict mbind result_bind mret result_ret].
  eexists. split; [reflexivity|]. by repeat split.
Qed.

Lemma clear_acls_then_lookup_raises_witness :
  let self := Mmacls false false false true (Some "/data/acl/a") (Some "/data/acl/a")
                     (Some "/data/acl") (Val (get_acl_init "/data/acl/a" "/data/acl")) Unset in
  ∃ self', clear_acls self = Ok self'
           ∧ get_group_acl self' (Some "devteam") = Raise (KeyError "GROUPS")
           ∧ add_group_acl self' "devteam" "rwx-" = Raise (KeyError "GROUPS")
           ∧ add_user_acl self' "devteam" "rwx-" = Raise (KeyError "USERS").
Proof.
  intros self.
  by apply (clear_acls_then_lookup_raises self (get_acl_init "/data/acl/a" "/data/acl")).
Defined.

(** A group added with [add_group_acl] is the one [get_group_acl] finds,
    and the answer for every other group is as before. *)
Theorem add_group_acl_then_get_group_acl
    (self : mmacls) (d : acl) (groups : gmap string entry) (groupname mask : string) :
  acls self = Val d → GROUPS d = Some groups →
  ∃ self', add_group_acl self groupname mask = Ok self'
           ∧ get_group_acl self' (Some groupname) = Ok mask
           ∧ ∀ g, g ≠ groupname → get_group_acl self' (Some g) = get_group_acl self (Some g).
Proof.
  intros Ha Hg. unfold add_group_acl. rewrite Ha. cbn [the_dict mbind result_bind].
  rewrite Hg. cbn [getitem mbind result_bind mret result_ret].
  eexists. split; [reflexivity|]. unfold get_group_acl. rewrite Ha.
  cbn [acls set_acls GROUPS set_GROUPS getitem mbind result_bind option_bind]. split.
  - by rewrite lookup_insert_eq.
  - intros g Hne. rewrite Hg. cbn [getitem mbind result_bind option_bind].
    by rewrite lookup_insert_ne.
Qed.

Lemma add_group_acl_then_get_group_acl_witness :
  let self := Mmacls false false false true (Some "/data/acl/a") (Some "/data/acl/a")
                     (Some "/data/acl") (Val (get_acl_init "/data/acl/a" "/data/acl")) Unset in
  ∃ self', add_group_acl self "devteam" "rwx-" = Ok self'
           ∧ get_group_acl self' (Some "devteam") = Ok "rwx-"
           ∧ ∀ g, g ≠ "devteam" → get_group_acl self' (Some g) = get_group_acl self (Some g).
Proof.
  intros self.
  by apply (add_group_acl_then_get_group_acl self (get_acl_init "/data/acl/a" "/data/acl") ∅).
Defined.

(** Adding a group that had no entry and deleting it again gives the object
    back. *)
Theorem add_group_acl_then_del_group_acl
    (self : mmacls) (d : acl) (groups : gmap string entry) (groupname mask : string) (w : world) :
  acls self = Val d → GROUPS d = Some groups → groups !! groupname = None →
  ∃ self', add_group_acl self groupname mask = Ok self'
           ∧ del_group_acl self' groupname w = (Ok self, w).
Proof.
  intros Ha Hg Hn. unfold add_group_acl. rewrite Ha. cbn [the_dict mbind result_bind].
  rewrite Hg. cbn [getitem mbind result_bind mret result_ret].
  eexists. split; [reflexivity|].
  rewrite (del_group_acl_present _ (set_GROUPS (Some (<[groupname := Entry mask None]> groups)) d)
             (<[groupname := Entry mask None]> groups));
    [|reflexivity|reflexivity|rewrite lookup_insert_eq; by eexists].
  rewrite delete_insert_eq, delete_id by done.
  destruct self, d. cbn in *. by simplify_eq.
Qed.

Lemma add_group_acl_then_del_group_acl_witness :
  let self := Mmacls false false false true (Some "/data/acl/a") (Some "/data/acl/a")
                     (Some "/data/acl") (Val (get_acl_init "/data/acl/a" "/data/acl")) Unset in
  ∃ self', add_group_acl self "devteam" "rwx-" = Ok self'
           ∧ del_group_acl self' "devteam" (World ∅ []) = (Ok self, World ∅ []).
Proof.
  intros self.
  by apply (add_group_acl_then_del_group_acl self (get_acl_init "/data/acl/a" "/data/acl") ∅).
Defined.

(** [clear_default_acls] takes [MASK], [USERS] and [GROUPS] from the default
    ACL and keeps the triads; adding a default entry afterwards raises
    [KeyError]. [self.acls] is not touched. *)
Theorem clear_default_acls_keeps_triads (self : mmacls) (d : acl) (name mask : string) :
  default_acls self = Val d →
  ∃ self' d', clear_default_acls self = Ok self'
    ∧ default_acls self' = Val d' ∧ acls self' = acls self
    ∧ MASK d' = None ∧ USERS d' = None ∧ GROUPS d' = None
    ∧ USERP d' = USERP d ∧ GROUPP d' = GROUPP d ∧ OTHERP d' = OTHERP d
    ∧ OWNER d' = OWNER d ∧ GROUP d' = GROUP d ∧ FQPN d' = FQPN d
    ∧ add_default_user_acl self' name mask = Raise (KeyError "USERS")
    ∧ add_default_group_acl self' name mask = Raise (KeyError "GROUPS").
Proof.
  intros Ha. unfold clear_default_acls. rewrite Ha.
  cbn [the_dict mbind result_bind mret result_ret].
  eexists _, _. split; [reflexivity|]. split; [reflexivity|]. by repeat split.
Qed.

Lemma clear_default_acls_keeps_triads_witness :
  let self := Mmacls false false false true (Some "/data/acl") (Some "/data/acl")
                     (Some "/data/acl") Unset (Val triads_acl) in
  ∃ self' d', clear_default_acls self = Ok self'
    ∧ default_acls self' = Val d' ∧ acls self' = acls self
    ∧ MASK d' = None ∧ USERS d' = None ∧ GROUPS d' = None
    ∧ USERP d' = USERP triads_acl ∧ GROUPP d' = GROUPP triads_acl ∧ OTHERP d' = OTHERP triads_acl
    ∧ OWNER d' = OWNER triads_acl ∧ GROUP d' = GROUP triads_acl ∧ FQPN d' = FQPN triads_acl
    ∧ add_default_user_acl self' "devteam" "rwx-" = Raise (KeyError "USERS")
    ∧ add_default_group_acl self' "devteam" "rwx-" = Raise (KeyError "GROUPS").
Proof.
  intros self. by apply (clear_default_acls_keeps_triads self triads_acl).
Defined.

(** The six [update_..._perms] methods assign one triad of one dictionary:
    the access ones leave the default ACL alone and the default ones the
    access ACL, and a later update of the same triad wins. *)
Theorem update_perms_assign_one_key (self : mmacls) (d : acl) (mask mask' : string) :
  (acls self = Val d →
   update_user_perms self mask = Ok (set_acls (Val (set_USERP (Some mask) d)) self)
   ∧ update_group_perms self mask = Ok (set_acls (Val (set_GROUPP (Some mask) d)) self)
   ∧ update_other_perms self mask = Ok (set_acls (Val (set_OTHERP (Some mask) d)) self)
   ∧ (update_user_perms self mask ≫= λ s, update_user_perms s mask')
     = update_user_perms self mask')
  ∧ (default_acls self = Val d →
     update_default_user_perms self mask
     = Ok (set_default_acls (Val (set_USERP (Some mask) d)) self)
     ∧ update_default_group_perms self mask
       = Ok (set_default_acls (Val (set_GROUPP (Some mask) d)) self)
     ∧ update_default_other_perms self mask
       = Ok (set_default_acls (Val (set_OTHERP (Some mask) d)) self)).
Proof.
  split; intros Ha.
  - unfold update_user_perms, update_group_perms, update_other_perms. rewrite Ha.
    by repeat split.
  - unfold update_default_user_perms, update_default_group_perms, update_default_other_perms.
    rewrite Ha. by repeat split.
Qed.

Lemma update_perms_assign_one_key_witness :
  let self := Mmacls false false false true (Some "/data/acl") (Some "/data/acl")
                     (Some "/data/acl") (Val triads_acl) (Val triads_acl) in
  update_user_perms self "r---" = Ok (set_acls (Val (set_USERP (Some "r---") triads_acl)) self)
  ∧ update_default_other_perms self "r---"
    = Ok (set_default_acls (Val (set_OTHERP (Some "r---") triads_acl)) self).
Proof.
  intros self.
  destruct (update_perms_assign_one_key self triads_acl "r---" "rwxc") as [Hacc Hdef].
  destruct (Hacc eq_refl) as (Hu & _). destruct (Hdef eq_refl) as (_ & _ & Ho).
  by split.
Defined.

(** The switches: each [..._on] and [..._off] sets its flag, each toggle
    negates it and nothing else, and toggling twice gives the object
    back. *)
Theorem toggles_negate_one_flag (self : mmacls) :
  debug (toggle_debug self) = negb (debug self)
  ∧ dryrun (toggle_dryrun self) = negb (dryrun self)
  ∧ verbose (toggle_verbose self) = negb (verbose self)
  ∧ toggle_debug (toggle_debug self) = self
  ∧ toggle_dryrun (toggle_dryrun self) = self
  ∧ toggle_verbose (toggle_verbose self) = self
  ∧ toggle_debug (debug_on self) = debug_off self
  ∧ toggle_dryrun (dryrun_off self) = dryrun_on self
  ∧ toggle_verbose (verbose_on self) = verbose_off self
  ∧ dryrun (toggle_debug self) = dryrun self
  ∧ verbose (toggle_debug self) = verbose self
  ∧ acls (toggle_dryrun self) = acls self.
Proof.
  destruct self as [[] [] [] ? ? ? ? ? ?]; by repeat split.
Qed.

End MutatorFacts.

(** ** Commands: what is run, what is printed *)

Section CommandFacts.
Import RunFacts.
Variable spawn : string → gmap string string → (Z * string * string) * gmap string string.
Variable mktemp : gmap string string → string.

Lemma mmgetacl_nonempty (s : string) : MMGETACL +:+ s ≠ EmptyString.
Proof. done. Qed.

Lemma mmputacl_nonempty (s : string) : MMPUTACL +:+ s ≠ EmptyString.
Proof. done. Qed.

(** The tail of the setters and of the update helpers: the command is
    printed in a dry run or when verbose, run unless in a dry run, and its
    failure reported in two lines. *)
Lemma command_tail_run (cmd : string) (dryrun verbose : bool) (w : world) :
  cmd ≠ EmptyString →
  (if dryrun then print cmd
   else
     (if verbose then print cmd else mret tt);;
     '(rc, stdout, stderr) ← execute_command spawn (Some cmd) false;
     if decide (rc ≠ 0) then print_failure cmd rc stdout stderr else mret tt) w
  = (Ok tt,
     World (after_cmd spawn dryrun cmd (files w))
           (printed w
            ++ (if dryrun || verbose then [cmd] else [])
            ++ (if dryrun then []
                else if decide (exit_code (spawn cmd (files w)) ≠ 0)
                     then failure_lines cmd (spawn cmd (files w)) else []))).
Proof.
  intros Hcmd. destruct dryrun; [done|].
  destruct verbose; cbn [orb after_cmd]; [rewrite bind_print|rewrite bind_ret];
    rewrite (bind_ok _ _ _ _ _ (execute_command_run spawn cmd _ Hcmd));
    cbv beta iota; cbn [files printed]; unfold exit_code;
    (destruct (decide (_ ≠ 0));
     [unfold print_failure, failure_lines; rewrite bind_print; unfold print|unfold mret, M_ret];
     cbn [files printed str_or_None default]; by rewrite <- ?List.app_assoc, ?app_nil_r).
Qed.

(** [execute_command] on a command whose process was started and has
    ended, with the exit code, output and error text that [spawn] gives
    for it: these three are returned and the files are as the process left
    them; [Debug] changes nothing but what is printed, four lines in a
    fixed order. A command for which [shlex.split] or [Popen] raises has
    no such process and is not spoken of. *)
Theorem execute_command_debug_prints
    (cmd out err : string) (rc : Z) (fs : gmap string string) (w : world) :
  cmd ≠ EmptyString → spawn cmd (files w) = ((rc, out, err), fs) →
  execute_command spawn (Some cmd) false w = (Ok (rc, Some out, Some err), World fs (printed w))
  ∧ execute_command spawn (Some cmd) true w
    = (Ok (rc, Some out, Some err),
       World fs (printed w ++ ["DEBUG: Command: " +:+ cmd;
                               "DEBUG: Return Code: " +:+ pretty rc;
                               "DEBUG: STDOUT: " +:+ out;
                               "DEBUG: STDERR: " +:+ err])).
Proof.
  intros Hcmd Hs. unfold execute_command.
  split; rewrite decide_False by done; rewrite Hs; [done|].
  rewrite bind_assoc, bind_print, bind_assoc, bind_print, bind_assoc, !bind_print.
  cbn [files printed]. by rewrite <- !List.app_assoc.
Qed.

(** [get_acl] and [get_default_acl] when the command does not leave 0: one
    line is printed, then the second [print] raises [NameError] on the
    name [stdout]; no dictionary is assigned. *)
Theorem get_acl_command_fails
    (self : mmacls) (fn dn out err : string) (rc : Z) (fs : gmap string string) (w : world) :
  filename self = Some fn → dirname self = Some dn → rc ≠ 0 →
  (spawn (MMGETACL +:+ " " +:+ dquote +:+ fn +:+ dquote) (files w) = ((rc, out, err), fs) →
   get_acl spawn self w
   = (Raise (NameError "stdout"),
      World fs (printed w ++ ["Command: " +:+ MMGETACL +:+ " " +:+ dquote +:+ fn +:+ dquote
                              +:+ " ERROR: " +:+ pretty rc])))
  ∧ (spawn (MMGETACL +:+ " -d " +:+ dquote +:+ fn +:+ dquote) (files w) = ((rc, out, err), fs) →
     get_default_acl spawn self w
     = (Raise (NameError "stdout"),
        World fs (printed w ++ ["Command: " +:+ MMGETACL +:+ " -d " +:+ dquote +:+ fn +:+ dquote
                                +:+ " ERROR: " +:+ pretty rc]))).
Proof.
  intros Hfn Hdn Hrc. split; intros Hs.
  - unfold get_acl. rewrite Hdn, Hfn, !bind_lift.
    rewrite (bind_ok _ _ _ _ _ (execute_command_run spawn _ _ (mmgetacl_nonempty _))).
    rewrite Hs. cbv beta iota. cbn [fst snd]. rewrite decide_True by done.
    rewrite bind_print. unfold raise. cbn [files printed].
    by rewrite !PyStrFacts.app_assoc.
  - unfold get_default_acl. rewrite Hdn, Hfn, !bind_lift.
    rewrite (bind_ok _ _ _ _ _ (execute_command_run spawn _ _ (mmgetacl_nonempty _))).
    rewrite Hs. cbv beta iota. cbn [fst snd]. rewrite decide_True by done.
    rewrite bind_print. unfold raise. cbn [files printed].
    by rewrite !PyStrFacts.app_assoc.
Qed.

(** [get_acl] when the command leaves 0. *)
Lemma get_acl_ok
    (self : mmacls) (fn dn out err : string) (fs : gmap string string) (w : world) :
  filename self = Some fn → dirname self = Some dn →
  spawn (MMGETACL +:+ " " +:+ dquote +:+ fn +:+ dquote) (files w) = ((0, out, err), fs) →
  get_acl spawn self w
  = (match get_acl_loop (get_acl_init fn dn) out with
     | Ok d => Ok (set_acls (Val d) self)
     | Raise e => Raise e
     end, World fs (printed w)).
Proof.
  intros Hfn Hdn Hs. unfold get_acl. rewrite Hdn, Hfn, !bind_lift.
  rewrite (bind_ok _ _ _ _ _ (execute_command_run spawn _ _ (mmgetacl_nonempty _))).
  rewrite Hs. cbv beta iota. cbn [fst snd].
  rewrite decide_False by (intros H; by apply H).
  rewrite !bind_lift. by destruct (get_acl_loop _ _).
Qed.

(** [get_default_acl] starts from a dictionary whose [FQPN] is the
    directory and which has no [DIRNAME]; it assigns [self.default_acls]
    and leaves [self.acls] alone. *)
Theorem get_default_acl_assigns_parsed_output
    (self : mmacls) (fn dn out err : string) (fs : gmap string string) (w : world) :
  filename self = Some fn → dirname self = Some dn →
  spawn (MMGETACL +:+ " -d " +:+ dquote +:+ fn +:+ dquote) (files w) = ((0, out, err), fs) →
  get_default_acl spawn self w
  = (match get_acl_loop (Acl (Some dn) None None None None None None None (Some ∅) (Some ∅)) out with
     | Ok d => Ok (set_default_acls (Val d) self)
     | Raise e => Raise e
     end, World fs (printed w)).
Proof.
  intros Hfn Hdn Hs. unfold get_default_acl. rewrite Hdn, Hfn, !bind_lift.
  rewrite (bind_ok _ _ _ _ _ (execute_command_run spawn _ _ (mmgetacl_nonempty _))).
  rewrite Hs. cbv beta iota. cbn [fst snd].
  rewrite decide_False by (intros H; by apply H).
  rewrite !bind_lift. by destruct (get_acl_loop _ _).
Qed.

(** [write_acl_file] turns down a missing name, record or fallback: it
    prints its error line (and the fallback, for the third) and neither
    creates nor changes a file. The name is looked at first, then the
    record, then the fallback. *)
Theorem write_acl_file_rejects
    (keys : gmap string entry → list string) (path : string) (my : acl)
    (myacls def_acl : option acl) (w : world) :
  path ≠ EmptyString → dict_is_empty my = false →
  write_acl_file keys None myacls def_acl w
  = (Ok tt, World (files w) (printed w ++ ["Error: write_acl_file: 3"]))
  ∧ write_acl_file keys (Some EmptyString) myacls def_acl w
    = (Ok tt, World (files w) (printed w ++ ["Error: write_acl_file: 3"]))
  ∧ write_acl_file keys (Some path) None def_acl w
    = (Ok tt, World (files w) (printed w ++ ["Error: write_acl_file: 1"]))
  ∧ write_acl_file keys (Some path) (Some empty_dict) def_acl w
    = (Ok tt, World (files w) (printed w ++ ["Error: write_acl_file: 1"]))
  ∧ write_acl_file keys (Some path) (Some my) None w
    = (Ok tt, World (files w) (printed w ++ ["Error: write_acl_file: 2"; "None"]))
  ∧ write_acl_file keys (Some path) (Some my) (Some empty_dict) w
    = (Ok tt, World (files w) (printed w ++ ["Error: write_acl_file: 2"; "{}"])).
Proof.
  intros Hpath Hmy. unfold write_acl_file.
  rewrite (decide_True (P := EmptyString = EmptyString)) by done.
  rewrite !(decide_False (P := path = EmptyString)) by done.
  rewrite Hmy.
  assert (dict_is_empty empty_dict = true) as -> by by apply bool_decide_eq_true_2.
  repeat split; rewrite ?bind_print; unfold print; cbn [files printed];
    by rewrite <- ?List.app_assoc.
Qed.

(** When a triad is in neither the record nor the fallback,
    [write_acl_file], once it has opened the file, raises [KeyError] for
    the first such triad. Nothing is printed, and what has gone to the
    file by then is the lines of the triads before it, each from the
    record or else from the fallback: nothing for [USERP], the [user::]
    line for [GROUPP], the [user::] and [group::] lines for [OTHERP].
    [fd.close()] is not reached. *)
Theorem write_acl_file_missing_triad
    (keys : gmap string entry → list string) (path : string) (my def : acl)
    (up gp : string) (w : world) :
  path ≠ EmptyString → dict_is_empty my = false → dict_is_empty def = false →
  (pick (USERP my) (USERP def) = None →
   write_acl_file keys (Some path) (Some my) (Some def) w
   = (Raise (KeyError "USERP"), World (<[path := EmptyString]> (files w)) (printed w)))
  ∧ (pick (USERP my) (USERP def) = Some up → pick (GROUPP my) (GROUPP def) = None →
     write_acl_file keys (Some path) (Some my) (Some def) w
     = (Raise (KeyError "GROUPP"),
        World (<[path := "user::" +:+ up +:+ PyStr.nl]> (files w)) (printed w)))
  ∧ (pick (USERP my) (USERP def) = Some up → pick (GROUPP my) (GROUPP def) = Some gp →
     pick (OTHERP my) (OTHERP def) = None →
     write_acl_file keys (Some path) (Some my) (Some def) w
     = (Raise (KeyError "OTHERP"),
        World (<[path := "user::" +:+ up +:+ PyStr.nl +:+ "group::" +:+ gp +:+ PyStr.nl]> (files w))
              (printed w))).
Proof.
  intros Hpath Hmy Hdef. unfold write_acl_file.
  rewrite decide_False, Hmy, Hdef by done. rewrite bind_open_w.
  assert (∀ (tag key : string) (a b : option string) (t : string) fs pr B (k : unit → M B),
    pick a b = None →
    ((match a with
      | Some p => fd_write path (tag +:+ p +:+ PyStr.nl)
      | None => p ← lift (getitem key b); fd_write path (tag +:+ p +:+ PyStr.nl)
      end) ≫= k) (World (<[path := t]> fs) pr)
    = (Raise (KeyError key), World (<[path := t]> fs) pr)) as Hmissing.
  { intros tag key a b t fs pr B k Hv. destruct a as [p|]; [done|]. cbn [pick] in Hv.
    subst b. by rewrite bind_assoc, bind_lift. }
  assert (∀ (tag key : string) (a b : option string) (v t : string) fs pr B (k : unit → M B),
    pick a b = Some v →
    ((match a with
      | Some p => fd_write path (tag +:+ p +:+ PyStr.nl)
      | None => p ← lift (getitem key b); fd_write path (tag +:+ p +:+ PyStr.nl)
      end) ≫= k) (World (<[path := t]> fs) pr)
    = k tt (World (<[path := t +:+ tag +:+ v +:+ PyStr.nl]> fs) pr)) as Hthere.
  { intros tag key a b v t fs pr B k Hv. destruct a as [p|]; cbn [pick] in Hv.
    - injection Hv as ->. by rewrite (bind_ok _ _ _ _ _ (fd_write_again _ _ _ _ _)).
    - subst b. rewrite bind_assoc, bind_lift. cbn [getitem].
      by rewrite (bind_ok _ _ _ _ _ (fd_write_again _ _ _ _ _)). }
  split; [|split].
  - intros Hu. by rewrite (Hmissing "user::" "USERP").
  - intros Hu Hg. rewrite (Hthere "user::" "USERP" _ _ up) by done.
    by rewrite (Hmissing "group::" "GROUPP").
  - intros Hu Hg Ho. rewrite (Hthere "user::" "USERP" _ _ up) by done.
    rewrite (Hthere "group::" "GROUPP" _ _ gp) by done.
    rewrite (Hmissing "other::" "OTHERP") by done.
    by rewrite !PyStrFacts.app_assoc.
Qed.

Lemma fetch_stage_fails (cmd : string) (verbose : bool) (w : world) :
  cmd ≠ EmptyString → exit_code (spawn cmd (files w)) ≠ 0 →
  ((if verbose then print cmd else mret tt);;
   '(rc, stdout, stderr) ← execute_command spawn (Some cmd) false;
   if decide (rc ≠ 0) then print_failure cmd rc stdout stderr;; mret false
   else mret true) w
  = (Ok false,
     World (spawn cmd (files w)).2
           (printed w ++ (if verbose then [cmd] else []) ++ failure_lines cmd (spawn cmd (files w)))).
Proof.
  intros Hcmd Hrc. unfold exit_code in Hrc.
  destruct verbose; [rewrite bind_print|rewrite bind_ret];
    rewrite (bind_ok _ _ _ _ _ (execute_command_run spawn cmd _ Hcmd));
    cbv beta iota; cbn [files printed]; rewrite decide_True by done;
    unfold print_failure, failure_lines; rewrite bind_assoc, !bind_print;
    cbn [files printed str_or_None default]; by rewrite <- ?List.app_assoc.
Qed.

(** When the first command of [gac_update_acl] or [gac_update_default_acl]
    does not leave 0, the two failure lines are printed and the helper
    returns: the temporary file is not read, nothing is written and no
    second command is run. *)
Theorem gac_update_first_command_fails
    (filename g p : string) (verbose : bool) (w : world) :
  let aclFile := mktemp (files w) in
  (exit_code (spawn (getacl_cmd " -o " aclFile filename) (files w)) ≠ 0 →
   gac_update_acl spawn mktemp filename g p false verbose w
   = (Ok tt,
      World (spawn (getacl_cmd " -o " aclFile filename) (files w)).2
            (printed w ++ (if verbose then [getacl_cmd " -o " aclFile filename] else [])
             ++ failure_lines (getacl_cmd " -o " aclFile filename)
                              (spawn (getacl_cmd " -o " aclFile filename) (files w)))))
  ∧ (exit_code (spawn (getacl_cmd " -d -o " aclFile filename) (files w)) ≠ 0 →
     gac_update_default_acl spawn mktemp filename g p false verbose w
     = (Ok tt,
        World (spawn (getacl_cmd " -d -o " aclFile filename) (files w)).2
              (printed w ++ (if verbose then [getacl_cmd " -d -o " aclFile filename] else [])
               ++ failure_lines (getacl_cmd " -d -o " aclFile filename)
                                (spawn (getacl_cmd " -d -o " aclFile filename) (files w))))).
Proof.
  intros aclFile. split; intros Hrc.
  - unfold gac_update_acl. rewrite (bind_ok _ _ w w aclFile) by reflexivity.
    by rewrite (bind_ok _ _ _ _ _
                  (fetch_stage_fails _ verbose w (getacl_cmd_nonempty " -o " aclFile filename) Hrc)).
  - unfold gac_update_default_acl. rewrite (bind_ok _ _ w w aclFile) by reflexivity.
    by rewrite (bind_ok _ _ _ _ _
                  (fetch_stage_fails _ verbose w (getacl_cmd_nonempty " -d -o " aclFile filename) Hrc)).
Qed.

(** In a dry run the first command is printed, not run: when no file has
    the temporary name, which is the case for a fresh name, opening it
    raises [IOError], before anything is written. *)
Theorem gac_update_dry_run_no_file
    (filename g p : string) (verbose : bool) (w : world) :
  let aclFile := mktemp (files w) in
  files w !! aclFile = None →
  gac_update_acl spawn mktemp filename g p true verbose w
  = (Raise (IOError aclFile), World (files w) (printed w ++ [getacl_cmd " -o " aclFile filename]))
  ∧ gac_update_default_acl spawn mktemp filename g p true verbose w
    = (Raise (IOError aclFile), World (files w) (printed w ++ [getacl_cmd " -d -o " aclFile filename])).
Proof.
  intros aclFile Hnone. split.
  - unfold gac_update_acl. rewrite (bind_ok _ _ w w aclFile) by reflexivity.
    rewrite bind_assoc, bind_print, bind_ret. cbn [negb].
    erewrite bind_raise; [done|]. unfold read_file. cbn [files]. by rewrite Hnone.
  - unfold gac_update_default_acl. rewrite (bind_ok _ _ w w aclFile) by reflexivity.
    rewrite bind_assoc, bind_print, bind_ret. cbn [negb].
    erewrite bind_raise; [done|]. unfold read_file. cbn [files]. by rewrite Hnone.
Qed.

Lemma prefix_app_r (p a b : string) :
  String.prefix p a = true → String.prefix p (a +:+ b) = true.
Proof.
  revert a. induction p as [|x p IH]; intros a H; [apply PyStrFacts.prefix_nil|].
  destruct a as [|y a]; [done|].
  rewrite PyStrFacts.app_cons, PyStrFacts.prefix_cons in *.
  apply andb_true_iff in H as [-> H]. by rewrite IH.
Qed.

Lemma contains_app_intro_l (p a b : string) :
  PyStr.contains p a = true → PyStr.contains p (a +:+ b) = true.
Proof.
  induction a as [|y a IH].
  - rewrite PyStrFacts.contains_nil. intros ->%bool_decide_eq_true.
    apply contains_empty.
  - rewrite PyStrFacts.app_cons, !PyStrFacts.contains_cons.
    intros [H|H]%orb_true_iff.
    + rewrite <- PyStrFacts.app_cons, (prefix_app_r _ _ _ H). done.
    + rewrite IH by done. by rewrite orb_true_r.
Qed.

Lemma contains_app_intro_r (p a b : string) :
  PyStr.contains p b = true → PyStr.contains p (a +:+ b) = true.
Proof.
  intros H. induction a as [|y a IH]; [done|].
  rewrite PyStrFacts.app_cons, PyStrFacts.contains_cons, IH. by rewrite orb_true_r.
Qed.

(** [gac_update_acl] run again on a buffer it has added the group line to:
    the group name is found, so the buffer and every other file stay as
    the first command left them, whatever permissions are asked for now,
    and no second command is run. *)
Theorem gac_update_acl_second_run
    (filename g p p' buf tail : string) (dryrun verbose : bool) (w : world) :
  let aclFile := mktemp (files w) in
  let fetched := after_cmd spawn dryrun (getacl_cmd " -o " aclFile filename) (files w) in
  let buf' := buf +:+ tail +:+ "group:" +:+ g +:+ ":" +:+ p +:+ PyStr.nl in
  (dryrun = false → exit_code (spawn (getacl_cmd " -o " aclFile filename) (files w)) = 0) →
  fetched !! aclFile = Some buf' →
  PyStr.contains "user::" buf = true →
  ∃ w', gac_update_acl spawn mktemp filename g p' dryrun verbose w = (Ok tt, w')
        ∧ files w' = fetched.
Proof.
  intros aclFile fetched buf' Hrc Hbuf Huser.
  destruct (gac_update_acl_files spawn mktemp filename g p' dryrun verbose w buf' Hrc Hbuf)
    as (w' & Hrun & Hfiles & _).
  exists w'. split; [done|]. rewrite Hfiles.
  - assert (PyStr.contains "user::" buf' = true) as ->
      by (by apply contains_app_intro_l).
    rewrite PyStrFacts.app_nil_r. by apply insert_id.
  - unfold buf'. do 3 apply contains_app_intro_r.
    apply PyStrFacts.contains_prefix, PyStrFacts.prefix_app.
Qed.

(** [gac_update_default_acl] on a buffer that has the owner triad: a group
    whose name is in the buffer changes nothing; for any other the buffer
    is handed to [mmputacl -d] with a [mask::r-x-] line, if it had no
    [mask::], and the group line at its end. *)
Theorem gac_update_default_acl_upsert
    (filename g p buf : string) (dryrun verbose : bool) (w : world) :
  let aclFile := mktemp (files w) in
  let fetched := after_cmd spawn dryrun (getacl_cmd " -d -o " aclFile filename) (files w) in
  (dryrun = false → exit_code (spawn (getacl_cmd " -d -o " aclFile filename) (files w)) = 0) →
  fetched !! aclFile = Some buf →
  PyStr.contains "user::" buf = true →
  ∃ w', gac_update_default_acl spawn mktemp filename g p dryrun verbose w = (Ok tt, w')
        ∧ (PyStr.contains g buf = true → files w' = fetched)
        ∧ (PyStr.contains g buf = false →
           files w' = after_cmd spawn dryrun (putacl_cmd " -d -i " aclFile filename)
                        (<[aclFile := buf
                             +:+ (if PyStr.contains "mask::" buf then EmptyString
                                  else "mask::r-x-" +:+ PyStr.nl)
                             +:+ "group:" +:+ g +:+ ":" +:+ p +:+ PyStr.nl]> fetched)).
Proof.
  intros aclFile fetched Hrc Hbuf Huser.
  destruct (gac_update_default_acl_files spawn mktemp filename g p dryrun verbose w buf Hrc Hbuf)
    as (w' & Hrun & Hfound & Hnot).
  exists w'. split; [done|]. rewrite Huser in Hfound, Hnot. cbn [negb orb] in Hnot.
  rewrite PyStrFacts.app_nil_r in Hfound, Hnot.
  split; [|done]. intros Hg. rewrite (Hfound Hg). by apply insert_id.
Qed.

Variable abspath : string → string.
Variable os_dirname : string → string.
Variable stat : string → option bool.

(** The module's [set_acl]: with no ACL file or no file name the command
    cannot be built and [TypeError] is raised before anything is printed;
    else the command is printed in a dry run or when verbose, and run
    unless in a dry run. The method [set_acl] is this function on the
    fields of the object. *)
Theorem set_acl_outcome
    (self : mmacls) (fn af : string) (name aclfile : option string)
    (dry verb : bool) (w : world) :
  set_acl spawn name None dry verb w = (Raise TypeError, w)
  ∧ set_acl spawn None (Some af) dry verb w = (Raise TypeError, w)
  ∧ set_acl spawn (Some fn) (Some af) dry verb w
    = (Ok tt,
       World (after_cmd spawn dry (putacl_cmd " -i " af fn) (files w))
             (printed w
              ++ (if dry || verb then [putacl_cmd " -i " af fn] else [])
              ++ (if dry then []
                  else if decide (exit_code (spawn (putacl_cmd " -i " af fn) (files w)) ≠ 0)
                       then failure_lines (putacl_cmd " -i " af fn)
                                          (spawn (putacl_cmd " -i " af fn) (files w))
                       else [])))
  ∧ mmacls_set_acl spawn self aclfile
    = set_acl spawn (filename self) aclfile (dryrun self) (verbose self).
Proof.
  split; [|split; [|split]].
  - unfold set_acl. by rewrite bind_lift.
  - unfold set_acl. by rewrite !bind_lift.
  - unfold set_acl. rewrite !bind_lift. cbn [str_arg].
    apply (command_tail_run (putacl_cmd " -i " af fn)), putacl_cmd_nonempty.
  - reflexivity.
Qed.

(** The method [set_default_acl] builds its command from [MMPUTACL] and
    ['-d -i '] with no space in between, so what it prints in a dry run
    does not start with the path of [mmputacl] and a space; what the
    module's [set_default_acl] prints does. Neither touches a file in a
    dry run. *)
Theorem set_default_acl_method_command
    (self : mmacls) (fn af : string) (w : world) :
  filename self = Some fn → dryrun self = true →
  mmacls_set_default_acl spawn self (Some af) w
  = (Ok tt, World (files w)
               (printed w ++ [MMPUTACL +:+ "-d -i " +:+ af +:+ " " +:+ dquote +:+ fn +:+ dquote]))
  ∧ set_default_acl spawn (Some fn) (Some af) true (verbose self) w
    = (Ok tt, World (files w)
                 (printed w ++ [MMPUTACL +:+ " -d -i " +:+ af +:+ " " +:+ dquote +:+ fn +:+ dquote]))
  ∧ PyStr.startswith (MMPUTACL +:+ " ")
      (MMPUTACL +:+ "-d -i " +:+ af +:+ " " +:+ dquote +:+ fn +:+ dquote) = false
  ∧ PyStr.startswith (MMPUTACL +:+ " ")
      (MMPUTACL +:+ " -d -i " +:+ af +:+ " " +:+ dquote +:+ fn +:+ dquote) = true.
Proof.
  intros Hfn Hdry. split; [|split; [|split]].
  - unfold mmacls_set_default_acl. by rewrite Hfn, Hdry, !bind_lift.
  - unfold set_default_acl. by rewrite !bind_lift.
  - reflexivity.
  - unfold PyStr.startswith.
    change (MMPUTACL +:+ " -d -i " +:+ af +:+ " " +:+ dquote +:+ fn +:+ dquote)
      with ((MMPUTACL +:+ " ") +:+ "-d -i " +:+ af +:+ " " +:+ dquote +:+ fn +:+ dquote).
    apply PyStrFacts.prefix_app.
Qed.

(** [run_cmd]: no command, no process and [None]; a command that leaves 0
    gives its output; any other exit code raises [UserWarning] with the
    command and the error text in the message. *)
Theorem run_cmd_outcomes
    (cmd out err : string) (rc : Z) (fs fs' : gmap string string) :
  run_cmd spawn None fs = (Returned None, fs)
  ∧ run_cmd spawn (Some EmptyString) fs = (Returned None, fs)
  ∧ (cmd ≠ EmptyString → spawn cmd fs = ((rc, out, err), fs') →
     run_cmd spawn (Some cmd) fs
     = (if decide (rc = 0) then Returned (Some out)
        else UserWarning ("Error" +:+ PyStr.nl +:+ " Command: " +:+ cmd +:+ PyStr.nl
                          +:+ " Message: " +:+ err),
        fs')).
Proof.
  split; [done|]. split; [done|]. intros Hcmd Hs. unfold run_cmd.
  rewrite decide_False by done. rewrite Hs.
  destruct (decide (rc = 0)) as [->|Hrc].
  - by rewrite decide_False by (intros H; by apply H).
  - by rewrite decide_True.
Qed.

(** [mmacls(fname)] for no name or a path that cannot be stat'ed: no
    command is run, [filename] is [None], and neither [dirname] nor [acls]
    is set, so that [get_group_acl] raises [AttributeError]; it does not
    return [????]. *)
Theorem init_missing_file (fname g : option string) (w : world) :
  (∀ f, fname = Some f → stat (abspath f) = None) →
  init spawn abspath os_dirname stat fname w
  = (Ok (Mmacls false false false true fname None None Unset Unset), w)
  ∧ get_group_acl (Mmacls false false false true fname None None Unset Unset) g
    = Raise (AttributeError "acls").
Proof.
  intros Hstat. split; [|done]. unfold init. destruct fname as [f|]; [|done].
  by rewrite (Hstat f).
Qed.

(** [mmacls(fname)] for a path that is there, when [mmgetacl] leaves 0: a
    directory is its own [dirname] and is no file; the object has the
    dictionary read from the output, and no default ACL. *)
Theorem init_reads_acl
    (f out err : string) (isdir : bool) (fs : gmap string string) (w : world) :
  let dn := if isdir then abspath f else os_dirname (abspath f) in
  stat (abspath f) = Some isdir →
  spawn (MMGETACL +:+ " " +:+ dquote +:+ abspath f +:+ dquote) (files w) = ((0, out, err), fs) →
  init spawn abspath os_dirname stat (Some f) w
  = (match get_acl_loop (get_acl_init (abspath f) dn) out with
     | Ok d => Ok (Mmacls false false false (negb isdir) (Some f) (Some (abspath f)) (Some dn)
                          (Val d) Unset)
     | Raise e => Raise e
     end, World fs (printed w)).
Proof.
  intros dn Hstat Hs. unfold init. rewrite Hstat.
  destruct isdir; by rewrite (get_acl_ok _ (abspath f) dn out err fs).
Qed.

Lemma print_lines_run (ls : list string) (w : world) :
  print_lines ls w = (Ok tt, World (files w) (printed w ++ ls)).
Proof.
  revert w. induction ls as [|l ls IH]; intros w.
  - unfold print_lines. cbn [foldr]. rewrite app_nil_r. by destruct w.
  - unfold print_lines in *. cbn [foldr]. rewrite bind_print, IH.
    cbn [files printed]. by rewrite <- List.app_assoc.
Qed.

(** [dump_raw_acl] when its command leaves 0 raises [NameError] on the name
    [output] and prints nothing; [dump_raw_default_acl] prints the lines
    of the output and an empty line. *)
Theorem dump_raw_acl_raises
    (self : mmacls) (fn out err : string) (fs : gmap string string) (w : world) :
  filename self = Some fn →
  (spawn (MMGETACL +:+ " " +:+ dquote +:+ fn +:+ dquote) (files w) = ((0, out, err), fs) →
   dump_raw_acl spawn self w = (Raise (NameError "output"), World fs (printed w)))
  ∧ (spawn (MMGETACL +:+ " -d " +:+ fn) (files w) = ((0, out, err), fs) →
     dump_raw_default_acl spawn self w
     = (Ok tt, World fs (printed w ++ PyStr.splitlines out ++ [EmptyString]))).
Proof.
  intros Hfn. split; intros Hs.
  - unfold dump_raw_acl. rewrite Hfn, bind_lift. cbn [str_arg].
    rewrite (bind_ok _ _ _ _ _ (execute_command_run spawn _ _ (mmgetacl_nonempty _))).
    rewrite Hs. cbv beta iota. cbn [fst snd]. by rewrite decide_True.
  - unfold dump_raw_default_acl. rewrite Hfn, bind_lift. cbn [str_arg].
    rewrite (bind_ok _ _ _ _ _ (execute_command_run spawn _ _ (mmgetacl_nonempty _))).
    rewrite Hs. cbv beta iota. cbn [fst snd]. rewrite decide_True by done.
    rewrite bind_lift, (bind_ok _ _ _ _ _ (print_lines_run _ _)).
    unfold print. cbn [files printed]. by rewrite <- List.app_assoc.
Qed.

End CommandFacts.

Lemma execute_command_debug_prints_witness :
  execute_command (sample_spawn triads_buffer) (Some "/bin/true") false (World ∅ [])
  = (Ok (0, Some EmptyString, Some EmptyString), World ∅ [])
  ∧ execute_command (sample_spawn triads_buffer) (Some "/bin/true") true (World ∅ [])
    = (Ok (0, Some EmptyString, Some EmptyString),
       World ∅ ([] ++ ["DEBUG: Command: " +:+ "/bin/true";
                       "DEBUG: Return Code: " +:+ pretty 0;
                       "DEBUG: STDOUT: " +:+ EmptyString;
                       "DEBUG: STDERR: " +:+ EmptyString])).
Proof.
  apply (execute_command_debug_prints (sample_spawn triads_buffer) "/bin/true"
           EmptyString EmptyString 0 ∅ (World ∅ [])); [discriminate|reflexivity].
Defined.

Lemma get_acl_command_fails_witness :
  get_acl failing_spawn sample_object (World ∅ [])
  = (Raise (NameError "stdout"),
     World ∅ ([] ++ ["Command: " +:+ MMGETACL +:+ " " +:+ dquote +:+ "/data/acl/a" +:+ dquote
                     +:+ " ERROR: " +:+ pretty 1]))
  ∧ get_default_acl failing_spawn sample_object (World ∅ [])
    = (Raise (NameError "stdout"),
       World ∅ ([] ++ ["Command: " +:+ MMGETACL +:+ " -d " +:+ dquote +:+ "/data/acl/a" +:+ dquote
                       +:+ " ERROR: " +:+ pretty 1])).
Proof.
  destruct (get_acl_command_fails failing_spawn sample_object "/data/acl/a" "/data/acl"
              EmptyString "No such file or directory" 1 ∅ (World ∅ []) eq_refl eq_refl)
    as [Hacl Hdef]; [discriminate|].
  split; [by apply Hacl|by apply Hdef].
Defined.

Lemma get_default_acl_assigns_parsed_output_witness :
  get_default_acl (printing_spawn triads_buffer) sample_object (World ∅ [])
  = (match get_acl_loop (Acl (Some "/data/acl") None None None None None None None (Some ∅) (Some ∅))
                        triads_buffer with
     | Ok d => Ok (set_default_acls (Val d) sample_object)
     | Raise e => Raise e
     end, World ∅ []).
Proof.
  by apply (get_default_acl_assigns_parsed_output (printing_spawn triads_buffer) sample_object
              "/data/acl/a" "/data/acl" triads_buffer EmptyString ∅ (World ∅ [])).
Defined.

Lemma write_acl_file_rejects_witness :
  write_acl_file sample_keys None (Some triads_acl) (Some triads_acl) (World ∅ [])
  = (Ok tt, World ∅ ([] ++ ["Error: write_acl_file: 3"]))
  ∧ write_acl_file sample_keys (Some "/tmp/acl") (Some triads_acl) None (World ∅ [])
    = (Ok tt, World ∅ ([] ++ ["Error: write_acl_file: 2"; "None"])).
Proof.
  destruct (write_acl_file_rejects sample_keys "/tmp/acl" triads_acl (Some triads_acl)
              (Some triads_acl) (World ∅ [])) as (H3 & _); [discriminate|by vm_compute|].
  destruct (write_acl_file_rejects sample_keys "/tmp/acl" triads_acl (Some triads_acl)
              None (World ∅ [])) as (_ & _ & _ & _ & H2 & _); [discriminate|by vm_compute|].
  by split.
Defined.

Lemma write_acl_file_missing_triad_witness :
  write_acl_file sample_keys (Some "/tmp/acl") (Some (get_acl_init "/data/acl/a" "/data/acl"))
    (Some (get_acl_init "/data/acl/a" "/data/acl")) (World ∅ [])
  = (Raise (KeyError "USERP"), World (<["/tmp/acl" := EmptyString]> ∅) [])
  ∧ write_acl_file sample_keys (Some "/tmp/acl") (Some (get_acl_init "/data/acl/a" "/data/acl"))
      (Some (set_USERP (Some "rwxc") (get_acl_init "/data/acl/a" "/data/acl"))) (World ∅ [])
    = (Raise (KeyError "GROUPP"),
       World (<["/tmp/acl" := "user::" +:+ "rwxc" +:+ PyStr.nl]> ∅) [])
  ∧ write_acl_file sample_keys (Some "/tmp/acl")
      (Some (set_GROUPP (Some "r-x-") (get_acl_init "/data/acl/a" "/data/acl")))
      (Some (set_USERP (Some "rwxc") (get_acl_init "/data/acl/a" "/data/acl"))) (World ∅ [])
    = (Raise (KeyError "OTHERP"),
       World (<["/tmp/acl" := "user::" +:+ "rwxc" +:+ PyStr.nl
                              +:+ "group::" +:+ "r-x-" +:+ PyStr.nl]> ∅) []).
Proof.
  destruct (write_acl_file_missing_triad sample_keys "/tmp/acl"
              (get_acl_init "/data/acl/a" "/data/acl") (get_acl_init "/data/acl/a" "/data/acl")
              EmptyString EmptyString (World ∅ [])) as (Hu & _);
    [discriminate|by vm_compute..|].
  destruct (write_acl_file_missing_triad sample_keys "/tmp/acl"
              (get_acl_init "/data/acl/a" "/data/acl")
              (set_USERP (Some "rwxc") (get_acl_init "/data/acl/a" "/data/acl"))
              "rwxc" EmptyString (World ∅ [])) as (_ & Hg & _);
    [discriminate|by vm_compute..|].
  destruct (write_acl_file_missing_triad sample_keys "/tmp/acl"
              (set_GROUPP (Some "r-x-") (get_acl_init "/data/acl/a" "/data/acl"))
              (set_USERP (Some "rwxc") (get_acl_init "/data/acl/a" "/data/acl"))
              "rwxc" "r-x-" (World ∅ [])) as (_ & _ & Ho);
    [discriminate|by vm_compute..|].
  split; [|split].
  - by apply Hu.
  - by apply Hg.
  - by apply Ho.
Defined.

Lemma gac_update_first_command_fails_witness :
  ∃ w', gac_update_acl failing_spawn sample_mktemp "/data/acl/a" "devteam" "rwx-" false false
          (World ∅ []) = (Ok tt, w')
        ∧ files w' = ∅ ∧ length (printed w') = 2%nat.
Proof.
  destruct (gac_update_first_command_fails failing_spawn sample_mktemp "/data/acl/a"
              "devteam" "rwx-" false (World ∅ [])) as [H _].
  eexists. split; [apply H; discriminate|]. by split.
Defined.

Lemma gac_update_dry_run_no_file_witness :
  gac_update_acl (sample_spawn triads_buffer) sample_mktemp "/data/acl/a" "devteam" "rwx-"
    true false (World ∅ [])
  = (Raise (IOError "/tmp/tmpacl"),
     World ∅ ([] ++ [getacl_cmd " -o " "/tmp/tmpacl" "/data/acl/a"])).
Proof.
  destruct (gac_update_dry_run_no_file (sample_spawn triads_buffer) sample_mktemp "/data/acl/a"
              "devteam" "rwx-" false (World ∅ [])) as [H _]; [apply lookup_empty|].
  exact H.
Defined.

Lemma gac_update_acl_second_run_witness :
  let buf' := triads_buffer +:+ ("mask::r-x-" +:+ PyStr.nl)
                +:+ "group:" +:+ "devteam" +:+ ":" +:+ "rwx-" +:+ PyStr.nl in
  ∃ w', gac_update_acl (sample_spawn buf') sample_mktemp "/data/acl/a" "devteam" "r---"
          false false (World ∅ []) = (Ok tt, w')
        ∧ files w' = <["/tmp/tmpacl" := buf']> ∅.
Proof.
  intros buf'.
  destruct (gac_update_acl_second_run (sample_spawn buf') sample_mktemp "/data/acl/a" "devteam"
              "rwx-" "r---" triads_buffer ("mask::r-x-" +:+ PyStr.nl) false false (World ∅ []))
    as (w' & Hrun & Hfiles).
  - reflexivity.
  - unfold after_cmd. rewrite sample_spawn_getacl. apply lookup_insert_eq.
  - reflexivity.
  - exists w'. split; [exact Hrun|]. rewrite Hfiles. unfold after_cmd.
    by rewrite sample_spawn_getacl.
Defined.

Lemma gac_update_default_acl_upsert_witness :
  ∃ w', gac_update_default_acl (sample_spawn triads_buffer) sample_mktemp "/data/acl" "devteam"
          "rwx-" false false (World ∅ []) = (Ok tt, w')
        ∧ files w' = <["/tmp/tmpacl" := triads_buffer +:+ ("mask::r-x-" +:+ PyStr.nl)
                                          +:+ "group:" +:+ "devteam" +:+ ":" +:+ "rwx-" +:+ PyStr.nl]>
                       (<["/tmp/tmpacl" := triads_buffer]> ∅).
Proof.
  destruct (gac_update_default_acl_upsert (sample_spawn triads_buffer) sample_mktemp "/data/acl"
              "devteam" "rwx-" triads_buffer false false (World ∅ []))
    as (w' & Hrun & _ & Hfiles).
  - reflexivity.
  - unfold after_cmd. rewrite sample_spawn_getacl. apply lookup_insert_eq.
  - reflexivity.
  - exists w'. split; [exact Hrun|]. rewrite (Hfiles eq_refl). unfold after_cmd.
    by rewrite sample_spawn_putacl, sample_spawn_getacl.
Defined.

Lemma set_default_acl_method_command_witness :
  mmacls_set_default_acl failing_spawn (dryrun_on sample_object) (Some "/tmp/acl") (World ∅ [])
  = (Ok tt, World ∅ ([] ++ [MMPUTACL +:+ "-d -i " +:+ "/tmp/acl" +:+ " " +:+ dquote
                            +:+ "/data/acl/a" +:+ dquote])).
Proof.
  destruct (set_default_acl_method_command failing_spawn (dryrun_on sample_object)
              "/data/acl/a" "/tmp/acl" (World ∅ []) eq_refl eq_refl) as [H _].
  exact H.
Defined.

Lemma run_cmd_outcomes_witness :
  run_cmd failing_spawn (Some "/bin/false") ∅
  = (UserWarning ("Error" +:+ PyStr.nl +:+ " Command: " +:+ "/bin/false" +:+ PyStr.nl
                  +:+ " Message: " +:+ "No such file or directory"), ∅)
  ∧ run_cmd (printing_spawn "done") (Some "/bin/echo done") ∅ = (Returned (Some "done"), ∅).
Proof.
  destruct (run_cmd_outcomes failing_spawn "/bin/false" EmptyString "No such file or directory"
              1 ∅ ∅) as (_ & _ & Hfail).
  destruct (run_cmd_outcomes (printing_spawn "done") "/bin/echo done" "done" EmptyString
              0 ∅ ∅) as (_ & _ & Hok).
  split.
  - apply Hfail; [discriminate|reflexivity].
  - apply Hok; [discriminate|reflexivity].
Defined.

Lemma init_missing_file_witness :
  init failing_spawn sample_abspath sample_os_dirname stat_missing (Some "/data/acl/a") (World ∅ [])
  = (Ok (Mmacls false false false true (Some "/data/acl/a") None None Unset Unset), World ∅ [])
  ∧ get_group_acl (Mmacls false false false true (Some "/data/acl/a") None None Unset Unset)
      (Some "devteam")
    = Raise (AttributeError "acls").
Proof.
  by apply (init_missing_file failing_spawn sample_abspath sample_os_dirname stat_missing
              (Some "/data/acl/a") (Some "devteam") (World ∅ [])).
Defined.

Lemma init_reads_acl_witness :
  init (printing_spawn triads_buffer) sample_abspath sample_os_dirname stat_directory
    (Some "/data/acl") (World ∅ [])
  = (match get_acl_loop (get_acl_init "/data/acl" "/data/acl") triads_buffer with
     | Ok d => Ok (Mmacls false false false false (Some "/data/acl") (Some "/data/acl")
                          (Some "/data/acl") (Val d) Unset)
     | Raise e => Raise e
     end, World ∅ []).
Proof.
  by apply (init_reads_acl (printing_spawn triads_buffer) sample_abspath sample_os_dirname
              stat_directory "/data/acl" triads_buffer EmptyString true ∅ (World ∅ [])).
Defined.

Lemma dump_raw_acl_raises_witness :
  dump_raw_acl (printing_spawn triads_buffer) sample_object (World ∅ [])
  = (Raise (NameError "output"), World ∅ [])
  ∧ dump_raw_default_acl (printing_spawn triads_buffer) sample_object (World ∅ [])
    = (Ok tt, World ∅ ([] ++ PyStr.splitlines triads_buffer ++ [EmptyString])).
Proof.
  destruct (dump_raw_acl_raises (printing_spawn triads_buffer) sample_object "/data/acl/a"
              triads_buffer EmptyString ∅ (World ∅ []) eq_refl) as [Hacl Hdef].
  split; [by apply Hacl|by apply Hdef].
Defined.

(** ** More on the parser *)

Section ParserMore.
Import PyStr PyStrFacts ParserFacts.

Lemma item_cases {A : Type} (l : list A) (i : nat) :
  (∃ x, item l i = Ok x) ∨ item l i = Raise IndexError.
Proof. unfold item. destruct (l !! i); eauto. Qed.

Lemma get_acl_line_kept (d : acl) (line : string) :
  is_Some (USERS d) → is_Some (GROUPS d) →
  (∃ d', get_acl_line d line = Ok d' ∧ kept d d') ∨ get_acl_line d line = Raise IndexError.
Proof.
  intros [users Hu] [groups Hg]. unfold get_acl_line, kept. rewrite Hu, Hg.
  destruct (item_cases (split ":" line) 1) as [[f1 ->]| ->],
           (item_cases (split ":" line) 2) as [[f2 ->]| ->],
           (item_cases (split ":" line) 3) as [[f3 ->]| ->];
    cbn [getitem mbind result_bind mret result_ret];
    repeat (case_match; cbn [getitem mbind result_bind mret result_ret]);
    try (by right);
    left; eexists; (split; [reflexivity|]); cbn; rewrite ?Hu, ?Hg; eauto.
Qed.

(** The loop of [get_acl], from a dictionary that has both maps, ends in a
    dictionary that has both maps and the names it started with, or in
    [IndexError]: a line with too few fields. It raises nothing else, and
    in particular no [KeyError]. *)
Theorem get_acl_loop_raises_only_IndexError (d : acl) (output : string) :
  is_Some (USERS d) → is_Some (GROUPS d) →
  (∃ d', get_acl_loop d output = Ok d' ∧ kept d d')
  ∨ get_acl_loop d output = Raise IndexError.
Proof.
  unfold get_acl_loop. generalize (splitlines output). intros lines.
  revert d. induction lines as [|line lines IH]; intros d Hu Hg.
  - left. exists d. by repeat split.
  - cbn [get_acl_lines].
    destruct (get_acl_line_kept d line Hu Hg) as [(d1 & -> & Hu1 & Hg1 & Hf1 & Hd1)| ->];
      [|by right].
    cbn [mbind result_bind].
    destruct (IH d1 Hu1 Hg1) as [(d' & -> & Hu' & Hg' & Hf' & Hd')| ->]; [|by right].
    left. exists d'. repeat split; try done; congruence.
Qed.

Lemma get_acl_loop_raises_only_IndexError_witness :
  (∃ d', get_acl_loop (get_acl_init "/data/acl/a" "/data/acl") triads_buffer = Ok d'
         ∧ kept (get_acl_init "/data/acl/a" "/data/acl") d')
  ∨ get_acl_loop (get_acl_init "/data/acl/a" "/data/acl") triads_buffer = Raise IndexError.
Proof.
  apply (get_acl_loop_raises_only_IndexError (get_acl_init "/data/acl/a" "/data/acl") triads_buffer);
    by eexists.
Defined.

Lemma prefix_no_char (c : ascii) (p s : string) :
  has_char c p = true → has_char c s = false → String.prefix p s = false.
Proof.
  intros Hp Hs. apply not_true_is_false. intros H.
  by rewrite (prefix_has_char c p s H Hp) in Hs.
Qed.

(** A line with no colon, a blank line for one, changes nothing. *)
Theorem get_acl_line_without_colon (d : acl) (line rest : string) :
  has_char ":" line = false →
  get_acl_line d line = Ok d
  ∧ (one_line line = true → get_acl_loop d (line +:+ nl +:+ rest) = get_acl_loop d rest).
Proof.
  intros Hc.
  assert (get_acl_line d line = Ok d) as Hline.
  { unfold get_acl_line, startswith.
    rewrite (contains_has_char ":" "#owner:"), (contains_has_char ":" "#group:"),
      (contains_has_char ":" "other::"), (contains_has_char ":" "mask::") by done.
    by rewrite (prefix_no_char ":" "user:" line), (prefix_no_char ":" "group:" line). }
  split; [done|]. intros Hl. unfold get_acl_loop.
  rewrite splitlines_app_nl by done. cbn [get_acl_lines]. by rewrite Hline.
Qed.

Lemma get_acl_line_without_colon_witness :
  get_acl_line triads_acl "# a comment" = Ok triads_acl
  ∧ get_acl_loop triads_acl (EmptyString +:+ nl +:+ triads_buffer)
    = get_acl_loop triads_acl triads_buffer.
Proof.
  destruct (get_acl_line_without_colon triads_acl "# a comment" EmptyString) as [H1 _];
    [reflexivity|].
  destruct (get_acl_line_without_colon triads_acl EmptyString triads_buffer) as [_ H2];
    [reflexivity|].
  split; [exact H1|]. by apply H2.
Defined.

(** The header lines: [#owner:<v>] sets [OWNER] and [#group:<v>] sets
    [GROUP], to the text after the colon. *)
Theorem get_acl_line_headers (d : acl) (v : string) :
  has_char ":" v = false →
  get_acl_line d ("#owner:" +:+ v) = Ok (set_OWNER (Some v) d)
  ∧ get_acl_line d ("#group:" +:+ v) = Ok (set_GROUP (Some v) d).
Proof.
  intros Hv. unfold get_acl_line. split.
  - rewrite (contains_prefix "#owner:") by apply (prefix_app "#owner:").
    change ("#owner:" +:+ v) with ("#owner" +:+ String ":" v).
    by rewrite split_app_sep, split_no_sep.
  - assert (contains "#owner:" ("#group:" +:+ v) = false) as ->.
    { change "#owner:" with ("#owner" +:+ String ":" EmptyString).
      change ("#group:" +:+ v) with ("#group" +:+ String ":" v).
      rewrite contains_sep by done.
      by rewrite (contains_has_char ":"). }
    rewrite (contains_prefix "#group:") by apply (prefix_app "#group:").
    change ("#group:" +:+ v) with ("#group" +:+ String ":" v).
    by rewrite split_app_sep, split_no_sep.
Qed.

Lemma get_acl_line_headers_witness :
  get_acl_line triads_acl ("#owner:" +:+ "alice") = Ok (set_OWNER (Some "alice") triads_acl)
  ∧ get_acl_line triads_acl ("#group:" +:+ "staff") = Ok (set_GROUP (Some "staff") triads_acl).
Proof.
  destruct (get_acl_line_headers triads_acl "alice") as [H1 _]; [reflexivity|].
  destruct (get_acl_line_headers triads_acl "staff") as [_ H2]; [reflexivity|].
  by split.
Defined.

(** A named line with no permission field, [user:<name>] or
    [group:<name>], raises [IndexError]. *)
Theorem get_acl_line_short_entry (d : acl) (n : string) :
  is_Some (USERS d) → is_Some (GROUPS d) → name_ok n = true →
  get_acl_line d ("user:" +:+ n) = Raise IndexError
  ∧ get_acl_line d ("group:" +:+ n) = Raise IndexError.
Proof.
  intros [users Hu] [groups Hg] (Hne & Hcn & Hln & Hen & Ho & Hgr)%name_ok_inv.
  assert (∀ kind : string, has_char ":" kind = false →
            endswith "#owner" kind = false → endswith "#group" kind = false →
            contains "#owner:" (kind +:+ String ":" n) = false
            ∧ contains "#group:" (kind +:+ String ":" n) = false
            ∧ split ":" (kind +:+ String ":" n) = [kind; n]) as Hkind.
  { intros kind Hk Hko Hkg.
    change "#owner:" with ("#owner" +:+ String ":" EmptyString).
    change "#group:" with ("#group" +:+ String ":" EmptyString).
    rewrite !contains_sep, Hko, Hkg, split_app_sep, split_no_sep by done.
    by rewrite !(contains_has_char ":") by done. }
  unfold get_acl_line. split.
  - change ("user:" +:+ n) with ("user" +:+ String ":" n).
    destruct (Hkind "user") as (-> & -> & ->); [done..|].
    change (startswith "user:" ("user" +:+ String ":" n)) with (String.prefix EmptyString n).
    rewrite prefix_nil. cbn [item lookup list_lookup mbind result_bind].
    rewrite decide_False by done. by rewrite Hu.
  - change ("group:" +:+ n) with ("group" +:+ String ":" n).
    destruct (Hkind "group") as (-> & -> & ->); [done..|].
    change (startswith "user:" ("group" +:+ String ":" n)) with false.
    change (startswith "group:" ("group" +:+ String ":" n)) with (String.prefix EmptyString n).
    rewrite prefix_nil. cbn [item lookup list_lookup mbind result_bind].
    rewrite decide_False by done. by rewrite Hg.
Qed.

Lemma get_acl_line_short_entry_witness :
  get_acl_line triads_acl ("user:" +:+ "bob") = Raise IndexError
  ∧ get_acl_line triads_acl ("group:" +:+ "bob") = Raise IndexError.
Proof.
  apply (get_acl_line_short_entry triads_acl "bob"); [by eexists|by eexists|reflexivity].
Defined.

(** Two lines for one user: the later one is the entry. *)
Theorem get_acl_loop_last_line_wins (d : acl) (users : gmap string entry) (n p1 p2 : string) :
  USERS d = Some users → name_ok n = true → perms_ok p1 = true → perms_ok p2 = true →
  get_acl_loop d (("user:" +:+ n +:+ ":" +:+ p1) +:+ nl +:+ ("user:" +:+ n +:+ ":" +:+ p2) +:+ nl)
  = Ok (set_USERS (Some (<[n := Entry (slice 0 4 p2) (Some "????")]> users)) d).
Proof.
  intros Hu Hn (Hc1 & Hl1 & He1)%perms_ok_inv (Hc2 & Hl2 & He2)%perms_ok_inv.
  pose proof Hn as (Hne & Hcn & Hln & Hen & Ho & Hg)%name_ok_inv.
  unfold get_acl_loop.
  rewrite splitlines_app_nl by (by rewrite !one_line_app, Hln, Hl1).
  rewrite <- (app_nil_r (_ +:+ nl)), app_assoc.
  rewrite splitlines_app_nl by (by rewrite !one_line_app, Hln, Hl2).
  cbn [get_acl_lines splitlines].
  rewrite (get_acl_line_user_entry d users) by done. cbn [mbind result_bind].
  rewrite (get_acl_line_user_entry _ (<[n := Entry (slice 0 4 p1) (Some "????")]> users)) by done.
  cbn [mbind result_bind mret result_ret]. by rewrite insert_insert_eq.
Qed.

Lemma get_acl_loop_last_line_wins_witness :
  get_acl_loop (get_acl_init "/data/acl/a" "/data/acl")
    (("user:" +:+ "bob" +:+ ":" +:+ "rwx-") +:+ nl +:+ ("user:" +:+ "bob" +:+ ":" +:+ "r---") +:+ nl)
  = Ok (set_USERS (Some (<["bob" := Entry (slice 0 4 "r---") (Some "????")]> ∅))
                  (get_acl_init "/data/acl/a" "/data/acl")).
Proof.
  by apply (get_acl_loop_last_line_wins (get_acl_init "/data/acl/a" "/data/acl") ∅ "bob" "rwx-" "r---").
Defined.

End ParserMore.

(** ** More on the serializer *)

Section SerializerMore.
Variable keys : gmap string entry → list string.
Hypothesis keys_perm : ∀ m, keys m ≡ₚ (map_to_list m).*1.

(** A record that has its three triads is written without a look into the
    fallback: any two fallbacks that are not empty give the same file, and
    the file replaces what was at the path before. *)
Theorem write_acl_file_ignores_fallback
    (path old : string) (my def def' : acl) (up gp op : string) (w : world) :
  path ≠ EmptyString →
  dict_is_empty my = false → dict_is_empty def = false → dict_is_empty def' = false →
  USERP my = Some up → GROUPP my = Some gp → OTHERP my = Some op →
  write_acl_file keys (Some path) (Some my) (Some def) w
  = write_acl_file keys (Some path) (Some my) (Some def') w
  ∧ write_acl_file keys (Some path) (Some my) (Some def) (World (<[path := old]> (files w)) (printed w))
    = write_acl_file keys (Some path) (Some my) (Some def) w.
Proof.
  intros Hpath Hmy Hdef Hdef' Hup Hgp Hop.
  rewrite !(write_acl_file_run keys keys_perm path my _ up gp op)
    by (done || by rewrite ?Hup, ?Hgp, ?Hop).
  split; [done|]. cbn [files printed]. by rewrite insert_insert_eq.
Qed.

End SerializerMore.

Lemma write_acl_file_ignores_fallback_witness :
  write_acl_file sample_keys (Some "/tmp/acl") (Some named_acl) (Some triads_acl) (World ∅ [])
  = write_acl_file sample_keys (Some "/tmp/acl") (Some named_acl) (Some named_acl) (World ∅ []).
Proof.
  destruct (write_acl_file_ignores_fallback sample_keys sample_keys_perm "/tmp/acl" EmptyString
              named_acl triads_acl named_acl "rwxc" "r-x-" "----" (World ∅ [])) as [H _];
    [discriminate|by vm_compute..|reflexivity|reflexivity|reflexivity|].
  exact H.
Defined.
